(** * Substance editing core: a shallow embedding

    The document is a flat store of nodes addressed by id; text nodes hold
    a string, containers hold an ordered list of child ids, annotations
    hold two anchors on a text property.  Every mutation goes through a
    primitive, invertible operation which is applied to the staged
    document and appended to its operation log.  The editing behaviours
    ([NodeEditing], [TextNodeEditing], [ContainerEditing]), the
    orchestrator ([Editing]) and [Transaction] are written in a state
    monad over the transaction in which a thrown exception keeps the state
    reached so far, as a JavaScript [throw] does. *)

From Stdlib Require Import ZArith String List Lia.
From stdpp Require Import base option list strings gmap fin_maps pretty.

Local Open Scope string_scope.
Local Open Scope list_scope.

(** ** Data model *)

Definition Path := list string.

Record Coordinate := mkCoor { path : Path; offset : Z }.

(** Capability class of a node (what [node.isText()], [node.isList()] and
    [node.getEditing()] answer). *)
Inductive NodeClass :=
| TextClass | ContainerClass | ListClass | AnnotationClass | DefaultClass.

(** A node as a JavaScript object: every property the editing code reads,
    with the default of its type when the node's class does not use it. *)
Record Node := mkNode {
  id : string;
  type : string;
  kind : NodeClass;
  content : string;          (* text nodes *)
  nodes : list string;       (* containers: the content path *)
  level : Z;                 (* list items *)
  start : Coordinate;        (* annotations *)
  end_ : Coordinate;
  _isInlineNode : bool;
  autoExpandRight : bool
}.

#[global] Instance Coordinate_eq_dec : EqDecision Coordinate.
Proof. solve_decision. Defined.
#[global] Instance NodeClass_eq_dec : EqDecision NodeClass.
Proof. solve_decision. Defined.
#[global] Instance Node_eq_dec : EqDecision Node.
Proof. solve_decision. Defined.

Definition noCoor : Coordinate := mkCoor [] 0.

Definition textNode (i ty text : string) : Node :=
  mkNode i ty TextClass text [] 0 noCoor noCoor false false.

Definition listItem (i text : string) (lvl : Z) : Node :=
  mkNode i "list-item" TextClass text [] lvl noCoor noCoor false false.

Definition containerNode (i ty : string) (children : list string) : Node :=
  mkNode i ty ContainerClass "" children 0 noCoor noCoor false false.

Definition listNode (i : string) : Node :=
  mkNode i "list" ListClass "" [] 0 noCoor noCoor false false.

Definition annotation (i ty : string) (p : Path) (s e : Z) (inline expand : bool) : Node :=
  mkNode i ty AnnotationClass "" [] 0 (mkCoor p s) (mkCoor p e) inline expand.

Definition set_id (i : string) (n : Node) : Node :=
  mkNode i (type n) (kind n) (content n) (nodes n) (level n) (start n) (end_ n)
         (_isInlineNode n) (autoExpandRight n).
Definition set_type (ty : string) (n : Node) : Node :=
  mkNode (id n) ty (kind n) (content n) (nodes n) (level n) (start n) (end_ n)
         (_isInlineNode n) (autoExpandRight n).
Definition set_content (s : string) (n : Node) : Node :=
  mkNode (id n) (type n) (kind n) s (nodes n) (level n) (start n) (end_ n)
         (_isInlineNode n) (autoExpandRight n).
Definition set_nodes (l : list string) (n : Node) : Node :=
  mkNode (id n) (type n) (kind n) (content n) l (level n) (start n) (end_ n)
         (_isInlineNode n) (autoExpandRight n).
Definition set_level (z : Z) (n : Node) : Node :=
  mkNode (id n) (type n) (kind n) (content n) (nodes n) z (start n) (end_ n)
         (_isInlineNode n) (autoExpandRight n).
Definition set_start (c : Coordinate) (n : Node) : Node :=
  mkNode (id n) (type n) (kind n) (content n) (nodes n) (level n) c (end_ n)
         (_isInlineNode n) (autoExpandRight n).
Definition set_end (c : Coordinate) (n : Node) : Node :=
  mkNode (id n) (type n) (kind n) (content n) (nodes n) (level n) (start n) c
         (_isInlineNode n) (autoExpandRight n).

Definition isText (n : Node) : bool := bool_decide (kind n = TextClass).
Definition isList (n : Node) : bool := bool_decide (kind n = ListClass).
Definition isAnnotation (n : Node) : bool := bool_decide (kind n = AnnotationClass).
Definition isEmpty (n : Node) : bool := String.eqb (content n) "".
Definition getPath (n : Node) : Path := [id n; "content"].
Definition getTextPath (n : Node) : Path := getPath n.
Definition getText (n : Node) : string := content n.
Definition strlen (s : string) : Z := Z.of_nat (String.length s).
Definition getLength (n : Node) : Z :=
  if isText n then strlen (content n) else Z.of_nat (length (nodes n)).

Inductive Selection :=
| NullSelection
| PropertySelection (p : Path) (startOffset endOffset : Z) (containerId : option string)
| ContainerSelection (containerId : string) (s e : Coordinate)
| NodeSelection (containerId nodeId mode : string)
| CustomSelection.

(** ** Operations *)

(** A value written by [tx.set]. *)
Inductive Value := VNum (z : Z) | VCoor (c : Coordinate).

(** Modelled from the spec: the operation classes ([ObjectOperation] and
    the text, array and coordinate diffs) are not among the source files.
    "Operation: primitive, invertible document mutation - create, delete,
    update(path, diff), set(path, value) - where diff is itself invertible
    (insert/delete of text or list elements, value shift)".  An operation
    carries what its inverse needs: the deleted node, text or element, and
    the overwritten value. *)
Inductive Op :=
| OpCreate (n : Node)
| OpDelete (n : Node)
| OpTextInsert (p : Path) (pos : Z) (str : string)
| OpTextDelete (p : Path) (pos : Z) (str : string)
| OpArrayInsert (p : Path) (pos : Z) (val : string)
| OpArrayDelete (p : Path) (pos : Z) (val : string)
| OpShift (p : Path) (val : Z)
| OpSet (p : Path) (old new : Value).

(** Modelled from the spec: [op.invert()], "every Operation has a
    computable inverse such that applying op then inverse(op) is the
    identity". *)
Definition invert (op : Op) : Op :=
  match op with
  | OpCreate n => OpDelete n
  | OpDelete n => OpCreate n
  | OpTextInsert p pos s => OpTextDelete p pos s
  | OpTextDelete p pos s => OpTextInsert p pos s
  | OpArrayInsert p pos v => OpArrayDelete p pos v
  | OpArrayDelete p pos v => OpArrayInsert p pos v
  | OpShift p v => OpShift p (- v)
  | OpSet p old new => OpSet p new old
  end.

Definition str_take (n : Z) (s : string) : string := substring 0 (Z.to_nat n) s.
Definition str_drop (n : Z) (s : string) : string :=
  substring (Z.to_nat n) (String.length s - Z.to_nat n) s.
(** [text.substring(a)] and [text.substring(a, b)] for [a <= b]. *)
Definition substring_from (a : Z) (s : string) : string := str_drop a s.
Definition substring_between (a b : Z) (s : string) : string :=
  substring (Z.to_nat a) (Z.to_nat b - Z.to_nat a) s.

Definition text_insert_at (pos : Z) (t s : string) : string :=
  str_take pos s +:+ t +:+ str_drop pos s.
Definition text_delete_at (pos : Z) (len : Z) (s : string) : string :=
  str_take pos s +:+ str_drop (pos + len) s.

Definition array_insert_at {A} (pos : Z) (v : A) (l : list A) : list A :=
  take (Z.to_nat pos) l ++ v :: drop (Z.to_nat pos) l.
Definition array_delete_at {A} (pos : Z) (l : list A) : list A :=
  take (Z.to_nat pos) l ++ drop (S (Z.to_nat pos)) l.

Definition shift_coor (v : Z) (c : Coordinate) : Coordinate :=
  mkCoor (path c) (offset c + v).

(** Modelled from the spec: the property update an operation performs on
    the node it addresses (insert/delete of text or list elements, value
    shift, set). *)
Definition applyToNode (op : Op) (prop : string) (n : Node) : Node :=
  match op with
  | OpTextInsert _ pos s =>
      if String.eqb prop "content" then set_content (text_insert_at pos s (content n)) n else n
  | OpTextDelete _ pos s =>
      if String.eqb prop "content" then set_content (text_delete_at pos (strlen s) (content n)) n else n
  | OpArrayInsert _ pos v =>
      if String.eqb prop "nodes" then set_nodes (array_insert_at pos v (nodes n)) n else n
  | OpArrayDelete _ pos v =>
      if String.eqb prop "nodes" then set_nodes (array_delete_at pos (nodes n)) n else n
  | OpShift _ v =>
      if String.eqb prop "start" then set_start (shift_coor v (start n)) n
      else if String.eqb prop "end" then set_end (shift_coor v (end_ n)) n else n
  | OpSet _ _ (VNum z) =>
      if String.eqb prop "level" then set_level z n else n
  | OpSet _ _ (VCoor c) =>
      if String.eqb prop "start" then set_start c n
      else if String.eqb prop "end" then set_end c n else n
  | _ => n
  end.

Definition opPath (op : Op) : Path :=
  match op with
  | OpCreate n | OpDelete n => [id n]
  | OpTextInsert p _ _ | OpTextDelete p _ _ | OpArrayInsert p _ _
  | OpArrayDelete p _ _ | OpShift p _ | OpSet p _ _ => p
  end.

Record Schema := mkSchema { defaultTextType : string }.

(** A document: the node store, the log of operations applied since the
    last reset, and the parent back-references kept by [ParentNodeHook]
    (its [table], child id to parent id). *)
Record Document := mkDoc {
  schema : Schema;
  data : gmap string Node;
  _ops : list Op;
  parents : gmap string string
}.

Definition set_data (m : gmap string Node) (d : Document) : Document :=
  mkDoc (schema d) m (_ops d) (parents d).
Definition set_ops (l : list Op) (d : Document) : Document :=
  mkDoc (schema d) (data d) l (parents d).

(** Modelled from the spec: [Document._applyOp], which is not among the
    source files, applies an operation without recording it. *)
Definition _applyOp (op : Op) (d : Document) : Document :=
  match op with
  | OpCreate n => set_data (<[id n := n]> (data d)) d
  | OpDelete n => set_data (delete (id n) (data d)) d
  | _ =>
      match opPath op with
      | i :: prop :: _ => set_data (alter (applyToNode op prop) i (data d)) d
      | _ => d
      end
  end.

(** ** Transactions and the editing monad *)

Definition PlainObject := list (string * string).

(** The properties of a [Transaction] object.  [stage] is the staged
    document (the constructor aliases it to the [_document] of
    [EditingInterface]); [_stage] is a property the constructor never
    assigns, so it reads as [undefined], here [None].  [uuids] stands for
    the source of fresh identifiers behind [uuid()]. *)
Record Transaction := mkTx {
  master : Document;
  stage : Document;
  _stage : option Document;
  _selection : Selection;
  _isTransacting : bool;
  _before : PlainObject;
  _after : PlainObject;
  _info : PlainObject;
  uuids : nat
}.

Definition set_stage (d : Document) (t : Transaction) : Transaction :=
  mkTx (master t) d (_stage t) (_selection t) (_isTransacting t)
       (_before t) (_after t) (_info t) (uuids t).
Definition set_master (d : Document) (t : Transaction) : Transaction :=
  mkTx d (stage t) (_stage t) (_selection t) (_isTransacting t)
       (_before t) (_after t) (_info t) (uuids t).
Definition set_selection (s : Selection) (t : Transaction) : Transaction :=
  mkTx (master t) (stage t) (_stage t) s (_isTransacting t)
       (_before t) (_after t) (_info t) (uuids t).
Definition set_isTransacting (b : bool) (t : Transaction) : Transaction :=
  mkTx (master t) (stage t) (_stage t) (_selection t) b
       (_before t) (_after t) (_info t) (uuids t).
Definition set_infos (b a i : PlainObject) (t : Transaction) : Transaction :=
  mkTx (master t) (stage t) (_stage t) (_selection t) (_isTransacting t) b a i (uuids t).
Definition set_uuids (n : nat) (t : Transaction) : Transaction :=
  mkTx (master t) (stage t) (_stage t) (_selection t) (_isTransacting t)
       (_before t) (_after t) (_info t) n.

Inductive Exception :=
| Error (msg : string)
| TypeError (msg : string)
| OutOfFuel.

Inductive Completion (A : Type) :=
| Normal (a : A)
| Throw (e : Exception).
Arguments Normal {A} a.
Arguments Throw {A} e.

(** A computation on a transaction: the state it leaves and how it
    completed.  The state survives a [Throw]. *)
Definition M (A : Type) : Type := Transaction -> Transaction * Completion A.

Definition ret {A} (a : A) : M A := fun tx => (tx, Normal a).
Definition throw {A} (e : Exception) : M A := fun tx => (tx, Throw e).
Definition bind {A B} (m : M A) (k : A -> M B) : M B :=
  fun tx =>
    match m tx with
    | (tx', Normal a) => k a tx'
    | (tx', Throw e) => (tx', Throw e)
    end.

Notation "'let*' x ':=' m 'in' k" := (bind m (fun x => k))
  (at level 10, x name, m at level 100, k at level 200).
Notation "m '>>' k" := (bind m (fun _ => k))
  (at level 90, right associativity).

Fixpoint forEach {A} (l : list A) (f : A -> M unit) : M unit :=
  match l with
  | [] => ret tt
  | x :: l' => f x >> forEach l' f
  end.

(** ** The document interface of a transaction *)

(** Modelled from the spec: [tx.get], [tx.create], [tx.delete],
    [tx.update], [tx.set], [tx.getAnnotations], [tx.createSelection] and
    [tx.createDefaultTextNode] belong to [EditingInterface] and [Document],
    which are not among the source files.  "Nodes/Annotations are created
    and destroyed only via Operations inside a Transaction"; every
    mutation is applied to the stage and appended to its log; a position
    outside its target breaks the Coordinate invariant
    "0 <= offset <= length(resolved target)" and is rejected. *)
Module tx.

Definition get (i : string) : M (option Node) :=
  fun t => (t, Normal (data (stage t) !! i)).

Definition getSchema : M Schema := fun t => (t, Normal (schema (stage t))).

Definition getSelection : M Selection := fun t => (t, Normal (_selection t)).

Definition setSelection (s : Selection) : M unit :=
  fun t => (set_selection s t, Normal tt).

(** Apply an operation to the stage and record it. *)
Definition record (op : Op) : M unit :=
  fun t =>
    let d := _applyOp op (stage t) in
    (set_stage (set_ops (_ops d ++ [op]) d) t, Normal tt).

Definition uuid (prefix : string) : M string :=
  fun t => (set_uuids (S (uuids t)) t, Normal (prefix +:+ "-" +:+ pretty (uuids t))).

(** The current state of the object [n] stands for: nodes are shared
    mutable objects, an update through the transaction is seen by every
    holder.  An object deleted from the document keeps its last state. *)
Definition live (n : Node) : M Node :=
  let* o := get (id n) in ret (default n o).

(** [tx.get(path)] on a text property. *)
Definition getProperty (p : Path) : M string :=
  match p with
  | [i; "content"] =>
      let* o := get i in
      match o with
      | Some n => ret (content n)
      | None => throw (TypeError "undefined")
      end
  | _ => throw (TypeError "undefined")
  end.

(** A node without id (here the empty id) gets a fresh one. *)
Definition create (nd : Node) : M Node :=
  let* i := (if String.eqb (id nd) "" then uuid (type nd) else ret (id nd)) in
  let n := set_id i nd in
  let* o := get i in
  match o with
  | Some _ => throw (Error "Node already exists")
  | None => record (OpCreate n) >> ret n
  end.

Definition delete (i : string) : M unit :=
  let* o := get i in
  match o with
  | Some n => record (OpDelete n)
  | None => ret tt
  end.

(** The second argument of [tx.update]. *)
Inductive Diff :=
| text_delete (start end_ : Z)              (* { type: 'delete', start, end } *)
| text_insert (start : Z) (text : string)   (* { type: 'insert', start, text } *)
| array_insert (pos : Z) (value : string)   (* { type: 'insert', pos, value } *)
| array_delete (pos : Z)                    (* { type: 'delete', pos } *)
| shift (value : Z).                        (* { type: 'shift', value } *)

(** [tx.update(path, diff)]; a position outside its target is rejected. *)
Definition update (p : Path) (d : Diff) : M unit :=
  match p with
  | [i; prop] =>
      let* o := get i in
      match o with
      | None => throw (Error "Property does not exist")
      | Some n =>
          match d with
          | text_delete s e =>
              if String.eqb prop "content" && (0 <=? s)%Z && (s <=? e)%Z
                 && (e <=? strlen (content n))%Z
              then record (OpTextDelete p s (substring_between s e (content n)))
              else throw (Error "Illegal argument")
          | text_insert s t =>
              if String.eqb prop "content" && (0 <=? s)%Z && (s <=? strlen (content n))%Z
              then record (OpTextInsert p s t)
              else throw (Error "Illegal argument")
          | array_insert pos v =>
              if String.eqb prop "nodes" && (0 <=? pos)%Z
                 && (pos <=? Z.of_nat (length (nodes n)))%Z
              then record (OpArrayInsert p pos v)
              else throw (Error "Illegal argument")
          | array_delete pos =>
              if String.eqb prop "nodes" && (0 <=? pos)%Z
              then match nodes n !! Z.to_nat pos with
                   | Some v => record (OpArrayDelete p pos v)
                   | None => throw (Error "Illegal argument")
                   end
              else throw (Error "Illegal argument")
          | shift v =>
              if String.eqb prop "start" || String.eqb prop "end"
              then record (OpShift p v)
              else throw (Error "Illegal argument")
          end
      end
  | _ => throw (Error "Illegal argument")
  end.

Definition getValue (prop : string) (n : Node) : option Value :=
  if String.eqb prop "level" then Some (VNum (level n))
  else if String.eqb prop "start" then Some (VCoor (start n))
  else if String.eqb prop "end" then Some (VCoor (end_ n))
  else None.

Definition set (p : Path) (v : Value) : M unit :=
  match p with
  | [i; prop] =>
      let* o := get i in
      match o with
      | None => throw (Error "Property does not exist")
      | Some n =>
          match getValue prop n with
          | Some old => record (OpSet p old v)
          | None => throw (Error "Property does not exist")
          end
      end
  | _ => throw (Error "Illegal argument")
  end.

(** The annotations anchored on a text property. *)
Definition annotationsOn (p : Path) (d : Document) : list Node :=
  filter (fun n => isAnnotation n = true /\ path (start n) = p)
         ((map_to_list (data d)).*2).

Definition getAnnotations (p : Path) : M (list Node) :=
  fun t => (t, Normal (annotationsOn p (stage t))).

(** [tx.createSelection({ type: 'property', path, startOffset, containerId })]:
    without [endOffset] the selection is collapsed. *)
Definition createSelection (p : Path) (startOffset : Z) (containerId : option string)
  : M Selection :=
  ret (PropertySelection p startOffset startOffset containerId).

Definition createDefaultTextNode (text : string) : M Node :=
  let* s := getSchema in
  create (textNode "" (defaultTextType s) text).

End tx.

(** ** Node and container accessors *)

(** Modelled from the spec: [DocumentNode.getRoot] is not among the source
    files.  "A node may carry a weak back-reference to its structural
    parent"; the root of a node is where the chain of back-references
    ends.  [fuel] bounds the chain by the size of the table. *)
Fixpoint getRootFrom (fuel : nat) (d : Document) (i : string) : string :=
  match fuel with
  | O => i
  | S fuel' =>
      match parents d !! i with
      | Some p => getRootFrom fuel' d p
      | None => i
      end
  end.

Definition getRoot (d : Document) (i : string) : string :=
  getRootFrom (S (size (parents d))) d i.

Fixpoint indexOfFrom (k : Z) (x : string) (l : list string) : Z :=
  match l with
  | [] => (-1)%Z
  | y :: l' => if String.eqb x y then k else indexOfFrom (k + 1) x l'
  end.
Definition indexOf (x : string) (l : list string) : Z := indexOfFrom 0 x l.

(** Modelled from the spec: the [Container] accessors are not among the
    source files.  "Container: a Node specialization whose content path is
    an ordered sequence of child node ids ... position indices are 0-based
    and contiguous"; the position of a node is the index of the child it
    lies in ([ContainerEditing.merge] compares the id of the child found
    with the id asked for), -1 when there is none. *)
Module Container.

Definition getContentPath (container : Node) : Path := [id container; "nodes"].

(** [container.nodes] *)
Definition nodes (container : Node) : M (list string) :=
  let* c := tx.live container in ret (nodes c).

Definition getLength (container : Node) : M Z :=
  let* l := nodes container in ret (Z.of_nat (length l)).

(** [container.getChildAt(pos)] and [container.getNodeAt(pos)];
    [undefined] outside the content path. *)
Definition getChildAt (container : Node) (pos : Z) : M (option Node) :=
  let* l := nodes container in
  if (pos <? 0)%Z then ret None
  else match l !! Z.to_nat pos with
       | Some i => tx.get i
       | None => ret None
       end.
Definition getNodeAt := getChildAt.

Definition getPosition (container : Node) (nodeId : string) (strict : bool) : M Z :=
  let* l := nodes container in
  let* o := tx.get nodeId in
  fun t =>
    let pos := match o with
               | Some _ => indexOf (getRoot (stage t) nodeId) l
               | None => (-1)%Z
               end in
    if strict && (pos <? 0)%Z
    then (t, Throw (Error "Node is not within this container"))
    else (t, Normal pos).

End Container.

(** ** The annotation policy of [NodeEditing.replaceText]

    The callback of [tx.getAnnotations(path).forEach] in [replaceText], for
    an edit from [start'] to [end'] that inserts [text]. *)
Definition updateAnnotation (start' end' : Coordinate) (text : string) (typeover : bool)
    (anno : Node) : M unit :=
  if (offset (end_ anno) <? offset start')%Z then
    (* Annotation is before the altered area *)
    ret tt
  else if (offset (start anno) >=? offset end')%Z then
    (* Annotation is after the altered area *)
    let shift := (offset start' - offset end' + strlen text)%Z in
    tx.update [id anno; "start"] (tx.shift shift) >>
    tx.update [id anno; "end"] (tx.shift shift)
  else if (offset (start anno) >=? offset start')%Z
          && ((offset (end_ anno) <? offset end')%Z
              || ((offset (end_ anno) <=? offset end')%Z && _isInlineNode anno)) then
    (* Annotation is deleted *)
    tx.delete (id anno)
  else if (offset (start anno) >=? offset start')%Z
          && (offset (end_ anno) >=? offset end')%Z then
    (* Annotation starts within the altered area ends past it *)
    (if (offset (start anno) >? offset start')%Z || negb typeover
     then let shift := (offset start' - offset (start anno) + strlen text)%Z in
          tx.update [id anno; "start"] (tx.shift shift)
     else ret tt) >>
    let shift := (offset start' - offset end' + strlen text)%Z in
    tx.update [id anno; "end"] (tx.shift shift)
  else if (offset (start anno) <? offset start')%Z
          && (offset (end_ anno) <? offset end')%Z then
    (* Annotation starts before the altered area and ends within *)
    let shift := (offset start' - offset (end_ anno) + strlen text)%Z in
    tx.update [id anno; "end"] (tx.shift shift)
  else if (offset (end_ anno) =? offset start')%Z && negb (autoExpandRight anno) then
    (* skip *)
    ret tt
  else if (offset (start anno) <? offset start')%Z
          && (offset (end_ anno) >=? offset end')%Z then
    (* Annotation starts before the altered area and ends past it *)
    if _isInlineNode anno then ret tt
    else let shift := (offset start' - offset end' + strlen text)%Z in
         tx.update [id anno; "end"] (tx.shift shift)
  else
    (* console.warn('TODO: handle annotation update case.') *)
    ret tt.

(** ** Helpers

    [documentHelpers], [annotationHelpers] and [selectionHelpers] are not
    among the source files. *)
Module documentHelpers.

(** Modelled from the spec: [documentHelpers.deleteTextRange] "deletes
    the text range and associated annotation adjustments"; "if one bound
    is absent it defaults to the node's start (offset 0) or end (offset =
    length).  Fails if both bounds are absent."  The adjustments are those
    of the one annotation policy the spec gives, for an empty replacement
    text. *)
Definition deleteTextRange (start' end' : option Coordinate) : M unit :=
  match start', end' with
  | None, None => throw (TypeError "Cannot read properties of null")
  | _, _ =>
      let p := match start', end' with
               | Some s, _ => path s
               | None, Some e => path e
               | None, None => []
               end in
      let* text := tx.getProperty p in
      let s := default (mkCoor p 0) start' in
      let e := default (mkCoor p (strlen text)) end' in
      if negb (bool_decide (path s = path e))
      then throw (Error "start and end must be on one property")
      else
        tx.update p (tx.text_delete (offset s) (offset e)) >>
        let* annos := tx.getAnnotations p in
        forEach annos (updateAnnotation s e "" true)
  end.

(** Modelled from the spec: [documentHelpers.deleteNode], "delete the
    ... node outright". *)
Definition deleteNode (node : Node) : M unit := tx.delete (id node).

End documentHelpers.

Module annotationHelpers.

(** Modelled from the spec: [annotationHelpers.transferAnnotations]
    "transfers annotations anchored at/after the split offset to the new
    node at offset 0"; in a merge "source's text and trailing annotations
    are appended to target". *)
Definition transferAnnotations (p : Path) (offset' : Z) (newPath : Path) (newOffset : Z)
  : M unit :=
  let* annos := tx.getAnnotations p in
  forEach annos (fun a =>
    if (offset (start a) >=? offset')%Z then
      tx.set [id a; "start"] (VCoor (mkCoor newPath (newOffset + offset (start a) - offset'))) >>
      tx.set [id a; "end"] (VCoor (mkCoor newPath (newOffset + offset (end_ a) - offset')))
    else ret tt).

End annotationHelpers.

Module selectionHelpers.

(** Modelled from the spec: [selectionHelpers.isEntirelySelected],
    "entirely selected (the selection covers the whole node)". *)
Definition isEntirelySelected (node : Node) (start' end' : option Coordinate) : M bool :=
  let* n := tx.live node in
  if isText n then
    let isFirst := match start' with
                   | Some s => (offset s =? 0)%Z
                   | None => true
                   end in
    let isLast := match end' with
                  | Some e => negb (offset e <? getLength n)%Z
                  | None => true
                  end in
    ret (isFirst && isLast)
  else ret true.

(** Modelled from the spec: [selectionHelpers.selectCursor], "a boundary
    cursor adjacent to the surviving node": in a text node a collapsed
    property selection at its start or end, otherwise a node selection. *)
Definition selectCursor (node : Node) (containerId : option string) (mode : string)
  : M Selection :=
  let* n := tx.live node in
  if isText n then
    let off := if String.eqb mode "after" then getLength n else 0%Z in
    tx.createSelection (getTextPath n) off containerId
  else ret (NodeSelection (default "" containerId) (id n) mode).

(** Modelled from the spec: [selectionHelpers.createNodeSelection],
    "NodeSelection: nodeId, containerId, mode". *)
Definition createNodeSelection (nodeId containerId : string) : M Selection :=
  ret (NodeSelection containerId nodeId "full").

End selectionHelpers.

(** ** Editing behaviours *)

(** [coor.path[0]], the id of the node a coordinate lies on
    ([Coordinate.getNodeId]). *)
Definition path0 (coor : Coordinate) : string := default "" (head (path coor)).

(** What [splitNode] returns: [{ before, after, replace, selection }]. *)
Record SplitResult := mkSplit {
  before : option Node;
  after : option Node;
  replace : option Node;
  selection : option Selection
}.

(** The outcome of [selectMergeType]: a type tag, [null], or [undefined]
    (the first element of an empty list). *)
Inductive MergeType := TNull | TUndefined | TType (s : string).

Definition isType (t : MergeType) (s : string) : bool :=
  match t with
  | TType s' => String.eqb s' s
  | _ => false
  end.

(** [types.find(type => type === s) || null] *)
Definition findType (s : string) (types : list string) : MergeType :=
  if existsb (String.eqb s) types then TType s else TNull.

(** [types[0]] *)
Definition firstType (types : list string) : MergeType :=
  match types with
  | [] => TUndefined
  | t :: _ => TType t
  end.

Record Options := mkOptions { noMerge : bool }.

(** The argument [node] of [show]: one node (or its id), or an array. *)
Inductive NodeArg := OneNode (i : string) | ManyNodes (l : list string).

(** The [containerEditing] object handed to [convertForMerge] and
    [mergeNode]. *)
Record ContainerEditingI := mkContainerEditing {
  hide_ : Node -> string -> M unit;
  show_ : Node -> NodeArg -> option Z -> M unit
}.

(** [a || b] on numbers and on objects that may be null. *)
Definition or_num (a b : Z) : Z := if (a =? 0)%Z then b else a.
Definition or_else {A} (a b : option A) : option A :=
  match a with
  | Some _ => a
  | None => b
  end.

Module NodeEditing.

Definition splitNode (node : Node) (coor : Coordinate) : M SplitResult :=
  throw (Error "not implemented").

Definition break (container : Node) (coor : Coordinate) : M Selection :=
  throw (Error ("NodeEditing#break is not supported for " +:+ type container +:+ " nodes")).

Definition deleteRange (node : Node) (start' end' : option Coordinate) (options : Options)
  : M (option Selection) :=
  throw (Error "not implemented").

Definition deleteCharacter (node : Node) (coor : Coordinate) (direction : string)
  : M Selection :=
  let offset' := offset coor in
  let path' := path coor in
  let startOffset := if String.eqb direction "left" then (offset' - 1)%Z else offset' in
  let start' := mkCoor path' startOffset in
  let end' := mkCoor path' (startOffset + 1) in
  documentHelpers.deleteTextRange (Some start') (Some end') >>
  tx.createSelection path' startOffset None.

Definition getMergeAsTypes (node : Node) (coor : Coordinate) : M (list string) :=
  ret (if String.eqb (path0 coor) (id node) then [type node] else []).

Definition selectMergeType (node : Node) (types : list string) (coor : Coordinate)
  : M MergeType :=
  ret TNull.

Definition convertForMerge (node : Node) (coor : Coordinate) (type' : MergeType)
    (container : Node) (containerEditing : ContainerEditingI) : M Node :=
  (* console.assert(coor.path[0] === node.id && type === node.type) *)
  hide_ containerEditing container (id node) >>
  ret node.

Definition mergeNode (node : Node) (type' : MergeType) (source : Node) (coor : Coordinate)
    (container : Node) (containerEditing : ContainerEditingI) : M (option Selection) :=
  documentHelpers.deleteNode source >>
  ret None.

Definition replaceText (node : Node) (start' end' : Coordinate) (text : string)
  : M Selection :=
  let path' := path start' in
  (* replace text *)
  let* typeover :=
    (if negb (offset start' =? offset end')%Z
     then tx.update path' (tx.text_delete (offset start') (offset end')) >> ret true
     else ret false) in
  tx.update path' (tx.text_insert (offset start') text) >>
  (* update annotations *)
  let* annos := tx.getAnnotations path' in
  forEach annos (updateAnnotation start' end' text typeover) >>
  tx.createSelection (path start') (offset start' + strlen text) None.

Definition insertText (node : Node) (coor : Coordinate) (text : string) : M Selection :=
  replaceText node coor coor text.

Definition insertNode (node : Node) (coor : Coordinate) (data' : Node) : M unit :=
  throw (Error ("It is not possible to insert node into a " +:+ type node +:+ " node")).

End NodeEditing.

Module TextNodeEditing.

Definition splitNode (node : Node) (coor : Coordinate) : M SplitResult :=
  if (offset coor =? 0)%Z then
    let* b := tx.create (mkNode "" (type node) (kind node) "" [] 0 noCoor noCoor false false) in
    ret (mkSplit (Some b) None None None)
  else
    let* text := tx.getProperty (path coor) in
    let* json := tx.live node in
    let newNode := set_content (substring_from (offset coor) text) (set_id "" json) in
    let* sch := tx.getSchema in
    let newNode :=
      if (offset coor =? strlen text)%Z
      then (* If at the end insert a default text node *)
           set_type (defaultTextType sch) newNode
      else newNode in
    let* newNode := tx.create newNode in
    (* Transfer annotations which are after |coor.offset| to the new node *)
    annotationHelpers.transferAnnotations (path coor) (offset coor) (getPath newNode) 0 >>
    (* Truncate the original property *)
    tx.update (path coor) (tx.text_delete (offset coor) (strlen text)) >>
    ret (mkSplit None (Some newNode) None None).

Definition deleteRange (node : Node) (start' end' : option Coordinate) (options : Options)
  : M (option Selection) :=
  match or_else start' end' with
  | None => throw (TypeError "Cannot read properties of null (reading 'path')")
  | Some c =>
      if negb (String.eqb (path0 c) (id node)) then
        (* console.error: range to delete must be on node passed *)
        ret None
      else
        documentHelpers.deleteTextRange start' end' >>
        (* start = start || end *)
        let start' := c in
        let* sel := tx.createSelection (path start') (or_num (offset start') 0) None in
        ret (Some sel)
  end.

Definition getMergeAsTypes (node : Node) (coor : Coordinate) : M (list string) :=
  if negb (String.eqb (path0 coor) (id node)) then ret []
  else
    let* n := tx.live node in
    ret (if isEmpty n then ["text"; "remove"] else ["text"]).

Definition selectMergeType (node : Node) (types : list string) (coor : Coordinate)
  : M MergeType :=
  if negb (String.eqb (path0 coor) (id node)) then ret TNull
  else
    let* n := tx.live node in
    if isEmpty n then ret (firstType types)
    else ret (findType "text" types).

Definition convertForMerge (node : Node) (coor : Coordinate) (type' : MergeType)
    (container : Node) (containerEditing : ContainerEditingI) : M Node :=
  (* console.assert(node.id === coor.path[0] && type === 'text') *)
  hide_ containerEditing container (id node) >>
  ret node.

Definition mergeNode (node : Node) (type' : MergeType) (source : Node) (coor : Coordinate)
    (container : Node) (containerEditing : ContainerEditingI) : M (option Selection) :=
  if negb (String.eqb (path0 coor) (id node)) then ret None
  else
    let* n := tx.live node in
    if isEmpty n then
      (* If target is empty replace it with source *)
      let* nodePos := Container.getPosition container (id node) false in
      hide_ containerEditing container (id node) >>
      show_ containerEditing container (OneNode (id source)) (Some nodePos) >>
      documentHelpers.deleteNode node >>
      let* sel := selectionHelpers.selectCursor source (Some (id container)) "before" in
      ret (Some sel)
    else if isType type' "text" then
      (* Merge two text nodes *)
      let path' := getPath n in
      let startOffset := getLength n in
      let* src := tx.live source in
      tx.update path' (tx.text_insert startOffset (getText src)) >>
      annotationHelpers.transferAnnotations (getPath source) 0 path' startOffset >>
      documentHelpers.deleteNode source >>
      let* sel := tx.createSelection path' startOffset (Some (id container)) in
      ret (Some sel)
    else
      (* console.warn: invoked with unsupported source type *)
      ret None.

End TextNodeEditing.

(** What [tx.getEditing(node)] returns: an object with the methods the
    container code calls on it.  [merge] and [hide] exist on container
    behaviours only. *)
Module Behaviour.
Record t := mk {
  deleteRange : Node -> option Coordinate -> option Coordinate -> Options
                -> M (option Selection);
  merge : option (Node -> Coordinate -> string -> M (option Selection));
  hide : option (Node -> string -> M unit);
  getMergeAsTypes : Node -> Coordinate -> M (list string);
  selectMergeType : Node -> list string -> Coordinate -> M MergeType;
  convertForMerge : Node -> Coordinate -> MergeType -> Node -> ContainerEditingI -> M Node;
  mergeNode : Node -> MergeType -> Node -> Coordinate -> Node -> ContainerEditingI
              -> M (option Selection)
}.

(** The recursion through nested containers ran out of fuel. *)
Definition exhausted : t :=
  mk (fun _ _ _ _ => throw OutOfFuel) None None
     (fun _ _ => throw OutOfFuel) (fun _ _ _ => throw OutOfFuel)
     (fun _ _ _ _ _ => throw OutOfFuel) (fun _ _ _ _ _ _ => throw OutOfFuel).
End Behaviour.

Definition default_behaviour : Behaviour.t :=
  Behaviour.mk NodeEditing.deleteRange None None
    NodeEditing.getMergeAsTypes NodeEditing.selectMergeType
    NodeEditing.convertForMerge NodeEditing.mergeNode.

Definition text_behaviour : Behaviour.t :=
  Behaviour.mk TextNodeEditing.deleteRange None None
    TextNodeEditing.getMergeAsTypes TextNodeEditing.selectMergeType
    TextNodeEditing.convertForMerge TextNodeEditing.mergeNode.

Module ContainerEditing.
Section Methods.

(** [tx.getEditing] *)
Variable getEditing : Node -> Behaviour.t.

Definition show1 (container : Node) (node : string) (pos : Z) : M unit :=
  tx.update (Container.getContentPath container) (tx.array_insert pos node).

Fixpoint showEach (container : Node) (l : list string) (pos : Z) : M unit :=
  match l with
  | [] => ret tt
  | n :: l' => show1 container n pos >> showEach container l' (pos + 1)
  end.

Definition show (container : Node) (node : NodeArg) (pos : option Z) : M unit :=
  let* pos := match pos with
              | Some p => ret p
              | None => Container.getLength container
              end in
  match node with
  | ManyNodes l => showEach container l pos
  | OneNode i => show1 container i pos
  end.

Definition hideAt (container : Node) (pos : Z) : M unit :=
  tx.update (Container.getContentPath container) (tx.array_delete pos).

Definition hide (container : Node) (node : string) : M unit :=
  let* pos := Container.getPosition container node false in
  hideAt container pos.

Definition this : ContainerEditingI := mkContainerEditing hide show.

Definition getChild (container : Node) (nodePos : Z) : M Node :=
  let* o := Container.getNodeAt container nodePos in
  match o with
  | Some child => ret child
  | None => throw (TypeError "Cannot read properties of undefined")
  end.

Definition mergeNodes (container source : Node) (sourceCoor : Coordinate)
    (target : Node) (targetCoor : Coordinate) (direction : string)
  : M (option Selection) :=
  let sourceEditing := getEditing source in
  let targetEditing := getEditing target in
  let* sourceTypes := Behaviour.getMergeAsTypes sourceEditing source sourceCoor in
  let* type' := Behaviour.selectMergeType targetEditing target sourceTypes targetCoor in
  match type' with
  | TNull =>
      (* No merge is possible *)
      let nodeId := if String.eqb direction "left" then id target else id source in
      let* nodeId :=
        (if existsb (String.eqb "remove") sourceTypes then
           (* Remove source *)
           hide container (id source) >>
           documentHelpers.deleteNode source >>
           ret (id target)
         else ret nodeId) in
      let* sel := selectionHelpers.createNodeSelection nodeId (id container) in
      ret (Some sel)
  | _ =>
      let* sourceNode :=
        Behaviour.convertForMerge sourceEditing source sourceCoor type' container this in
      Behaviour.mergeNode targetEditing target type' sourceNode targetCoor container this
  end.

Definition merge (container : Node) (coor : Coordinate) (direction : string)
  : M (option Selection) :=
  let* nodePos := Container.getPosition container (path0 coor) false in
  let* node := getChild container nodePos in
  let* sel :=
    (if negb (String.eqb (id node) (path0 coor)) then
       (* |coor| is not a direct child of |container|; first try
          delegating merge to |node| *)
       match Behaviour.merge (getEditing node) with
       | Some nodeMerge => nodeMerge node coor direction
       | None => ret None
       end
     else ret None) in
  match sel with
  | Some s => ret (Some s)
  | None =>
      let* len := Container.getLength container in
      if String.eqb direction "left" && (nodePos >? 0)%Z then
        let* target := getChild container (nodePos - 1) in
        (* the coordinate { path: [target.id] } has no offset; no merge
           method reads it *)
        mergeNodes container node coor target (mkCoor [id target] 0) direction
      else if String.eqb direction "right" && (nodePos <? len - 1)%Z then
        let* source := getChild container (nodePos + 1) in
        mergeNodes container source (mkCoor [id source] 0) node coor direction
      else
        (* Nothing to merge *)
        ret None
  end.

Definition getNode (i : string) : M Node :=
  let* o := tx.get i in
  match o with
  | Some n => ret n
  | None => throw (TypeError "Cannot read properties of undefined")
  end.

Definition hideAndDelete (container : Node) (node : Node) : M unit :=
  hide container (id node) >>
  documentHelpers.deleteNode node.

(** [for (let i = endPos-1; i > startPos; --i)], [n] iterations left. *)
Fixpoint deleteInner (n : nat) (container : Node) (i : Z) : M unit :=
  match n with
  | O => ret tt
  | S n' =>
      let* l := Container.nodes container in
      let nodeId := default "" (l !! Z.to_nat i) in
      hide container nodeId >>
      let* node := getNode nodeId in
      documentHelpers.deleteNode node >>
      deleteInner n' container (i - 1)
  end.

Definition deleteRange (container : Node) (start' end' : Coordinate) (options : Options)
  : M (option Selection) :=
  let* startPos := Container.getPosition container (path0 start') true in
  let* endPos := Container.getPosition container (path0 end') true in
  if (startPos =? endPos)%Z then
    (* Selection within a single node *)
    let* child := getChild container startPos in
    Behaviour.deleteRange (getEditing child) child (Some start') (Some end') options
  else
    let* firstNode := getNode (path0 start') in
    let* lastNode := getNode (path0 end') in
    let* firstEntirelySelected :=
      selectionHelpers.isEntirelySelected firstNode (Some start') None in
    let* lastEntirelySelected :=
      selectionHelpers.isEntirelySelected lastNode None (Some end') in
    (if lastEntirelySelected then hideAndDelete container lastNode
     else Behaviour.deleteRange (getEditing lastNode) lastNode None (Some end') options
          >> ret tt) >>
    (* Delete inner nodes *)
    deleteInner (Z.to_nat (endPos - 1 - startPos)) container (endPos - 1) >>
    (if firstEntirelySelected then hideAndDelete container firstNode
     else Behaviour.deleteRange (getEditing firstNode) firstNode (Some start') None options
          >> ret tt) >>
    if firstEntirelySelected && lastEntirelySelected then
      let* node := tx.createDefaultTextNode "" in
      show container (OneNode (id node)) (Some startPos) >>
      let* sel := tx.createSelection (getTextPath node) 0 (Some (id container)) in
      ret (Some sel)
    else if negb firstEntirelySelected && negb lastEntirelySelected then
      if negb (noMerge options) then merge container start' "right"
      else
        let* sel := tx.createSelection (path start') (offset start') (Some (id container)) in
        ret (Some sel)
    else if firstEntirelySelected then
      let* sel := selectionHelpers.selectCursor lastNode (Some (id container)) "before" in
      ret (Some sel)
    else
      let* sel := selectionHelpers.selectCursor firstNode (Some (id container)) "after" in
      ret (Some sel).

(** [coor.path[0] === container.id[0]]: the id is compared with the
    first character of the container's id. *)
Definition firstChar (s : string) : string :=
  match s with
  | String c _ => String c EmptyString
  | EmptyString => EmptyString
  end.

Definition getMergeAsTypes (container : Node) (coor : Coordinate) : M (list string) :=
  if bool_decide (head (path coor) = Some (firstChar (id container)))
     && negb (String.eqb (id container) "")
  then ret ["container"]
  else
    let* nodePos := Container.getPosition container (path0 coor) true in
    let* child := getChild container nodePos in
    let* types := Behaviour.getMergeAsTypes (getEditing child) child coor in
    ret (types ++ ["container"])%list.

Definition selectMergeType (container : Node) (types : list string) (coor : Coordinate)
  : M MergeType :=
  if String.eqb (path0 coor) (id container) then ret (firstType types)
  else
    let* nodePos := Container.getPosition container (path0 coor) true in
    let* child := getChild container nodePos in
    let* type' := Behaviour.selectMergeType (getEditing child) child types coor in
    match type' with
    | TType (String _ _) => ret type'
    | _ => ret (findType "container" types)
    end.

Definition convertForMerge (node : Node) (coor : Coordinate) (type' : MergeType)
    (container : Node) (containerEditing : ContainerEditingI) : M Node :=
  if String.eqb (path0 coor) (id node) then
    (* console.assert(type === 'container') *)
    hide_ containerEditing container (id node) >>
    ret node
  else
    let* nodePos := Container.getPosition node (path0 coor) true in
    let* child := getChild node nodePos in
    Behaviour.convertForMerge (getEditing child) child coor type' node this.

(** [while (source.nodes.length > 0)]: every round hides one child, [n]
    bounds the rounds by the length at the start. *)
Fixpoint hideAll (n : nat) (srcHide : Node -> string -> M unit) (source : Node)
  : M (list string) :=
  match n with
  | O => ret []
  | S n' =>
      let* l := Container.nodes source in
      match last l with
      | None => ret []
      | Some node =>
          srcHide source node >>
          let* rest := hideAll n' srcHide source in
          ret (node :: rest)
      end
  end.

Definition mergeNode (container : Node) (type' : MergeType) (source : Node)
    (coor : Coordinate) (container' : Node) (containerEditing : ContainerEditingI)
  : M (option Selection) :=
  if String.eqb (path0 coor) (id container) then
    if negb (isType type' "container") then
      show container (OneNode (id source)) None >>
      let* sel := selectionHelpers.createNodeSelection (id source) (id container) in
      ret (Some sel)
    else
      let* nodePos := Container.getLength container in
      match Behaviour.hide (getEditing source) with
      | None => throw (TypeError "srcEditing.hide is not a function")
      | Some srcHide =>
          let* l := Container.nodes source in
          (* children are pushed last first and popped again: shown in
             their original order *)
          let* pushed := hideAll (length l) srcHide source in
          forEach (rev pushed) (fun n => show container (OneNode n) None) >>
          documentHelpers.deleteNode source >>
          let* len := Container.getLength container in
          let nodePos := if (nodePos =? len)%Z then (nodePos - 1)%Z else nodePos in
          let* l' := Container.nodes container in
          let nodeId := if (nodePos <? 0)%Z then "" else default "" (l' !! Z.to_nat nodePos) in
          let* sel := selectionHelpers.createNodeSelection nodeId (id container) in
          ret (Some sel)
      end
  else
    let* nodePos := Container.getPosition container (path0 coor) true in
    let* child := getChild container nodePos in
    Behaviour.mergeNode (getEditing child) child type' source coor container this.

Definition behaviour : Behaviour.t :=
  Behaviour.mk
    (fun c s e o =>
       match s, e with
       | Some s, Some e => deleteRange c s e o
       | _, _ => throw (TypeError "Cannot read properties of null")
       end)
    (Some merge) (Some hide)
    getMergeAsTypes selectMergeType convertForMerge mergeNode.

End Methods.
End ContainerEditing.

(** [Editing.getEditing]: the registry built by the constructor holds
    [default], [text] and [container]; any other capability tag falls back
    to [default].  [fuel] bounds the nesting of containers that is
    followed. *)
Definition capability (n : Node) : string :=
  match kind n with
  | TextClass => "text"
  | ContainerClass => "container"
  | ListClass => "list"
  | AnnotationClass => "annotation"
  | DefaultClass => "default"
  end.

Fixpoint getEditing (fuel : nat) (node : Node) : Behaviour.t :=
  match fuel with
  | O => Behaviour.exhausted
  | S fuel' =>
      if String.eqb (capability node) "text" then text_behaviour
      else if String.eqb (capability node) "container"
      then ContainerEditing.behaviour (getEditing fuel')
      else default_behaviour
  end.

(** ** The orchestrator: [indent] and [dedent] *)
Module Editing.

(** [tx.get(nodeId).getRoot()] *)
Definition getRootOf (nodeId : string) : M Node :=
  let* _ := ContainerEditing.getNode nodeId in
  let* root := (fun t => (t, Normal (getRoot (stage t) nodeId))) in
  ContainerEditing.getNode root.

Definition indent : M unit :=
  let* sel := tx.getSelection in
  match sel with
  | PropertySelection p _ _ _ =>
      let nodeId := default "" (head p) in
      (* ATTENTION: we need the root node here, e.g. the list, not the list items *)
      let* node := getRootOf nodeId in
      if isList node then
        let itemId := default "" (head p) in
        let* item := tx.get itemId in
        match item with
        | Some item =>
            (* Note: allowing only 3 levels *)
            if (level item <? 3)%Z
            then tx.set [itemId; "level"] (VNum (level item + 1))
            else ret tt
        | None => ret tt
        end
      else ret tt
  | ContainerSelection _ _ _ =>
      (* console.error('TODO: support toggleList with ContainerSelection') *)
      ret tt
  | _ => ret tt
  end.

Definition dedent : M unit :=
  let* sel := tx.getSelection in
  match sel with
  | PropertySelection p _ _ _ =>
      let nodeId := default "" (head p) in
      let* node := getRootOf nodeId in
      if isList node then
        let itemId := default "" (head p) in
        let* item := tx.get itemId in
        match item with
        | Some item =>
            if (level item >? 1)%Z
            then tx.set [itemId; "level"] (VNum (level item - 1))
            else ret tt
        | None => ret tt
        end
      else ret tt
  | ContainerSelection _ _ _ => ret tt
  | _ => ret tt
  end.

End Editing.


(** ** Deleting and typing at the selection

    The method [deleteCharacter] of the behaviours and the methods
    [delete], [_deleteNodeSelection] and [insertText] of the orchestrator.
    The modules [TextNodeEditing'], [ContainerEditing'] and [Editing']
    continue [TextNodeEditing], [ContainerEditing] and [Editing]. *)

(** The [root] argument of [deleteCharacter]: [{ node, editing }]. *)
Record Root := mkRoot { root_node : Node; root_editing : Behaviour.t }.

(** The method [deleteCharacter(tx, node, coor, direction, container,
    root)] of a behaviour.  No behaviour of the registry reads
    [container], which is left out. *)
Definition DeleteCharacter : Type :=
  Node -> Coordinate -> string -> option Root -> M (option Selection).

Module NodeEditing'.

Definition deleteCharacter : DeleteCharacter :=
  fun node coor direction root =>
    let* sel := NodeEditing.deleteCharacter node coor direction in
    ret (Some sel).

End NodeEditing'.

Module TextNodeEditing'.

Definition deleteCharacter : DeleteCharacter :=
  fun node coor direction root =>
    let* n := tx.live node in
    let text := content n in
    let offset' := offset coor in
    match root with
    | Some r =>
        (* needsMerge *)
        if ((offset' =? 0)%Z && String.eqb direction "left")
           || ((offset' =? strlen text)%Z && String.eqb direction "right")
        then
          match Behaviour.merge (root_editing r) with
          | Some merge => merge (root_node r) coor direction
          | None => throw (TypeError "root.editing.merge is not a function")
          end
        else NodeEditing'.deleteCharacter node coor direction root
    | None =>
        (* [root && (...)] is [null] *)
        NodeEditing'.deleteCharacter node coor direction root
    end.

End TextNodeEditing'.

Module ContainerEditing'.

(** [deleteCharacterOf] is [tx.getEditing(node).deleteCharacter]. *)
Definition deleteCharacter (deleteCharacterOf : Node -> DeleteCharacter)
  : DeleteCharacter :=
  fun container coor direction root =>
    let* nodePos := Container.getPosition container (path0 coor) false in
    let* node := ContainerEditing.getChild container nodePos in
    deleteCharacterOf node node coor direction root.

(** [cntedit.hideAt], [cntedit.hide] and [cntedit.show] for a behaviour
    [cntedit] of the registry: methods of [ContainerEditing] alone, so a
    behaviour has them exactly when it has [hide]. *)
Definition hideAtOf (cntedit : Behaviour.t) (container : Node) (pos : Z) : M unit :=
  match Behaviour.hide cntedit with
  | Some _ => ContainerEditing.hideAt container pos
  | None => throw (TypeError "cntedit.hideAt is not a function")
  end.

Definition hideOf (cntedit : Behaviour.t) (container : Node) (node : string) : M unit :=
  match Behaviour.hide cntedit with
  | Some hide => hide container node
  | None => throw (TypeError "cntedit.hide is not a function")
  end.

Definition showOf (cntedit : Behaviour.t) (container : Node) (node : NodeArg)
    (pos : option Z) : M unit :=
  match Behaviour.hide cntedit with
  | Some _ => ContainerEditing.show container node pos
  | None => throw (TypeError "cntedit.show is not a function")
  end.

End ContainerEditing'.

(** [tx.getEditing(node).deleteCharacter] for the registry of
    [getEditing]. *)
Fixpoint deleteCharacterOf (fuel : nat) (node : Node) : DeleteCharacter :=
  match fuel with
  | O => fun _ _ _ _ => throw OutOfFuel
  | S fuel' =>
      if String.eqb (capability node) "text" then TextNodeEditing'.deleteCharacter
      else if String.eqb (capability node) "container"
      then ContainerEditing'.deleteCharacter (deleteCharacterOf fuel')
      else NodeEditing'.deleteCharacter
  end.

Module Editing'.

(** [sel.containerId] *)
Definition containerId (sel : Selection) : option string :=
  match sel with
  | PropertySelection _ _ _ c => c
  | ContainerSelection c _ _ => Some c
  | NodeSelection c _ _ => Some c
  | _ => None
  end.

(** [tx.get(sel.containerId)]; [undefined] without a container id. *)
Definition getContainer (sel : Selection) : M (option Node) :=
  match containerId sel with
  | Some c => tx.get c
  | None => ret None
  end.

(** [this.getEditing(node)] reads [node.getEditing()]. *)
Definition defined (o : option Node) : M Node :=
  match o with
  | Some n => ret n
  | None => throw (TypeError "Cannot read properties of undefined (reading 'getEditing')")
  end.

(** Modelled from the spec: [selectionHelpers.setCursor], [selectCursor]
    put into the transaction. *)
Definition setCursor (node : Node) (containerId : option string) (mode : string) : M unit :=
  let* sel := selectionHelpers.selectCursor node containerId mode in
  tx.setSelection sel.

Section Methods.

(** [this.getEditing] and [this.delete] *)
Variable getEditing : Node -> Behaviour.t.
Variable deleteCharacterOf : Node -> DeleteCharacter.
Variable delete : string -> M (option Selection).

Definition _deleteNodeSelection (container : option Node) (nodeId mode : string)
    (direction : string) : M unit :=
  let* container := defined container in
  let cntedit := getEditing container in
  let* nodePos := Container.getPosition container nodeId true in
  if String.eqb mode "full"
     || (String.eqb mode "before" && String.eqb direction "right")
     || (String.eqb mode "after" && String.eqb direction "left")
  then
    (* replace the node with default text node *)
    ContainerEditing'.hideAtOf cntedit container nodePos >>
    let* node := ContainerEditing.getNode nodeId in
    documentHelpers.deleteNode node >>
    let* newNode := tx.createDefaultTextNode "" in
    ContainerEditing'.showOf cntedit container (OneNode (id newNode)) (Some nodePos) >>
    tx.setSelection (PropertySelection (getTextPath newNode) 0 0 (Some (id container)))
  else if String.eqb mode "before" && String.eqb direction "left" then
    if (nodePos >? 0)%Z then
      let* previous := ContainerEditing.getChild container (nodePos - 1) in
      if isText previous then
        tx.setSelection (PropertySelection (getTextPath previous) (getLength previous)
                           (getLength previous) None) >>
        delete direction >> ret tt
      else
        tx.setSelection (NodeSelection (id container) (id previous) "full")
    else
      (* nothing to do *)
      ret tt
  else if String.eqb mode "after" && String.eqb direction "right" then
    let* len := Container.getLength container in
    if (nodePos <? len - 1)%Z then
      let* next := ContainerEditing.getChild container (nodePos + 1) in
      if isText next then
        tx.setSelection (PropertySelection (getTextPath next) 0 0 None) >>
        delete direction >> ret tt
      else
        tx.setSelection (NodeSelection (id container) (id next) "full")
    else
      (* nothing to do *)
      ret tt
  else
    (* console.warn('Unsupported case: delete(%s)', direction, sel) *)
    ret tt.

End Methods.

(** [undefined] is [None]; the last branch returns the selection. *)
Fixpoint delete (fuel : nat) (direction : string) : M (option Selection) :=
  match fuel with
  | O => throw OutOfFuel
  | S fuel' =>
      let* sel := tx.getSelection in
      let* container := getContainer sel in
      match sel with
      | NodeSelection _ nodeId mode =>
          _deleteNodeSelection (getEditing fuel') (delete fuel') container nodeId mode
            direction >>
          ret None
      | CustomSelection => throw (Error "not implemented")
      | PropertySelection p s e cid =>
          if (s =? e)%Z then
            let* sel' :=
              match container with
              | Some container =>
                  let cntedit := getEditing fuel' container in
                  deleteCharacterOf fuel' container container (mkCoor p s) direction
                    (Some (mkRoot container cntedit))
              | None =>
                  let* node := tx.get (path0 (mkCoor p s)) in
                  let* node := defined node in
                  deleteCharacterOf fuel' node node (mkCoor p s) direction None
              end in
            (* [... || sel] *)
            tx.setSelection (default sel sel') >>
            ret None
          else
            documentHelpers.deleteTextRange (Some (mkCoor p s)) (Some (mkCoor p e)) >>
            (* [sel.collapse('left')] *)
            tx.setSelection (PropertySelection p s s cid) >>
            ret None
      | ContainerSelection _ s e =>
          let* container := defined container in
          let cntedit := getEditing fuel' container in
          let* sel' := Behaviour.deleteRange cntedit container (Some s) (Some e)
                         (mkOptions false) in
          tx.setSelection (default NullSelection sel') >>
          ret None
      | NullSelection =>
          (* console.warn('Unsupported case: tx.delete(%)', direction, sel) *)
          ret (Some sel)
      end
  end.

(** [editing.insertText] and [editing.replaceText] are those of
    [NodeEditing] for every behaviour of the registry. *)
Fixpoint insertText (fuel : nat) (text : string) : M unit :=
  match fuel with
  | O => throw OutOfFuel
  | S fuel' =>
      let* sel := tx.getSelection in
      match sel with
      | NodeSelection containerId nodeId mode =>
          (* type over a selected node or insert a paragraph before or after *)
          let* container := tx.get containerId in
          let* container := defined container in
          let cntedit := getEditing fuel' container in
          let* nodePos := Container.getPosition container nodeId true in
          let* textNode := tx.createDefaultTextNode text in
          (if String.eqb mode "before" then
             ContainerEditing'.showOf cntedit container (OneNode (id textNode)) (Some nodePos)
           else if String.eqb mode "after" then
             ContainerEditing'.showOf cntedit container (OneNode (id textNode))
               (Some (nodePos + 1)%Z)
           else
             ContainerEditing'.hideOf cntedit container nodeId >>
             let* node := ContainerEditing.getNode nodeId in
             documentHelpers.deleteNode node >>
             ContainerEditing'.showOf cntedit container (OneNode (id textNode))
               (Some nodePos)) >>
          setCursor textNode (Some containerId) "after"
      | CustomSelection =>
          (* TODO: what to do with custom selections? *)
          ret tt
      | PropertySelection p s e _ =>
          let* node := tx.get (path0 (mkCoor p s)) in
          let* node := defined node in
          let* sel' :=
            (if (s =? e)%Z then NodeEditing.insertText node (mkCoor p s) text
             else NodeEditing.replaceText node (mkCoor p s) (mkCoor p e) text) in
          tx.setSelection sel'
      | ContainerSelection containerId s e =>
          if bool_decide (s = e) then
            (* a collapsed selection *)
            let* node := tx.get (path0 s) in
            let* node := defined node in
            let* sel' := NodeEditing.insertText node s text in
            tx.setSelection sel'
          else
            let* container := tx.get containerId in
            let* container := defined container in
            let* sel' := Behaviour.deleteRange (getEditing fuel' container) container
                           (Some s) (Some e) (mkOptions false) in
            tx.setSelection (default NullSelection sel') >>
            insertText fuel' text
      | NullSelection => ret tt
      end
  end.

End Editing'.

(** ** [Transaction] *)

Record DocumentChange := mkChange {
  ops : list Op;
  change_before : Selection;
  change_after : Selection
}.

Module TransactionImpl.

(** Modelled from the spec: [doc.newInstance()] is not among the source
    files; an empty instance of the same schema. *)
Definition newInstance (doc : Document) : Document := mkDoc (schema doc) ∅ [] ∅.

Definition constructor (doc : Document) : Transaction :=
  mkTx doc (newInstance doc) None NullSelection false [] [] [] 0.

Definition _reset : M unit :=
  fun t =>
    (set_selection NullSelection
       (set_stage (set_ops [] (stage t)) (set_infos [] [] [] t)), Normal tt).

(** [for (let i = ops.length - 1; i >= 0; i--) stage._applyOp(ops[i].invert())] *)
Definition undoAll (ops' : list Op) (d : Document) : Document :=
  foldl (fun d op => _applyOp (invert op) d) d (rev ops').

(** [const stage = this.stage; let ops = this._stage._ops]: the log is
    read through [_stage], not through [stage]. *)
Definition _rollback : M unit :=
  fun t =>
    let stage' := stage t in
    match _stage t with
    | None => (t, Throw (TypeError "Cannot read properties of undefined (reading '_ops')"))
    | Some s =>
        let ops' := _ops s in
        let stage'' := undoAll ops' stage' in
        (mkTx (master t) stage'' (Some (set_ops [] s)) (_selection t) (_isTransacting t)
              (_before t) (_after t) (_info t) (uuids t), Normal tt)
    end.

Definition _sync : M unit :=
  fun t =>
    let stage' := foldl (fun d op => _applyOp op d) (stage t) (_ops (master t)) in
    (set_master (set_ops [] (master t)) (set_stage stage' t), Normal tt).

(** [transformation] is [None] when the argument is not a function. *)
Definition _recordChange (transformation : option (Selection -> M unit))
    (selection' : Selection) : M (option DocumentChange) :=
  fun t =>
    if _isTransacting t
    then (t, Throw (Error "Nested transactions are not supported."))
    else
      match transformation with
      | None =>
          (t, Throw (Error "Document.transaction() requires a transformation function."))
      | Some transformation =>
          let t := set_isTransacting true t in
          let t := fst (_reset t) in
          let try :=
            tx.setSelection selection' >>
            let* selBefore := tx.getSelection in
            transformation selBefore >>
            fun t' =>
              let ops' := _ops (stage t') in
              (t', Normal (if (0 <? length ops')%nat
                           then Some (mkChange ops' selBefore (_selection t'))
                           else None)) in
          match try t with
          | (t', Normal change) =>
              (* finally, hasFinished *)
              (set_isTransacting false t', Normal change)
          | (t', Throw e) =>
              (* finally, not hasFinished; an exception of the rollback
                 replaces the pending one and skips the rest *)
              match _rollback t' with
              | (t'', Normal _) => (set_isTransacting false t'', Throw e)
              | (t'', Throw e') => (t'', Throw e')
              end
          end
      end.

End TransactionImpl.

(** ** Scenarios *)

Definition note : Schema := mkSchema "paragraph".

Definition emptyDoc : Document := mkDoc note ∅ [] ∅.

Definition open (d : Document) : Transaction :=
  mkTx d d None NullSelection false [] [] [] 0.

(** The bounds of an annotation and the text of a node in a document. *)
Definition bounds (d : Document) (i : string) : option (Z * Z) :=
  n ← data d !! i; Some (offset (start n), offset (end_ n)).
Definition anchoredOn (d : Document) (i : string) : option Path :=
  n ← data d !! i; Some (path (start n)).
Definition textOf (d : Document) (i : string) : option string :=
  content <$> data d !! i.
Definition childrenOf (d : Document) (i : string) : option (list string) :=
  nodes <$> data d !! i.

(** "hello world" with one annotation on [0,5). *)
Definition hello : Node := textNode "p1" "paragraph" "hello world".
Definition helloDoc (inline expand : bool) : Document :=
  mkDoc note
    (<["a1" := annotation "a1" "strong" ["p1"; "content"] 0 5 inline expand]>
       (<["p1" := hello]> ∅)) [] ∅.

(** Two adjacent paragraphs "foo" and "bar", the second one annotated on
    [1,3). *)
Definition foo : Node := textNode "t" "paragraph" "foo".
Definition bar : Node := textNode "s" "paragraph" "bar".
Definition body : Node := containerNode "body" "container" ["t"; "s"].
Definition fooBarDoc : Document :=
  mkDoc note
    (<["a1" := annotation "a1" "strong" ["s"; "content"] 1 3 false true]>
       (<["t" := foo]> (<["s" := bar]> (<["body" := body]> ∅)))) [] ∅.

(** A transformation that creates a paragraph and then fails. *)
Definition createThenFail (_ : Selection) : M unit :=
  tx.create (textNode "p1" "paragraph" "x") >>
  throw (Error "failed").

(** A list with one item at level [lvl], the cursor in the item. *)
Definition listDoc (lvl : Z) : Document :=
  mkDoc note
    (<["i1" := listItem "i1" "item" lvl]> (<["l1" := listNode "l1"]> ∅))
    [] {["i1" := "l1"]}.
Definition inItem (lvl : Z) : Transaction :=
  set_selection (PropertySelection ["i1"; "content"] 0 0 (Some "body")) (open (listDoc lvl)).

Inductive Command := Indent | Dedent.

Definition exec (c : Command) : M unit :=
  match c with
  | Indent => Editing.indent
  | Dedent => Editing.dedent
  end.

Definition execAll (cs : list Command) : M unit := forEach cs exec.

(** The state a recorded operation leaves. *)
Definition commit (op : Op) (t : Transaction) : Transaction :=
  let d := _applyOp op (stage t) in
  set_stage (set_ops (_ops d ++ [op]) d) t.
Arguments commit : simpl never.

(** Every node is stored under its own id. *)
Definition wf_store (m : gmap string Node) : Prop :=
  forall i n, m !! i = Some n -> id n = i.

(** The item the cursor is in, its level, and whether its root is a list. *)
Definition cursorItem (t : Transaction) : option string :=
  match _selection t with
  | PropertySelection p _ _ _ => head p
  | _ => None
  end.
Definition levelOf (t : Transaction) (i : string) : option Z :=
  level <$> data (stage t) !! i.
Definition rootIsList (t : Transaction) (i : string) : option bool :=
  isList <$> data (stage t) !! getRoot (stage t) i.

(** The cursor is in the node [i], which has level [l] and whose root is
    ([b] true) or is not ([b] false) a list. *)
Definition InItem (t : Transaction) (i : string) (l : Z) (b : bool) : Prop :=
  cursorItem t = Some i /\ levelOf t i = Some l /\ rootIsList t i = Some b.

Definition indented (l : Z) : Z := if (l <? 3)%Z then (l + 1)%Z else l.
Definition dedented (l : Z) : Z := if (l >? 1)%Z then (l - 1)%Z else l.

(** The id [tx.create] gives to a node of type [ty] that has none. *)
Definition nextId (t : Transaction) (ty : string) : string :=
  ty +:+ "-" +:+ pretty (uuids t).

(** An annotation moved by [transferAnnotations]. *)
Definition transferred (offset' : Z) (newPath : Path) (newOffset : Z) (a : Node) : Node :=
  set_end (mkCoor newPath (newOffset + offset (end_ a) - offset'))
    (set_start (mkCoor newPath (newOffset + offset (start a) - offset')) a).

(** "hello world" annotated on "hello" and on "world". *)
Definition splitDoc : Document :=
  mkDoc note
    (<["a2" := annotation "a2" "emphasis" ["p1"; "content"] 6 11 false true]>
       (data (helloDoc false true))) [] ∅.

(** A computation that only reads the transaction. *)
Definition readonly {A} (m : M A) : Prop := forall t, fst (m t) = t.

(** A default node (say an image) followed by an empty paragraph. *)
Definition figure : Node :=
  mkNode "img" "image" DefaultClass "" [] 0 noCoor noCoor false false.
Definition blank : Node := textNode "e" "paragraph" "".
Definition gallery : Node := containerNode "body" "container" ["img"; "e"].
Definition galleryDoc : Document :=
  mkDoc note (<["img" := figure]> (<["e" := blank]> (<["body" := gallery]> ∅))) [] ∅.

(** The operations that take the child [x] at position [k] out of the
    container [cid] and delete it; those for the children [l] that sit at
    positions [k], [k+1], ..., last position first. *)
Definition removal (cid : string) (m : gmap string Node) (k : Z) (x : string) : list Op :=
  match m !! x with
  | Some n => [OpArrayDelete [cid; "nodes"] k x; OpDelete n]
  | None => []
  end.

Fixpoint removalsDescending (cid : string) (m : gmap string Node) (k : Z) (l : list string)
  : list Op :=
  match l with
  | [] => []
  | x :: l' => (removalsDescending cid m (k + 1) l' ++ removal cid m k x)%list
  end.

(** The state [t] reached from [t0] once the children [gone] of the
    container [cid] have been hidden and deleted: the container shows [l],
    the log grew by [log], and nothing else changed. *)
Definition removed (t0 t : Transaction) (cid : string) (c : Node) (l gone : list string)
    (log : list Op) : Prop :=
  data (stage t) !! cid = Some (set_nodes l c)
  /\ (forall i, i <> cid -> i ∉ gone -> data (stage t) !! i = data (stage t0) !! i)
  /\ (forall i, i ∈ gone -> data (stage t) !! i = None)
  /\ parents (stage t) = parents (stage t0)
  /\ schema (stage t) = schema (stage t0)
  /\ uuids t = uuids t0
  /\ _ops (stage t) = (_ops (stage t0) ++ log)%list.

(** Four paragraphs in a body. *)
Definition quartet : Node := containerNode "body" "container" ["a"; "b"; "c"; "d"].
Definition quartetDoc : Document :=
  mkDoc note
    (<["a" := textNode "a" "paragraph" "one"]>
       (<["b" := textNode "b" "paragraph" "two"]>
          (<["c" := textNode "c" "paragraph" "three"]>
             (<["d" := textNode "d" "paragraph" "four"]>
                (<["body" := quartet]> ∅))))) [] ∅.

(** A child of the container [cid] that can be taken out: it is not the
    container itself, it is in the document under its id, and it has no
    parent (it is its own root). *)
Definition removable (t0 : Transaction) (cid x : string) : Prop :=
  x <> cid /\ (exists n, data (stage t0) !! x = Some n /\ id n = x)
  /\ parents (stage t0) !! x = None.

(** ** The annotation policy, case by case *)

(** The branch of the [if]/[else if] chain in the callback of
    [NodeEditing.replaceText] that an annotation takes; [Unhandled] is the
    final [else] with its [console.warn]. *)
Inductive AnnotationCase :=
| IsBefore | IsAfter | IsCovered | StartsWithin | EndsWithin | AtInsertionPoint
| Spans | Unhandled.

Definition annotationCase (start' end' : Coordinate) (anno : Node) : AnnotationCase :=
  if (offset (end_ anno) <? offset start')%Z then IsBefore
  else if (offset (start anno) >=? offset end')%Z then IsAfter
  else if (offset (start anno) >=? offset start')%Z
          && ((offset (end_ anno) <? offset end')%Z
              || ((offset (end_ anno) <=? offset end')%Z && _isInlineNode anno))
  then IsCovered
  else if (offset (start anno) >=? offset start')%Z
          && (offset (end_ anno) >=? offset end')%Z
  then StartsWithin
  else if (offset (start anno) <? offset start')%Z
          && (offset (end_ anno) <? offset end')%Z
  then EndsWithin
  else if (offset (end_ anno) =? offset start')%Z && negb (autoExpandRight anno)
  then AtInsertionPoint
  else if (offset (start anno) <? offset start')%Z
          && (offset (end_ anno) >=? offset end')%Z
  then Spans
  else Unhandled.

(** [tx.update([anno.id, 'start'], { type: 'shift', value })] on the node. *)
Definition shiftStart (v : Z) (a : Node) : Node := set_start (shift_coor v (start a)) a.
Definition shiftEnd (v : Z) (a : Node) : Node := set_end (shift_coor v (end_ a)) a.

(** What the branch does to the annotation: [None] when it is deleted. *)
Definition afterEdit (start' end' : Coordinate) (text : string) (typeover : bool)
    (anno : Node) : option Node :=
  let delta := (offset start' - offset end' + strlen text)%Z in
  match annotationCase start' end' anno with
  | IsBefore => Some anno
  | IsAfter => Some (shiftEnd delta (shiftStart delta anno))
  | IsCovered => None
  | StartsWithin =>
      Some (shiftEnd delta
              (if (offset (start anno) >? offset start')%Z || negb typeover
               then shiftStart (offset start' - offset (start anno) + strlen text) anno
               else anno))
  | EndsWithin => Some (shiftEnd (offset start' - offset (end_ anno) + strlen text) anno)
  | AtInsertionPoint => Some anno
  | Spans => if _isInlineNode anno then Some anno else Some (shiftEnd delta anno)
  | Unhandled => Some anno
  end.

(** An annotation anchored on the property [p]. *)
Definition annotates (p : Path) (a : Node) : bool :=
  isAnnotation a && bool_decide (path (start a) = p).

(** The anchors of an annotation lie in order within a text of length
    [len]. *)
Definition anchoredWithin (len : Z) (a : Node) : Prop :=
  (0 <= offset (start a) <= offset (end_ a))%Z /\ (offset (end_ a) <= len)%Z.

(** An inline node is one character long. *)
Definition inlineLength (a : Node) : Prop :=
  _isInlineNode a = true -> offset (end_ a) = (offset (start a) + 1)%Z.

(** Two states of a transaction that differ at most in the node store and
    the operation log of the stage. *)
Definition sameSession (t t' : Transaction) : Prop :=
  schema (stage t') = schema (stage t)
  /\ parents (stage t') = parents (stage t)
  /\ uuids t' = uuids t
  /\ _selection t' = _selection t
  /\ _isTransacting t' = _isTransacting t.


(** An empty paragraph followed by "bar". *)
Definition lead : Node := containerNode "body" "container" ["e"; "s"].
Definition leadDoc : Document :=
  mkDoc note (<["e" := blank]> (<["s" := bar]> (<["body" := lead]> ∅))) [] ∅.


(** ** Undoing a log *)

(** An operation as the document interface records it: it fits the
    document [d] it is applied to ([tx.create] on a free id, [tx.delete]
    with the node deleted, [tx.update] within the text or the list and
    with the text or element it removes, [tx.set] with the value it
    overwrites). *)
Definition recordable (op : Op) (d : Document) : Prop :=
  match op with
  | OpCreate n => data d !! id n = None
  | OpDelete n => data d !! id n = Some n
  | OpTextInsert p pos s =>
      exists i n, p = [i; "content"] /\ data d !! i = Some n
                  /\ (0 <= pos <= strlen (content n))%Z
  | OpTextDelete p pos s =>
      exists i n e, p = [i; "content"] /\ data d !! i = Some n
                    /\ (0 <= pos <= e)%Z /\ (e <= strlen (content n))%Z
                    /\ s = substring_between pos e (content n)
  | OpArrayInsert p pos v =>
      exists i n, p = [i; "nodes"] /\ data d !! i = Some n
                  /\ (0 <= pos <= Z.of_nat (length (nodes n)))%Z
  | OpArrayDelete p pos v =>
      exists i n, p = [i; "nodes"] /\ data d !! i = Some n
                  /\ (0 <= pos)%Z /\ nodes n !! Z.to_nat pos = Some v
  | OpShift p v =>
      exists i prop, p = [i; prop] /\ is_Some (data d !! i)
  | OpSet p old new =>
      exists i prop n, p = [i; prop] /\ data d !! i = Some n
                       /\ tx.getValue prop n = Some old
  end.

(** A log whose operations were recorded one after the other, starting
    from [d]. *)
Fixpoint recordedFrom (d : Document) (log : list Op) : Prop :=
  match log with
  | [] => True
  | op :: log' => recordable op d /\ recordedFrom (_applyOp op d) log'
  end.

(** [stage._applyOp(op)] for every operation of a log. *)
Definition applyAll (log : list Op) (d : Document) : Document :=
  foldl (fun d op => _applyOp op d) d log.

(** * Properties *)

(** ** Transactions *)

Lemma rollback_without_stage t :
  _stage t = None ->
  TransactionImpl._rollback t
  = (t, Throw (TypeError "Cannot read properties of undefined (reading '_ops')")).
Proof. intros H. unfold TransactionImpl._rollback. now rewrite H. Qed.

(** A transaction made by the constructor never gets a [_stage]: whatever
    the transformation does, a failure ends in the [TypeError] of
    [_rollback], with the stage as the transformation left it and the
    transaction still marked as running. *)
Lemma recordChange_failure_keeps_stage t f sel t' e :
  _isTransacting t = false ->
  (tx.setSelection sel >> let* s := tx.getSelection in f s)
    (fst (TransactionImpl._reset (set_isTransacting true t))) = (t', Throw e) ->
  _stage t' = None ->
  TransactionImpl._recordChange (Some f) sel t
  = (t', Throw (TypeError "Cannot read properties of undefined (reading '_ops')")).
Proof.
  intros Hrun Hbody Hnone. unfold TransactionImpl._recordChange. rewrite Hrun.
  unfold bind in *.
  destruct (tx.setSelection sel _) as [t1 [[]|e1]]; simpl in *.
  - destruct (f _ t1) as [t2 [[]|e2]]; simpl in *; try discriminate.
    injection Hbody as -> ->. now rewrite rollback_without_stage.
  - injection Hbody as -> ->. now rewrite rollback_without_stage.
Qed.

(** C1, at a failing input: a transformation that creates one paragraph
    and then throws, in a fresh transaction on an empty document.  The
    rollback reads the unassigned property [_stage] and throws before any
    inverse operation is applied: the created paragraph and the recorded
    operation stay in the staged document, and the transaction stays
    marked as running. *)
Theorem recordChange_rollback_fails :
  let r := TransactionImpl._recordChange (Some createThenFail) NullSelection
             (TransactionImpl.constructor emptyDoc) in
  snd r = Throw (TypeError "Cannot read properties of undefined (reading '_ops')")
  /\ data (stage (fst r)) !! "p1" = Some (textNode "p1" "paragraph" "x")
  /\ _ops (stage (fst r)) = [OpCreate (textNode "p1" "paragraph" "x")]
  /\ data (stage (TransactionImpl.constructor emptyDoc)) !! "p1" = None
  /\ _ops (stage (TransactionImpl.constructor emptyDoc)) = []
  /\ _isTransacting (fst r) = true.
Proof. vm_compute. repeat split. Qed.

(** Had the rollback reached its loop, the inverses applied last first
    would have emptied the staged document again. *)
Example undoAll_would_restore :
  let t := fst (TransactionImpl._recordChange (Some createThenFail) NullSelection
                  (TransactionImpl.constructor emptyDoc)) in
  data (TransactionImpl.undoAll (_ops (stage t)) (stage t))
  = data (stage (TransactionImpl.constructor emptyDoc)).
Proof. vm_compute. reflexivity. Qed.

Lemma invert_involutive op : invert (invert op) = op.
Proof. destruct op; simpl; try reflexivity. now rewrite Z.opp_involutive. Qed.

(** C8: entering [_recordChange] while [_isTransacting] is set throws
    "Nested transactions are not supported." and leaves the transaction,
    its staged document and its operation log as they were. *)
Theorem recordChange_nested t transformation sel :
  _isTransacting t = true ->
  TransactionImpl._recordChange transformation sel t
  = (t, Throw (Error "Nested transactions are not supported.")).
Proof. intros H. unfold TransactionImpl._recordChange. now rewrite H. Qed.

Lemma recordChange_nested_witness :
  TransactionImpl._recordChange (Some createThenFail) NullSelection
    (set_isTransacting true (TransactionImpl.constructor emptyDoc))
  = (set_isTransacting true (TransactionImpl.constructor emptyDoc),
     Throw (Error "Nested transactions are not supported.")).
Proof. apply recordChange_nested. reflexivity. Defined.

(** A transformation that starts a transaction on its own transaction
    meets the guard. *)
Example recordChange_reentrant :
  let inner (_ : Selection) : M unit :=
    TransactionImpl._recordChange (Some createThenFail) NullSelection >> ret tt in
  snd (tx.setSelection NullSelection
       (fst (TransactionImpl._reset
          (set_isTransacting true (TransactionImpl.constructor emptyDoc)))))
  = Normal tt
  /\ snd (inner NullSelection
            (set_isTransacting true (TransactionImpl.constructor emptyDoc)))
     = Throw (Error "Nested transactions are not supported.").
Proof. vm_compute. split; reflexivity. Qed.

(** ** Text replacement *)

(** An annotation that ends strictly before the edit is left alone. *)
Lemma updateAnnotation_before start' end' text typeover anno t :
  (offset (end_ anno) < offset start')%Z ->
  updateAnnotation start' end' text typeover anno t = (t, Normal tt).
Proof.
  intros H. unfold updateAnnotation.
  destruct (Z.ltb_spec (offset (end_ anno)) (offset start')); [reflexivity | lia].
Qed.

(** C2, as stated, fails: after replacing the space of "hello world" by
    "-", the annotation on [0,5) is no longer on [0,5). *)
Lemma replaceText_hello_counterexample :
  let r := NodeEditing.replaceText hello (mkCoor ["p1"; "content"] 5)
             (mkCoor ["p1"; "content"] 6) "-" (open (helloDoc false true)) in
  ~ (bounds (stage (fst r)) "a1" = Some (0, 5)%Z
     /\ textOf (stage (fst r)) "p1" = Some "hello-world").
Proof. vm_compute. intros [H _]. discriminate H. Qed.

(** C2, amended, for an annotation that is not an inline node and
    auto-expands to the right.  The text becomes "hello-world" and the
    cursor ends after the inserted text.  The annotation ends exactly
    where the edit starts, so it is not before the altered area ([5 < 5]
    fails): the text is inserted at its end boundary and taken into it,
    the end anchor moves by [start - anno.end + length text = 1] and the
    annotation covers [0,6).  What is before the altered area, and left
    alone by the policy for every edit, is an annotation whose end is
    strictly less than the start offset. *)
Theorem replaceText_hello :
  (let r := NodeEditing.replaceText hello (mkCoor ["p1"; "content"] 5)
              (mkCoor ["p1"; "content"] 6) "-" (open (helloDoc false true)) in
   snd r = Normal (PropertySelection ["p1"; "content"] 6 6 None)
   /\ textOf (stage (fst r)) "p1" = Some "hello-world"
   /\ bounds (stage (fst r)) "a1" = Some (0, 6)%Z
   /\ _ops (stage (fst r))
      = [OpTextDelete ["p1"; "content"] 5 " "; OpTextInsert ["p1"; "content"] 5 "-";
         OpShift ["a1"; "end"] 1])
  /\ (forall start' end' text typeover anno t,
        (offset (end_ anno) < offset start')%Z ->
        updateAnnotation start' end' text typeover anno t = (t, Normal tt)).
Proof.
  split.
  - vm_compute. repeat split.
  - intros start' end' text typeover anno t H. now apply updateAnnotation_before.
Qed.

(** The same edit with the annotation on [0,4): it ends before the
    altered area and the policy leaves it alone. *)
Lemma replaceText_hello_witness :
  updateAnnotation (mkCoor ["p1"; "content"] 5) (mkCoor ["p1"; "content"] 6) "-" true
    (annotation "a1" "strong" ["p1"; "content"] 0 4 false true)
    (open (helloDoc false true))
  = (open (helloDoc false true), Normal tt).
Proof. apply (proj2 replaceText_hello). reflexivity. Defined.

(** C10: [insertText] is [replaceText] on the collapsed range: no text
    is deleted, the typeover flag is false, the text is inserted at the
    coordinate and every annotation on the path goes through the policy
    with equal start and end. *)
Theorem insertText_is_collapsed_replaceText node coor text :
  NodeEditing.insertText node coor text = NodeEditing.replaceText node coor coor text
  /\ forall t,
       NodeEditing.insertText node coor text t
       = (tx.update (path coor) (tx.text_insert (offset coor) text) >>
          let* annos := tx.getAnnotations (path coor) in
          forEach annos (updateAnnotation coor coor text false) >>
          tx.createSelection (path coor) (offset coor + strlen text) None) t.
Proof.
  split; [reflexivity |]. intros t.
  unfold NodeEditing.insertText, NodeEditing.replaceText.
  rewrite Z.eqb_refl. reflexivity.
Qed.

(** ** Text nodes *)

(** C7, at a failing input: deleting from an absent start to offset 5 of
    "hello world" removes "hello" and returns a cursor at offset 5, the
    end bound, not at offset 0 where the deletion started. *)
Theorem deleteRange_absent_start :
  let r := TextNodeEditing.deleteRange hello None (Some (mkCoor ["p1"; "content"] 5))
             (mkOptions false) (open (helloDoc false true)) in
  snd r = Normal (Some (PropertySelection ["p1"; "content"] 5 5 None))
  /\ textOf (stage (fst r)) "p1" = Some " world".
Proof. vm_compute. split; reflexivity. Qed.

(** Whenever [deleteRange] returns a selection, it is the cursor at the
    first bound that is present: at the start bound, or, when that is
    absent, at the end bound. *)
Lemma deleteRange_cursor node start' end' options t t' sel :
  TextNodeEditing.deleteRange node start' end' options t = (t', Normal (Some sel)) ->
  exists c, or_else start' end' = Some c
            /\ sel = PropertySelection (path c) (offset c) (offset c) None.
Proof.
  unfold TextNodeEditing.deleteRange. intros H.
  destruct (or_else start' end') as [c|]; [|discriminate].
  destruct (negb (path0 c =? id node)%string); [discriminate|].
  unfold bind in H.
  destruct (documentHelpers.deleteTextRange start' end' t) as [t1 [[]|e]]; [|discriminate].
  simpl in H. injection H as _ <-. exists c. split; [reflexivity|].
  unfold or_num. now destruct (Z.eqb_spec (offset c) 0) as [->|].
Qed.

(** With the start bound present the cursor is at the deletion start. *)
Example deleteRange_with_start :
  let r := TextNodeEditing.deleteRange hello (Some (mkCoor ["p1"; "content"] 2))
             (Some (mkCoor ["p1"; "content"] 5)) (mkOptions false)
             (open (helloDoc false true)) in
  snd r = Normal (Some (PropertySelection ["p1"; "content"] 2 2 None))
  /\ textOf (stage (fst r)) "p1" = Some "he world".
Proof. vm_compute. split; reflexivity. Qed.

(** C6: merging "bar" into "foo", from the start of "bar" leftwards or
    from the end of "foo" rightwards: the target holds "foobar", the
    source is gone from the container and from the document, its
    annotation on [1,3) now lies on the target at [4,6), and the cursor
    is at offset 3 of the target. *)
Theorem merge_foo_bar (fuel : nat) (fromLeft : bool) :
  let r := if fromLeft
           then ContainerEditing.merge (getEditing (S fuel)) body
                  (mkCoor ["s"; "content"] 0) "left" (open fooBarDoc)
           else ContainerEditing.merge (getEditing (S fuel)) body
                  (mkCoor ["t"; "content"] 3) "right" (open fooBarDoc) in
  snd r = Normal (Some (PropertySelection ["t"; "content"] 3 3 (Some "body")))
  /\ textOf (stage (fst r)) "t" = Some "foobar"
  /\ childrenOf (stage (fst r)) "body" = Some ["t"]
  /\ data (stage (fst r)) !! "s" = None
  /\ anchoredOn (stage (fst r)) "a1" = Some ["t"; "content"]
  /\ bounds (stage (fst r)) "a1" = Some (4, 6)%Z
  /\ _ops (stage (fst r))
     = [OpArrayDelete ["body"; "nodes"] 1 "s";
        OpTextInsert ["t"; "content"] 3 "bar";
        OpSet ["a1"; "start"] (VCoor (mkCoor ["s"; "content"] 1))
                              (VCoor (mkCoor ["t"; "content"] 4));
        OpSet ["a1"; "end"] (VCoor (mkCoor ["s"; "content"] 3))
                            (VCoor (mkCoor ["t"; "content"] 6));
        OpDelete bar].
Proof. destruct fromLeft; vm_compute; repeat split. Qed.

(** ** Indent and dedent *)

Lemma getRootFrom_parents n d d' i :
  parents d = parents d' -> getRootFrom n d i = getRootFrom n d' i.
Proof.
  intros E. revert i. induction n as [|n IH]; intros i; simpl; [reflexivity |].
  rewrite E. destruct (parents d' !! i); auto.
Qed.

Lemma getRoot_parents d d' i : parents d = parents d' -> getRoot d i = getRoot d' i.
Proof. intros E. unfold getRoot. rewrite E. now apply getRootFrom_parents. Qed.

Lemma parents_applyOp op d : parents (_applyOp op d) = parents d.
Proof.
  unfold _applyOp.
  destruct op; simpl; try reflexivity;
    repeat match goal with |- context [match ?p with _ => _ end] => destruct p end;
    reflexivity.
Qed.

Lemma getRoot_commit op t i : getRoot (stage (commit op t)) i = getRoot (stage t) i.
Proof. apply getRoot_parents. simpl. apply parents_applyOp. Qed.

Lemma set_level_run t i n z :
  data (stage t) !! i = Some n ->
  tx.set [i; "level"] (VNum z) t
  = (commit (OpSet [i; "level"] (VNum (level n)) (VNum z)) t, Normal tt).
Proof. intros H. unfold tx.set, bind, tx.get. rewrite H. reflexivity. Qed.

Lemma data_commit_set_level t i old z :
  data (stage (commit (OpSet [i; "level"] old (VNum z)) t))
  = alter (set_level z) i (data (stage t)).
Proof. reflexivity. Qed.

Lemma InItem_set_level t i l b old z :
  InItem t i l b -> InItem (commit (OpSet [i; "level"] old (VNum z)) t) i z b.
Proof.
  intros (Hc & Hl & Hr). unfold InItem, levelOf, rootIsList in *.
  rewrite getRoot_commit, data_commit_set_level. repeat split.
  - exact Hc.
  - rewrite lookup_alter_eq. destruct (data (stage t) !! i); [reflexivity | discriminate].
  - destruct (decide (i = getRoot (stage t) i)) as [E | E].
    + rewrite <- E in *. rewrite lookup_alter_eq.
      destruct (data (stage t) !! i); [exact Hr | discriminate].
    + now rewrite lookup_alter_ne.
Qed.

Lemma indent_run t i l b :
  InItem t i l b ->
  Editing.indent t
  = (if b && (l <? 3)%Z
     then commit (OpSet [i; "level"] (VNum l) (VNum (l + 1))) t else t, Normal tt).
Proof.
  intros (Hc & Hl & Hr). unfold cursorItem, levelOf, rootIsList in *.
  unfold Editing.indent, bind, tx.getSelection.
  destruct (_selection t) as [|p so eo cid| | |]; try discriminate.
  rewrite Hc. simpl.
  unfold Editing.getRootOf, ContainerEditing.getNode, bind, tx.get, ret.
  destruct (data (stage t) !! i) as [item|] eqn:Hi; [|discriminate].
  injection Hl as <-.
  destruct (data (stage t) !! getRoot (stage t) i) as [r|]; [|discriminate].
  simpl in Hr. injection Hr as Hr. rewrite Hr.
  destruct b; simpl; [|reflexivity]. rewrite Hi.
  destruct (level item <? 3)%Z; [|reflexivity].
  rewrite Hi. reflexivity.
Qed.

Lemma dedent_run t i l b :
  InItem t i l b ->
  Editing.dedent t
  = (if b && (l >? 1)%Z
     then commit (OpSet [i; "level"] (VNum l) (VNum (l - 1))) t else t, Normal tt).
Proof.
  intros (Hc & Hl & Hr). unfold cursorItem, levelOf, rootIsList in *.
  unfold Editing.dedent, bind, tx.getSelection.
  destruct (_selection t) as [|p so eo cid| | |]; try discriminate.
  rewrite Hc. simpl.
  unfold Editing.getRootOf, ContainerEditing.getNode, bind, tx.get, ret.
  destruct (data (stage t) !! i) as [item|] eqn:Hi; [|discriminate].
  injection Hl as <-.
  destruct (data (stage t) !! getRoot (stage t) i) as [r|]; [|discriminate].
  simpl in Hr. injection Hr as Hr. rewrite Hr.
  destruct b; simpl; [|reflexivity]. rewrite Hi.
  destruct (level item >? 1)%Z; [|reflexivity].
  rewrite Hi. reflexivity.
Qed.

Lemma exec_list_item t i l c :
  InItem t i l true ->
  exists t', exec c t = (t', Normal tt)
             /\ InItem t' i (match c with Indent => indented l | Dedent => dedented l end) true.
Proof.
  intros H. destruct c; simpl.
  - rewrite (indent_run t i l true H). simpl. unfold indented.
    destruct (l <? 3)%Z; eexists; split; try reflexivity; [|exact H].
    now apply InItem_set_level with (l := l).
  - rewrite (dedent_run t i l true H). simpl. unfold dedented.
    destruct (l >? 1)%Z; eexists; split; try reflexivity; [|exact H].
    now apply InItem_set_level with (l := l).
Qed.

Lemma clamp_step l c :
  (1 <= l <= 3)%Z ->
  (1 <= match c with Indent => indented l | Dedent => dedented l end <= 3)%Z.
Proof.
  intros H. destruct c; unfold indented, dedented.
  - destruct (Z.ltb_spec l 3); lia.
  - destruct (Z.gtb_spec l 1); lia.
Qed.

Lemma execAll_list_item cs : forall t i l,
  InItem t i l true -> (1 <= l <= 3)%Z ->
  exists t' l', execAll cs t = (t', Normal tt) /\ InItem t' i l' true /\ (1 <= l' <= 3)%Z.
Proof.
  induction cs as [|c cs IH]; intros t i l H Hl.
  - exists t, l. split; [reflexivity | split; assumption].
  - destruct (exec_list_item t i l c H) as (t1 & E1 & H1).
    destruct (IH t1 i _ H1 (clamp_step l c Hl)) as (t2 & l2 & E2 & H2 & Hl2).
    exists t2, l2. split; [| split; assumption].
    unfold execAll in *. simpl. unfold bind. now rewrite E1.
Qed.

(** C9: with the cursor in a list item whose level lies in [1,3], [indent]
    raises the level by one exactly when it is below 3 and [dedent]
    lowers it by one exactly when it is above 1; after any sequence of
    the two the cursor is still in that item and its level is in [1,3].
    When the root of the node under the cursor is not a list, or the
    selection is not a property selection, both leave the transaction as
    it is. *)
Theorem indent_dedent_clamp t i l :
  InItem t i l true -> (1 <= l <= 3)%Z ->
  (exists t', Editing.indent t = (t', Normal tt)
              /\ levelOf t' i = Some (if (l <? 3)%Z then (l + 1)%Z else l))
  /\ (exists t', Editing.dedent t = (t', Normal tt)
                 /\ levelOf t' i = Some (if (l >? 1)%Z then (l - 1)%Z else l))
  /\ (forall cs, exists t' l',
        execAll cs t = (t', Normal tt) /\ InItem t' i l' true /\ (1 <= l' <= 3)%Z)
  /\ (forall u j k, InItem u j k false ->
        Editing.indent u = (u, Normal tt) /\ Editing.dedent u = (u, Normal tt))
  /\ (forall u, (forall p so eo cid, _selection u <> PropertySelection p so eo cid) ->
        Editing.indent u = (u, Normal tt) /\ Editing.dedent u = (u, Normal tt)).
Proof.
  intros H Hl. split; [|split; [|split; [|split]]].
  - destruct (exec_list_item t i l Indent H) as (t' & E & _ & L & _). eauto.
  - destruct (exec_list_item t i l Dedent H) as (t' & E & _ & L & _). eauto.
  - intros cs. now apply execAll_list_item with (l := l).
  - intros u j k Hu. split.
    + now rewrite (indent_run u j k false).
    + now rewrite (dedent_run u j k false).
  - intros u Hsel. split.
    + unfold Editing.indent, bind, tx.getSelection.
      destruct (_selection u) as [|p so eo cid| | |] eqn:E; try reflexivity.
      now destruct (Hsel p so eo cid).
    + unfold Editing.dedent, bind, tx.getSelection.
      destruct (_selection u) as [|p so eo cid| | |] eqn:E; try reflexivity.
      now destruct (Hsel p so eo cid).
Qed.

Lemma indent_dedent_clamp_witness :
  (exists t', Editing.indent (inItem 3) = (t', Normal tt) /\ levelOf t' "i1" = Some 3%Z)
  /\ (exists t', Editing.dedent (inItem 3) = (t', Normal tt) /\ levelOf t' "i1" = Some 2%Z).
Proof.
  assert (H : InItem (inItem 3) "i1" 3 true) by (vm_compute; repeat split).
  destruct (indent_dedent_clamp (inItem 3) "i1" 3 H ltac:(lia)) as (Hi & Hd & _).
  split; [exact Hi | exact Hd].
Defined.

(** ** The store and its annotations *)

Lemma set_run t i prop n v old :
  data (stage t) !! i = Some n ->
  tx.getValue prop n = Some old ->
  tx.set [i; prop] v t = (commit (OpSet [i; prop] old v) t, Normal tt).
Proof. intros H G. unfold tx.set, bind, tx.get. rewrite H, G. reflexivity. Qed.

Lemma data_commit_create n t :
  data (stage (commit (OpCreate n) t)) = <[id n := n]> (data (stage t)).
Proof. reflexivity. Qed.

Lemma data_commit_delete n t :
  data (stage (commit (OpDelete n) t)) = delete (id n) (data (stage t)).
Proof. reflexivity. Qed.

Lemma data_commit_set i prop old new t :
  data (stage (commit (OpSet [i; prop] old new) t))
  = alter (applyToNode (OpSet [i; prop] old new) prop) i (data (stage t)).
Proof. reflexivity. Qed.

Lemma create_run t nd :
  id nd = "" ->
  data (stage t) !! nextId t (type nd) = None ->
  tx.create nd t
  = (commit (OpCreate (set_id (nextId t (type nd)) nd)) (set_uuids (S (uuids t)) t),
     Normal (set_id (nextId t (type nd)) nd)).
Proof.
  intros Hid Hfresh. unfold tx.create, bind. rewrite Hid. simpl.
  unfold tx.get. simpl. fold (nextId t (type nd)). rewrite Hfresh. reflexivity.
Qed.

Lemma annotationsOn_elem p d a :
  a ∈ tx.annotationsOn p d
  <-> (isAnnotation a = true /\ path (start a) = p) /\ exists i, data d !! i = Some a.
Proof.
  unfold tx.annotationsOn. rewrite list_elem_of_filter, list_elem_of_fmap.
  split; intros [H1 H2]; split; try exact H1.
  - destruct H2 as ([i n] & -> & Hin). exists i. now apply elem_of_map_to_list.
  - destruct H2 as (i & Hi). exists (i, a). split; [reflexivity|]. now apply elem_of_map_to_list.
Qed.

Lemma annotationsOn_NoDup p d :
  wf_store (data d) -> NoDup (id <$> tx.annotationsOn p d).
Proof.
  intros Hwf. apply NoDup_fmap_2_strong.
  - intros x y [_ [i Hx]]%annotationsOn_elem [_ [j Hy]]%annotationsOn_elem E.
    pose proof (Hwf _ _ Hx). pose proof (Hwf _ _ Hy).
    assert (i = j) by congruence. subst j. congruence.
  - unfold tx.annotationsOn. apply NoDup_filter. apply NoDup_fmap_2_strong.
    + intros [i x] [j y] Hx%elem_of_map_to_list Hy%elem_of_map_to_list E. simpl in E. subst y.
      pose proof (Hwf _ _ Hx). pose proof (Hwf _ _ Hy). congruence.
    + apply NoDup_map_to_list.
Qed.

(** A loop whose body rewrites the node it is given and nothing else. *)
Lemma forEach_rewrites (f : Node -> M unit) (g : Node -> Node) l :
  (forall a t, data (stage t) !! id a = Some a ->
     exists t', f a t = (t', Normal tt)
                /\ data (stage t') = <[id a := g a]> (data (stage t))) ->
  forall t,
    NoDup (id <$> l) ->
    (forall a, a ∈ l -> data (stage t) !! id a = Some a) ->
    exists t', forEach l f t = (t', Normal tt)
               /\ (forall a, a ∈ l -> data (stage t') !! id a = Some (g a))
               /\ (forall i, i ∉ id <$> l -> data (stage t') !! i = data (stage t) !! i).
Proof.
  intros Hstep. induction l as [|a l IH]; intros t Hnd Hin.
  - exists t. split; [reflexivity|]. split; [|reflexivity].
    intros a Ha. inversion Ha.
  - rewrite fmap_cons in Hnd. apply NoDup_cons in Hnd as [Hnotin Hnd].
    destruct (Hstep a t) as (t1 & E1 & D1); [apply Hin; left|].
    destruct (IH t1 Hnd) as (t2 & E2 & In2 & Out2).
    + intros b Hb. rewrite D1, lookup_insert_ne; [apply Hin; now right|].
      intros E. apply Hnotin. rewrite E. now apply list_elem_of_fmap_2.
    + exists t2. split; [simpl; unfold bind; now rewrite E1|]. split.
      * intros b [->|Hb]%elem_of_cons; [|now apply In2].
        rewrite Out2 by exact Hnotin. rewrite D1. apply lookup_insert_eq.
      * intros i Hi. rewrite fmap_cons in Hi. apply not_elem_of_cons in Hi as [Hne Hi].
        rewrite Out2 by exact Hi. rewrite D1. now apply lookup_insert_ne.
Qed.

Lemma transfer_step off newPath newOff a t :
  data (stage t) !! id a = Some a ->
  exists t',
    (if (offset (start a) >=? off)%Z then
       tx.set [id a; "start"] (VCoor (mkCoor newPath (newOff + offset (start a) - off))) >>
       tx.set [id a; "end"] (VCoor (mkCoor newPath (newOff + offset (end_ a) - off)))
     else ret tt) t = (t', Normal tt)
    /\ data (stage t')
       = <[id a := if (offset (start a) >=? off)%Z
                   then transferred off newPath newOff a else a]> (data (stage t)).
Proof.
  intros H. destruct (offset (start a) >=? off)%Z.
  - unfold bind.
    rewrite (set_run t (id a) "start" a _ (VCoor (start a)) H eq_refl).
    erewrite (set_run _ (id a) "end" _ _ (VCoor (end_ a)));
      [| rewrite data_commit_set, lookup_alter_eq, H; reflexivity | reflexivity].
    eexists. split; [reflexivity|].
    rewrite !data_commit_set. apply map_eq. intros j.
    destruct (decide (id a = j)) as [<-|Hne].
    + rewrite lookup_insert_eq, !lookup_alter_eq, H. reflexivity.
    + rewrite lookup_insert_ne, !lookup_alter_ne by exact Hne. reflexivity.
  - exists t. split; [reflexivity|]. symmetry. now apply insert_id.
Qed.

Lemma transferAnnotations_run p off newPath newOff t :
  wf_store (data (stage t)) ->
  exists t',
    annotationHelpers.transferAnnotations p off newPath newOff t = (t', Normal tt)
    /\ (forall i a, data (stage t) !! i = Some a ->
          data (stage t') !! i
          = Some (if isAnnotation a && bool_decide (path (start a) = p)
                     && (offset (start a) >=? off)%Z
                  then transferred off newPath newOff a else a))
    /\ (forall i, data (stage t) !! i = None -> data (stage t') !! i = None).
Proof.
  intros Hwf. unfold annotationHelpers.transferAnnotations, bind, tx.getAnnotations.
  edestruct (forEach_rewrites
    (fun a => if (offset (start a) >=? off)%Z then
       tx.set [id a; "start"] (VCoor (mkCoor newPath (newOff + offset (start a) - off))) >>
       tx.set [id a; "end"] (VCoor (mkCoor newPath (newOff + offset (end_ a) - off)))
     else ret tt)
    (fun a => if (offset (start a) >=? off)%Z then transferred off newPath newOff a else a)
    (tx.annotationsOn p (stage t))) with (t := t) as (t' & E & Hin & Hout).
  - intros a u. apply transfer_step.
  - now apply annotationsOn_NoDup.
  - intros a [_ [i Hi]]%annotationsOn_elem. now rewrite (Hwf _ _ Hi).
  - exists t'. split; [exact E|]. split.
    + intros i a Hi.
      destruct (isAnnotation a && bool_decide (path (start a) = p)) eqn:Hsel; simpl.
      * apply andb_prop in Hsel as [Ha Hp]. apply bool_decide_eq_true in Hp.
        rewrite <- (Hwf _ _ Hi). apply Hin. apply annotationsOn_elem.
        split; [split; assumption | exists i; assumption].
      * rewrite Hout; [exact Hi|].
        intros (b & Eb & [[Hb Hp] [j Hj]]%annotationsOn_elem)%list_elem_of_fmap.
        pose proof (Hwf _ _ Hj). assert (Eij : j = i) by congruence.
        rewrite Eij, Hi in Hj. injection Hj as ->.
        rewrite Hb in Hsel. simpl in Hsel. apply bool_decide_eq_false in Hsel. contradiction.
    + intros i Hi. rewrite Hout; [exact Hi|].
      intros (b & Eb & [_ [j Hj]]%annotationsOn_elem)%list_elem_of_fmap.
      pose proof (Hwf _ _ Hj). assert (Eij : j = i) by congruence.
      rewrite Eij in Hj. congruence.
Qed.


(** ** Strings *)

Lemma append_empty_r s : s +:+ "" = s.
Proof.
  induction s as [|c s IH]; [reflexivity |].
  change (String c (s +:+ "") = String c s). now f_equal.
Qed.

Lemma substring_none s : substring (String.length s) 0 s = "".
Proof. induction s as [|c s IH]; simpl; [reflexivity | exact IH]. Qed.

Lemma length_substring s : forall n m,
  (n + m <= String.length s)%nat -> String.length (substring n m s) = m.
Proof.
  induction s as [|c s IH]; intros n m H; simpl in H.
  - assert (n = 0%nat) by lia. assert (m = 0%nat) by lia. subst. reflexivity.
  - destruct n as [|n]; simpl.
    + destruct m as [|m]; simpl; [reflexivity|]. rewrite IH; [reflexivity | lia].
    + apply IH. lia.
Qed.

Lemma truncate_text off s :
  (0 <= off <= strlen s)%Z ->
  text_delete_at off (strlen (substring_between off (strlen s) s)) s = str_take off s.
Proof.
  intros H. unfold text_delete_at, substring_between, strlen in *.
  rewrite length_substring by lia.
  unfold str_drop.
  replace (Z.to_nat (off + Z.of_nat (Z.to_nat (Z.of_nat (String.length s)) - Z.to_nat off)))
    with (String.length s) by lia.
  rewrite Nat.sub_diag, substring_none. apply append_empty_r.
Qed.

Lemma getProperty_run t p i n :
  p = [i; "content"] -> data (stage t) !! i = Some n ->
  tx.getProperty p t = (t, Normal (content n)).
Proof. intros -> H. unfold tx.getProperty, bind, tx.get. now rewrite H. Qed.

Lemma live_run t n :
  data (stage t) !! id n = Some n -> tx.live n t = (t, Normal n).
Proof. intros H. unfold tx.live, bind, tx.get. now rewrite H. Qed.

Lemma wf_store_insert m n : wf_store m -> wf_store (<[id n := n]> m).
Proof.
  intros H i x. rewrite lookup_insert. case_decide; [|apply H].
  intros [= <-]. assumption.
Qed.

Lemma text_delete_run t i n s e :
  data (stage t) !! i = Some n ->
  (0 <= s <= e)%Z -> (e <= strlen (content n))%Z ->
  tx.update [i; "content"] (tx.text_delete s e) t
  = (commit (OpTextDelete [i; "content"] s (substring_between s e (content n))) t, Normal tt).
Proof.
  intros H Hs He. unfold tx.update, bind, tx.get. rewrite H.
  replace (0 <=? s)%Z with true by (symmetry; apply Z.leb_le; lia).
  replace (s <=? e)%Z with true by (symmetry; apply Z.leb_le; lia).
  replace (e <=? strlen (content n))%Z with true by (symmetry; apply Z.leb_le; lia).
  reflexivity.
Qed.

Lemma data_commit_text_delete i pos s t :
  data (stage (commit (OpTextDelete [i; "content"] pos s) t))
  = alter (fun n => set_content (text_delete_at pos (strlen s) (content n)) n) i
      (data (stage t)).
Proof. reflexivity. Qed.

Lemma text_not_annotation n : isText n = true -> isAnnotation n = false.
Proof.
  unfold isText, isAnnotation. intros H%bool_decide_eq_true.
  apply bool_decide_eq_false. congruence.
Qed.

(** C5: splitting a text node.  At offset 0 the result is an empty
    [before] node of the node's type and the node itself is untouched.
    At an offset from 1 to the length of the text, a new node is created
    that holds the text from the offset on, with the default text type of
    the schema when the offset is the length and the node's type
    otherwise; every annotation of the property that starts at or after
    the offset is moved to the new node, its anchors lowered by the
    offset; the node keeps the text before the offset; the result is
    [{ after: newNode }]. *)
Theorem splitNode_text t node coor :
  data (stage t) !! id node = Some node ->
  isText node = true ->
  wf_store (data (stage t)) ->
  path coor = getPath node ->
  (offset coor = 0%Z ->
   data (stage t) !! nextId t (type node) = None ->
   exists t' b,
     TextNodeEditing.splitNode node coor t = (t', Normal (mkSplit (Some b) None None None))
     /\ b = mkNode (nextId t (type node)) (type node) (kind node) "" [] 0
              noCoor noCoor false false
     /\ data (stage t') = <[id b := b]> (data (stage t)))
  /\ ((0 < offset coor <= strlen (content node))%Z ->
      forall ty,
        ty = (if (offset coor =? strlen (content node))%Z
              then defaultTextType (schema (stage t)) else type node) ->
        data (stage t) !! nextId t ty = None ->
        exists t' n,
          TextNodeEditing.splitNode node coor t = (t', Normal (mkSplit None (Some n) None None))
          /\ n = mkNode (nextId t ty) ty (kind node)
                   (substring_from (offset coor) (content node))
                   (nodes node) (level node) (start node) (end_ node)
                   (_isInlineNode node) (autoExpandRight node)
          /\ data (stage t') !! id n = Some n
          /\ data (stage t') !! id node
             = Some (set_content (str_take (offset coor) (content node)) node)
          /\ forall i a,
               data (stage t) !! i = Some a -> isAnnotation a = true ->
               path (start a) = path coor -> (offset coor <= offset (start a))%Z ->
               data (stage t') !! i = Some (transferred (offset coor) (getPath n) 0 a)).
Proof.
  intros Hnode Htext Hwf Hpath. split.
  - intros Hoff Hfresh. unfold TextNodeEditing.splitNode. rewrite Hoff. simpl.
    unfold bind. rewrite create_run by (try reflexivity; exact Hfresh).
    eexists _, _. split; [reflexivity|]. split; reflexivity.
  - intros Hoff ty Hty Hfresh. unfold TextNodeEditing.splitNode.
    replace (offset coor =? 0)%Z with false by (symmetry; apply Z.eqb_neq; lia).
    unfold bind.
    rewrite (getProperty_run t (path coor) (id node) node Hpath Hnode).
    rewrite (live_run t node Hnode). unfold tx.getSchema. cbv beta iota.
    set (n := mkNode (nextId t ty) ty (kind node)
                (substring_from (offset coor) (content node))
                (nodes node) (level node) (start node) (end_ node)
                (_isInlineNode node) (autoExpandRight node)).
    set (nd := if (offset coor =? strlen (content node))%Z then _ else _).
    assert (Hnd : set_id (nextId t (type nd)) nd = n).
    { subst nd n. rewrite Hty. destruct (offset coor =? strlen (content node))%Z; reflexivity. }
    assert (Htynd : type nd = ty).
    { subst nd. rewrite Hty. destruct (offset coor =? strlen (content node))%Z; reflexivity. }
    rewrite create_run;
      [| subst nd; destruct (offset coor =? strlen (content node))%Z; reflexivity
       | rewrite Htynd; exact Hfresh ].
    rewrite Hnd.
    set (t1 := commit (OpCreate n) (set_uuids (S (uuids t)) t)).
    assert (Hne : id node <> nextId t ty) by (intros E; rewrite E in Hnode; congruence).
    destruct (transferAnnotations_run (path coor) (offset coor) (getPath n) 0 t1)
      as (t2 & E2 & Hsome & Hnone).
    { subst t1. rewrite data_commit_create. now apply wf_store_insert. }
    rewrite E2.
    assert (H2node : data (stage t2) !! id node = Some node).
    { rewrite (Hsome (id node) node).
      - now rewrite (text_not_annotation node Htext).
      - subst t1. rewrite data_commit_create, lookup_insert_ne; [exact Hnode|].
        simpl. congruence. }
    rewrite Hpath. unfold getPath at 1.
    rewrite (text_delete_run t2 (id node) node _ _ H2node) by lia.
    exists (commit (OpTextDelete [id node; "content"] (offset coor)
              (substring_between (offset coor) (strlen (content node)) (content node))) t2), n.
    split; [reflexivity|]. split; [reflexivity|].
    rewrite data_commit_text_delete. repeat split.
    + rewrite lookup_alter_ne by (simpl; congruence).
      rewrite (Hsome (id n) n).
      * replace (isAnnotation n) with false; [reflexivity|].
        symmetry. apply text_not_annotation. exact Htext.
      * subst t1. rewrite data_commit_create. apply lookup_insert_eq.
    + rewrite lookup_alter_eq, H2node. simpl. rewrite truncate_text by lia. reflexivity.
    + intros i a Hi Ha Hp Hle.
      assert (i <> id node).
      { intros ->. rewrite Hnode in Hi. injection Hi as <-.
        rewrite (text_not_annotation node Htext) in Ha. discriminate. }
      rewrite lookup_alter_ne by congruence.
      rewrite (Hsome i a).
      * rewrite Ha. rewrite bool_decide_eq_true_2 by (rewrite Hpath; exact Hp).
        replace (offset (start a) >=? offset coor)%Z with true; [reflexivity|].
        symmetry. apply Z.geb_le. lia.
      * subst t1. rewrite data_commit_create, lookup_insert_ne; [exact Hi|].
        simpl. intros <-. congruence.
Qed.

Lemma splitDoc_wf : wf_store (data splitDoc).
Proof.
  change (map_Forall (fun i n => id n = i) (data splitDoc)).
  apply map_Forall_to_list. vm_compute. repeat constructor.
Qed.

Lemma splitNode_text_witness :
  exists t' n,
    TextNodeEditing.splitNode hello (mkCoor ["p1"; "content"] 6) (open splitDoc)
    = (t', Normal (mkSplit None (Some n) None None))
    /\ n = textNode "paragraph-0" "paragraph" "world"
    /\ textOf (stage t') "p1" = Some "hello "
    /\ data (stage t') !! "a2"
       = Some (annotation "a2" "emphasis" ["paragraph-0"; "content"] 0 5 false true).
Proof.
  destruct (splitNode_text (open splitDoc) hello (mkCoor ["p1"; "content"] 6)
              eq_refl eq_refl splitDoc_wf eq_refl) as [_ H].
  destruct (H ltac:(vm_compute; split; [reflexivity | discriminate]) "paragraph" eq_refl eq_refl)
    as (t' & n & E & En & _ & Hnode & Hanno).
  exists t', n. split; [exact E|]. split; [exact En|]. split.
  - unfold textOf. change "p1" with (id hello). rewrite Hnode. reflexivity.
  - rewrite (Hanno "a2" (annotation "a2" "emphasis" ["p1"; "content"] 6 11 false true)
               eq_refl eq_refl eq_refl ltac:(vm_compute; discriminate)).
    rewrite En. reflexivity.
Defined.

(** ** Negotiation only reads *)

Lemma readonly_ret {A} (a : A) : readonly (ret a).
Proof. intros t. reflexivity. Qed.

Lemma readonly_throw {A} e : readonly (@throw A e).
Proof. intros t. reflexivity. Qed.

Lemma readonly_bind {A B} (m : M A) (k : A -> M B) :
  readonly m -> (forall a, readonly (k a)) -> readonly (bind m k).
Proof.
  intros Hm Hk t. unfold bind. specialize (Hm t).
  destruct (m t) as [t1 [a|e]]; simpl in *; subst; [apply Hk | reflexivity].
Qed.

Lemma readonly_get i : readonly (tx.get i).
Proof. intros t. reflexivity. Qed.

Lemma readonly_if {A} (b : bool) (m1 m2 : M A) :
  readonly m1 -> readonly m2 -> readonly (if b then m1 else m2).
Proof. destruct b; auto. Qed.

Create HintDb readonly.
#[local] Hint Resolve readonly_ret readonly_throw readonly_bind readonly_get readonly_if
  : readonly.

Lemma readonly_live n : readonly (tx.live n).
Proof. unfold tx.live. auto with readonly. Qed.
#[local] Hint Resolve readonly_live : readonly.

Lemma readonly_nodes c : readonly (Container.nodes c).
Proof. unfold Container.nodes. auto with readonly. Qed.
#[local] Hint Resolve readonly_nodes : readonly.

Lemma readonly_getChildAt c pos : readonly (Container.getChildAt c pos).
Proof.
  unfold Container.getChildAt. apply readonly_bind; [auto with readonly|].
  intros l. destruct (pos <? 0)%Z; [auto with readonly|].
  destruct (l !! Z.to_nat pos); auto with readonly.
Qed.

Lemma readonly_getPosition c n strict : readonly (Container.getPosition c n strict).
Proof.
  unfold Container.getPosition. apply readonly_bind; [auto with readonly|].
  intros l. apply readonly_bind; [auto with readonly|].
  intros o t. destruct (strict && _); reflexivity.
Qed.

Lemma readonly_getChild c pos : readonly (ContainerEditing.getChild c pos).
Proof.
  unfold ContainerEditing.getChild. apply readonly_bind.
  - apply readonly_getChildAt.
  - intros [n|]; auto with readonly.
Qed.
#[local] Hint Resolve readonly_getPosition readonly_getChild : readonly.

Lemma readonly_getMergeAsTypes fuel : forall n node coor,
  readonly (Behaviour.getMergeAsTypes (getEditing fuel n) node coor).
Proof.
  induction fuel as [|fuel IH]; intros n node coor; simpl.
  - auto with readonly.
  - destruct (capability n =? "text"); simpl.
    + unfold TextNodeEditing.getMergeAsTypes. auto with readonly.
    + destruct (capability n =? "container"); simpl.
      * unfold ContainerEditing.getMergeAsTypes. auto 10 with readonly.
      * unfold NodeEditing.getMergeAsTypes. auto with readonly.
Qed.

Lemma readonly_selectMergeType fuel : forall n node types coor,
  readonly (Behaviour.selectMergeType (getEditing fuel n) node types coor).
Proof.
  induction fuel as [|fuel IH]; intros n node types coor; simpl.
  - auto with readonly.
  - destruct (capability n =? "text"); simpl.
    + unfold TextNodeEditing.selectMergeType.
      apply readonly_if; [auto with readonly|].
      apply readonly_bind; [auto with readonly|]. intros m. auto with readonly.
    + destruct (capability n =? "container"); simpl.
      * unfold ContainerEditing.selectMergeType.
        apply readonly_if; [auto with readonly|].
        apply readonly_bind; [auto with readonly|]. intros pos.
        apply readonly_bind; [auto with readonly|]. intros child.
        apply readonly_bind; [apply IH|]. intros [| |[|a s]]; auto with readonly.
      * unfold NodeEditing.selectMergeType. auto with readonly.
Qed.

(** ** Positions *)

Lemma indexOfFrom_range x l : forall k,
  indexOfFrom k x l = (-1)%Z \/ (k <= indexOfFrom k x l)%Z.
Proof.
  induction l as [|y l IH]; intros k; simpl; [now left|].
  destruct (String.eqb x y); [right; lia|].
  destruct (IH (k + 1)%Z); [now left | right; lia].
Qed.

Lemma indexOfFrom_lookup x l : forall k,
  (0 <= k <= indexOfFrom k x l)%Z ->
  l !! Z.to_nat (indexOfFrom k x l - k) = Some x.
Proof.
  induction l as [|y l IH]; intros k H; simpl in *; [lia|].
  destruct (String.eqb_spec x y) as [->|Hne].
  - replace (k - k)%Z with 0%Z by lia. reflexivity.
  - destruct (indexOfFrom_range x l (k + 1)) as [E|Hk]; [lia|].
    replace (Z.to_nat (indexOfFrom (k + 1) x l - k))
      with (S (Z.to_nat (indexOfFrom (k + 1) x l - (k + 1)))) by lia.
    simpl. apply IH. lia.
Qed.

Lemma indexOf_lookup x l :
  (0 <= indexOf x l)%Z -> l !! Z.to_nat (indexOf x l) = Some x.
Proof.
  intros H. unfold indexOf in *.
  replace (indexOfFrom 0 x l) with (indexOfFrom 0 x l - 0)%Z at 1 by lia.
  apply indexOfFrom_lookup. lia.
Qed.

(** ** Showing, hiding and deleting children *)

Lemma nodes_run t c n :
  data (stage t) !! id c = Some n -> Container.nodes c t = (t, Normal (nodes n)).
Proof. intros H. unfold Container.nodes, bind, tx.live, bind, tx.get. now rewrite H. Qed.

Lemma getPosition_run t c n x strict :
  data (stage t) !! id c = Some n ->
  is_Some (data (stage t) !! x) ->
  (0 <= indexOf (getRoot (stage t) x) (nodes n))%Z ->
  Container.getPosition c x strict t
  = (t, Normal (indexOf (getRoot (stage t) x) (nodes n))).
Proof.
  intros Hc [s Hs] Hpos. unfold Container.getPosition, bind.
  rewrite (nodes_run t c n Hc). unfold tx.get. rewrite Hs.
  replace (indexOf (getRoot (stage t) x) (nodes n) <? 0)%Z with false
    by (symmetry; apply Z.ltb_ge; lia).
  now rewrite andb_false_r.
Qed.

Lemma hideAt_run t c n pos v :
  data (stage t) !! id c = Some n ->
  (0 <= pos)%Z -> nodes n !! Z.to_nat pos = Some v ->
  ContainerEditing.hideAt c pos t
  = (commit (OpArrayDelete [id c; "nodes"] pos v) t, Normal tt).
Proof.
  intros Hc Hpos Hv. unfold ContainerEditing.hideAt, Container.getContentPath.
  unfold tx.update, bind, tx.get. rewrite Hc.
  replace (0 <=? pos)%Z with true by (symmetry; apply Z.leb_le; lia).
  simpl. now rewrite Hv.
Qed.

Lemma hide_run t c n x :
  data (stage t) !! id c = Some n ->
  is_Some (data (stage t) !! x) ->
  (0 <= indexOf (getRoot (stage t) x) (nodes n))%Z ->
  ContainerEditing.hide c x t
  = (commit (OpArrayDelete [id c; "nodes"] (indexOf (getRoot (stage t) x) (nodes n))
               (getRoot (stage t) x)) t, Normal tt).
Proof.
  intros Hc Hx Hpos. unfold ContainerEditing.hide, bind.
  rewrite (getPosition_run t c n x false Hc Hx Hpos).
  apply (hideAt_run t c n); [exact Hc | exact Hpos | now apply indexOf_lookup].
Qed.

Lemma delete_run t i n :
  data (stage t) !! i = Some n -> tx.delete i t = (commit (OpDelete n) t, Normal tt).
Proof. intros H. unfold tx.delete, bind, tx.get. now rewrite H. Qed.

Lemma data_commit_array_delete i pos v t :
  data (stage (commit (OpArrayDelete [i; "nodes"] pos v) t))
  = alter (fun n => set_nodes (array_delete_at pos (nodes n)) n) i (data (stage t)).
Proof. reflexivity. Qed.

(** C4: when the target's [selectMergeType] answers [null], [mergeNodes]
    does not throw and returns a node selection.  If the source offered
    'remove', the source is taken out of the container's content path and
    deleted, nothing else in the document changes, and the selection is on
    the target; otherwise the transaction is left exactly as it was and
    the selection is on the target (direction 'left') or on the source. *)
Theorem mergeNodes_no_type fuel container source sourceCoor target targetCoor direction
    t c types :
  data (stage t) !! id container = Some c ->
  wf_store (data (stage t)) ->
  is_Some (data (stage t) !! id source) ->
  (0 <= indexOf (getRoot (stage t) (id source)) (nodes c))%Z ->
  snd (Behaviour.getMergeAsTypes (getEditing fuel source) source sourceCoor t)
  = Normal types ->
  snd (Behaviour.selectMergeType (getEditing fuel target) target types targetCoor t)
  = Normal TNull ->
  exists t' nodeId,
    ContainerEditing.mergeNodes (getEditing fuel) container source sourceCoor
      target targetCoor direction t
    = (t', Normal (Some (NodeSelection (id container) nodeId "full")))
    /\ if existsb (String.eqb "remove") types
       then nodeId = id target
            /\ data (stage t')
               = delete (id source)
                   (alter (fun n => set_nodes
                              (array_delete_at
                                 (indexOf (getRoot (stage t) (id source)) (nodes c))
                                 (nodes n)) n)
                      (id container) (data (stage t)))
       else t' = t
            /\ nodeId = (if String.eqb direction "left" then id target else id source).
Proof.
  intros Hc Hwf Hs Hpos Htypes Htype.
  unfold ContainerEditing.mergeNodes, bind.
  pose proof (readonly_getMergeAsTypes fuel source source sourceCoor t) as R1.
  destruct (Behaviour.getMergeAsTypes _ source sourceCoor t) as [t1 r1].
  simpl in R1, Htypes. subst t1 r1.
  pose proof (readonly_selectMergeType fuel target target types targetCoor t) as R2.
  destruct (Behaviour.selectMergeType _ target types targetCoor t) as [t2 r2].
  simpl in R2, Htype. subst t2 r2.
  destruct (existsb (String.eqb "remove") types).
  - rewrite (hide_run t container c (id source) Hc Hs Hpos).
    unfold documentHelpers.deleteNode.
    set (t1 := commit _ t).
    assert (Hs1 : exists s1, data (stage t1) !! id source = Some s1 /\ id s1 = id source).
    { subst t1. rewrite data_commit_array_delete.
      destruct Hs as [s Hs]. destruct (decide (id container = id source)) as [E|E].
      - rewrite E, lookup_alter_eq, Hs. eexists. split; [reflexivity|].
        simpl. now apply Hwf.
      - rewrite lookup_alter_ne by exact E. exists s. split; [exact Hs | now apply Hwf]. }
    destruct Hs1 as (s1 & Hs1 & Hid1).
    rewrite (delete_run t1 (id source) s1 Hs1).
    eexists _, _. split; [reflexivity|]. split; [reflexivity|].
    rewrite data_commit_delete, Hid1. subst t1. now rewrite data_commit_array_delete.
  - eexists _, _. split; [reflexivity|]. split; reflexivity.
Qed.

Lemma galleryDoc_wf : wf_store (data galleryDoc).
Proof.
  change (map_Forall (fun i n => id n = i) (data galleryDoc)).
  apply map_Forall_to_list. vm_compute. repeat constructor.
Qed.

Lemma mergeNodes_no_type_witness :
  exists t',
    ContainerEditing.mergeNodes (getEditing 1) gallery blank (mkCoor ["e"; "content"] 0)
      figure (mkCoor ["img"] 0) "left" (open galleryDoc)
    = (t', Normal (Some (NodeSelection "body" "img" "full")))
    /\ data (stage t') !! "e" = None
    /\ childrenOf (stage t') "body" = Some ["img"].
Proof.
  destruct (mergeNodes_no_type 1 gallery blank (mkCoor ["e"; "content"] 0)
              figure (mkCoor ["img"] 0) "left" (open galleryDoc) gallery ["text"; "remove"]
              eq_refl galleryDoc_wf ltac:(eexists; reflexivity)
              ltac:(vm_compute; discriminate) eq_refl eq_refl)
    as (t' & nodeId & E & Hn & Hdata).
  exists t'. subst nodeId. split; [exact E|].
  unfold childrenOf. rewrite Hdata. split; vm_compute; reflexivity.
Defined.

(** ** Deleting a range of children *)

Lemma indexOfFrom_middle x l1 l2 : forall k,
  x ∉ l1 -> indexOfFrom k x (l1 ++ x :: l2) = (k + Z.of_nat (length l1))%Z.
Proof.
  induction l1 as [|y l1 IH]; intros k Hx; simpl.
  - rewrite String.eqb_refl. lia.
  - apply not_elem_of_cons in Hx as [Hne Hx].
    destruct (String.eqb_spec x y); [contradiction|].
    rewrite IH by exact Hx. lia.
Qed.

Lemma indexOf_middle x l1 l2 :
  x ∉ l1 -> indexOf x (l1 ++ x :: l2) = Z.of_nat (length l1).
Proof. intros H. unfold indexOf. now rewrite indexOfFrom_middle. Qed.

Lemma array_delete_middle {A} (x : A) l1 l2 :
  array_delete_at (Z.of_nat (length l1)) (l1 ++ x :: l2) = l1 ++ l2.
Proof.
  unfold array_delete_at. rewrite Nat2Z.id, take_app_length.
  replace (S (length l1)) with (length (l1 ++ [x])) by (rewrite length_app; simpl; lia).
  rewrite (cons_middle x l1 l2), app_assoc. now rewrite drop_app_length.
Qed.

Lemma array_insert_middle {A} (x : A) l1 l2 :
  array_insert_at (Z.of_nat (length l1)) x (l1 ++ l2) = l1 ++ x :: l2.
Proof.
  unfold array_insert_at. now rewrite Nat2Z.id, take_app_length, drop_app_length.
Qed.

Lemma getRoot_orphan d x : parents d !! x = None -> getRoot d x = x.
Proof. intros H. unfold getRoot. simpl. now rewrite H. Qed.

Lemma ops_commit op t : _ops (stage (commit op t)) = (_ops (stage t) ++ [op])%list.
Proof.
  unfold commit. simpl. f_equal. unfold _applyOp.
  destruct op; simpl; try reflexivity;
    repeat match goal with |- context [match ?p with _ => _ end] => destruct p end;
    reflexivity.
Qed.

Lemma schema_commit op t : schema (stage (commit op t)) = schema (stage t).
Proof.
  unfold commit. simpl. unfold _applyOp.
  destruct op; simpl; try reflexivity;
    repeat match goal with |- context [match ?p with _ => _ end] => destruct p end;
    reflexivity.
Qed.

Lemma parents_commit op t : parents (stage (commit op t)) = parents (stage t).
Proof. unfold commit. simpl. apply parents_applyOp. Qed.

Lemma uuids_commit op t : uuids (commit op t) = uuids t.
Proof. reflexivity. Qed.

Lemma set_nodes_same c : set_nodes (nodes c) c = c.
Proof. now destruct c. Qed.

Lemma removed_start t cid c :
  data (stage t) !! cid = Some c -> removed t t cid c (nodes c) [] [].
Proof.
  intros H. unfold removed. rewrite set_nodes_same, app_nil_r.
  repeat split; try assumption; try reflexivity.
  intros i Hi. inversion Hi.
Qed.

(** One child is hidden and deleted. *)
Lemma removed_step t0 t container c l1 x l2 gone log n :
  removed t0 t (id container) c (l1 ++ x :: l2) gone log ->
  x ∉ l1 -> x <> id container -> x ∉ gone ->
  data (stage t0) !! x = Some n -> id n = x -> parents (stage t0) !! x = None ->
  let t1 := commit (OpArrayDelete [id container; "nodes"] (Z.of_nat (length l1)) x) t in
  let t2 := commit (OpDelete n) t1 in
  ContainerEditing.hide container x t = (t1, Normal tt)
  /\ ContainerEditing.getNode x t1 = (t1, Normal n)
  /\ documentHelpers.deleteNode n t1 = (t2, Normal tt)
  /\ removed t0 t2 (id container) c (l1 ++ l2) (x :: gone)
       (log ++ [OpArrayDelete [id container; "nodes"] (Z.of_nat (length l1)) x; OpDelete n]).
Proof.
  intros (Hc & Hsame & Hgone & Hpar & Hsch & Huu & Hops) Hx1 Hxc Hxg Hn Hid Horph t1 t2.
  assert (Hxt : data (stage t) !! x = Some n) by (rewrite Hsame; assumption).
  assert (Hroot : getRoot (stage t) x = x) by (apply getRoot_orphan; now rewrite Hpar).
  assert (Hhide : ContainerEditing.hide container x t = (t1, Normal tt)).
  { rewrite (hide_run t container (set_nodes (l1 ++ x :: l2) c) x Hc).
    - rewrite Hroot. simpl. rewrite indexOf_middle by exact Hx1. reflexivity.
    - eauto.
    - rewrite Hroot. simpl. rewrite indexOf_middle by exact Hx1. lia. }
  assert (Hx1' : data (stage t1) !! x = Some n).
  { subst t1. rewrite data_commit_array_delete, lookup_alter_ne by congruence. exact Hxt. }
  split; [exact Hhide|]. split.
  { unfold ContainerEditing.getNode, bind, tx.get. now rewrite Hx1'. }
  split.
  { unfold documentHelpers.deleteNode. rewrite Hid. now apply delete_run. }
  unfold removed. subst t2.
  rewrite !ops_commit, !schema_commit, !parents_commit, !uuids_commit.
  rewrite data_commit_delete, Hid. subst t1. rewrite data_commit_array_delete.
  repeat split; try assumption.
  - rewrite lookup_delete_ne by congruence. rewrite lookup_alter_eq, Hc. simpl.
    now rewrite array_delete_middle.
  - intros i Hic Hig. apply not_elem_of_cons in Hig as [Hix Hig].
    rewrite lookup_delete_ne by congruence. rewrite lookup_alter_ne by congruence.
    now apply Hsame.
  - intros i [->|Hig]%elem_of_cons; [apply lookup_delete_eq|].
    destruct (decide (x = i)) as [->|Hne]; [apply lookup_delete_eq|].
    rewrite lookup_delete_ne by exact Hne.
    destruct (decide (id container = i)) as [<-|Hne'].
    + rewrite (Hgone _ Hig) in Hc. discriminate.
    + rewrite lookup_alter_ne by exact Hne'. now apply Hgone.
  - rewrite ops_commit, Hops, <- !app_assoc. reflexivity.
Qed.

Lemma removed_gone t0 t cid c l g1 g2 log :
  (forall i, i ∈ g1 <-> i ∈ g2) ->
  removed t0 t cid c l g1 log -> removed t0 t cid c l g2 log.
Proof.
  intros E (Hc & Hsame & Hgone & Hrest). unfold removed. repeat split; try tauto.
  - intros i Hi Hg. apply Hsame; [exact Hi|]. now rewrite E.
  - intros i Hg. apply Hgone. now rewrite E.
Qed.

Lemma removalsDescending_snoc cid m l x : forall k,
  removalsDescending cid m k (l ++ [x])
  = removal cid m (k + Z.of_nat (length l)) x ++ removalsDescending cid m k l.
Proof.
  induction l as [|y l IH]; intros k; simpl.
  - rewrite app_nil_r. now rewrite Z.add_0_r.
  - rewrite IH, <- app_assoc. do 2 f_equal. lia.
Qed.

Lemma deleteInner_run t0 container c pre first post mid : forall t gone log,
  removed t0 t (id container) c (pre ++ first :: mid ++ post) gone log ->
  NoDup (pre ++ first :: mid) ->
  (forall x, x ∈ mid -> removable t0 (id container) x /\ x ∉ gone) ->
  exists t',
    ContainerEditing.deleteInner (length mid) container
      (Z.of_nat (length pre + length mid)) t = (t', Normal tt)
    /\ removed t0 t' (id container) c (pre ++ first :: post) (mid ++ gone)
         (log ++ removalsDescending (id container) (data (stage t0))
                   (Z.of_nat (length pre) + 1) mid).
Proof.
  induction mid as [|x mid IH] using rev_ind; intros t gone log Hrem Hnd Hmid.
  - exists t. split; [reflexivity|]. simpl. now rewrite app_nil_r.
  - destruct (Hmid x) as ((Hxc & (n & Hn & Hid) & Horph) & Hxg);
      [apply elem_of_app; right; now left|].
    replace (pre ++ first :: (mid ++ [x]) ++ post)
      with ((pre ++ first :: mid) ++ x :: post) in Hrem
      by (rewrite <- ?app_assoc; reflexivity).
    replace (pre ++ first :: mid ++ [x]) with ((pre ++ first :: mid) ++ [x]) in Hnd
      by (rewrite <- ?app_assoc; reflexivity).
    apply NoDup_app in Hnd as (Hnd & Hdisj & _).
    assert (Hx1 : x ∉ pre ++ first :: mid).
    { intros Hin. apply (Hdisj x Hin). now left. }
    destruct (removed_step t0 t container c _ x post gone log n Hrem Hx1 Hxc Hxg Hn Hid Horph)
      as (Hhide & Hget & Hdel & Hrem').
    rewrite <- app_assoc in Hrem'. change ((first :: mid) ++ post) with (first :: mid ++ post) in Hrem'.
    destruct (IH _ _ _ Hrem' Hnd) as (t' & E & Hfin).
    { intros y Hy. destruct (Hmid y) as (Hr & Hg); [apply elem_of_app; now left|].
      split; [exact Hr|].
      apply not_elem_of_cons. split; [|exact Hg].
      intros ->. apply Hx1. apply elem_of_app. right. now right. }
    exists t'. split.
    + rewrite length_app. simpl length.
      replace (length mid + 1)%nat with (S (length mid)) by lia.
      simpl ContainerEditing.deleteInner. unfold bind.
      destruct Hrem as (Hc & _).
      rewrite (nodes_run t container _ Hc). simpl nodes.
      replace (Z.to_nat (Z.of_nat (length pre + S (length mid))))
        with (length (pre ++ first :: mid)) by (rewrite length_app; simpl; lia).
      rewrite list_lookup_middle by reflexivity. simpl default.
      rewrite Hhide, Hget, Hdel.
      replace (Z.of_nat (length pre + S (length mid)) - 1)%Z
        with (Z.of_nat (length pre + length mid)) by lia.
      exact E.
    + apply (removed_gone _ _ _ _ _ (mid ++ x :: gone)).
      { intros i. rewrite ?elem_of_app, ?elem_of_cons, ?elem_of_nil. tauto. }
      rewrite removalsDescending_snoc. unfold removal at 1. rewrite Hn.
      replace (Z.of_nat (length pre) + 1 + Z.of_nat (length mid))%Z
        with (Z.of_nat (length (pre ++ first :: mid))) by (rewrite length_app; simpl; lia).
      rewrite <- app_assoc in Hfin. exact Hfin.
Qed.

Lemma readonly_isEntirelySelected n s e : readonly (selectionHelpers.isEntirelySelected n s e).
Proof.
  unfold selectionHelpers.isEntirelySelected. apply readonly_bind; [apply readonly_live|].
  intros m. destruct (isText m); apply readonly_ret.
Qed.

Lemma array_insert_run t c n pos v :
  data (stage t) !! id c = Some n ->
  (0 <= pos <= Z.of_nat (length (nodes n)))%Z ->
  ContainerEditing.show c (OneNode v) (Some pos) t
  = (commit (OpArrayInsert [id c; "nodes"] pos v) t, Normal tt).
Proof.
  intros Hc Hpos. unfold ContainerEditing.show, bind, ret, ContainerEditing.show1.
  unfold Container.getContentPath, tx.update, bind, tx.get. rewrite Hc.
  replace (0 <=? pos)%Z with true by (symmetry; apply Z.leb_le; lia).
  replace (pos <=? Z.of_nat (length (nodes n)))%Z with true by (symmetry; apply Z.leb_le; lia).
  reflexivity.
Qed.

Lemma data_commit_array_insert i pos v t :
  data (stage (commit (OpArrayInsert [i; "nodes"] pos v) t))
  = alter (fun n => set_nodes (array_insert_at pos v (nodes n)) n) i (data (stage t)).
Proof. reflexivity. Qed.

(** C3: a range from a child [first] to a later child [last] of a
    container, both entirely selected (in particular from the first to
    the last child of a container with three or more children, [pre] and
    [post] empty).  [deleteRange] hides and deletes [last], then the
    children strictly between them from the highest position down, then
    [first]; it creates one empty node of the default text type, shows it
    at the position [first] had, and returns the collapsed property
    selection at offset 0 of that node. *)
Theorem deleteRange_both_entirely_selected ed container c pre first mid last post
    start' end' options t firstNode lastNode :
  data (stage t) !! id container = Some c ->
  nodes c = pre ++ first :: mid ++ last :: post ->
  NoDup (nodes c) ->
  (forall x, x ∈ first :: mid ++ [last] -> removable t (id container) x) ->
  path0 start' = first -> path0 end' = last ->
  data (stage t) !! first = Some firstNode ->
  data (stage t) !! last = Some lastNode ->
  snd (selectionHelpers.isEntirelySelected firstNode (Some start') None t) = Normal true ->
  snd (selectionHelpers.isEntirelySelected lastNode None (Some end') t) = Normal true ->
  forall new, new = textNode (nextId t (defaultTextType (schema (stage t))))
                      (defaultTextType (schema (stage t))) "" ->
  data (stage t) !! id new = None ->
  exists t',
    ContainerEditing.deleteRange ed container start' end' options t
    = (t', Normal (Some (PropertySelection [id new; "content"] 0 0 (Some (id container)))))
    /\ childrenOf (stage t') (id container) = Some (pre ++ id new :: post)
    /\ (forall x, x ∈ first :: mid ++ [last] -> data (stage t') !! x = None)
    /\ data (stage t') !! id new = Some new
    /\ _ops (stage t')
       = _ops (stage t)
         ++ removalsDescending (id container) (data (stage t)) (Z.of_nat (length pre))
              (first :: mid ++ [last])
         ++ [OpCreate new; OpArrayInsert [id container; "nodes"] (Z.of_nat (length pre)) (id new)].
Proof.
  intros Hc Hnodes Hnd Hrem Hstart Hend Hfirst Hlast Hsel1 Hsel2 new Hnew Hfresh.
  assert (Rf : removable t (id container) first) by (apply Hrem; now left).
  assert (Rl : removable t (id container) last).
  { apply Hrem. right. apply elem_of_app. right. now left. }
  destruct Rf as (Hfc & (fn & Hfn & Hfid) & Hforph).
  destruct Rl as (Hlc & (ln & Hln & Hlid) & Hlorph).
  rewrite Hfirst in Hfn. injection Hfn as <-.
  rewrite Hlast in Hln. injection Hln as <-.
  rewrite Hnodes in Hnd.
  assert (Hnd' : NoDup ((pre ++ first :: mid) ++ last :: post))
    by (rewrite <- app_assoc; exact Hnd).
  apply NoDup_app in Hnd' as (Hnd1 & Hdisj & _).
  assert (Hl1 : last ∉ pre ++ first :: mid).
  { intros Hin. apply (Hdisj last Hin). now left. }
  assert (Hf1 : first ∉ pre).
  { apply NoDup_app in Hnd1 as (_ & Hd & _). intros Hin. apply (Hd first Hin). now left. }
  assert (Hpos1 : indexOf (getRoot (stage t) first) (nodes c) = Z.of_nat (length pre)).
  { rewrite getRoot_orphan by exact Hforph. rewrite Hnodes. now apply indexOf_middle. }
  assert (Hpos2 : indexOf (getRoot (stage t) last) (nodes c)
                  = Z.of_nat (length (pre ++ first :: mid))).
  { rewrite getRoot_orphan by exact Hlorph. rewrite Hnodes.
    replace (pre ++ first :: mid ++ last :: post)
      with ((pre ++ first :: mid) ++ last :: post) by (rewrite <- ?app_assoc; reflexivity).
    now apply indexOf_middle. }
  unfold ContainerEditing.deleteRange, bind.
  rewrite Hstart, Hend.
  rewrite (getPosition_run t container c first true Hc) by (rewrite ?Hpos1; eauto; lia).
  rewrite (getPosition_run t container c last true Hc) by (rewrite ?Hpos2; eauto; lia).
  rewrite Hpos1, Hpos2.
  replace (Z.of_nat (length pre) =? Z.of_nat (length (pre ++ first :: mid)))%Z with false
    by (symmetry; apply Z.eqb_neq; rewrite length_app; simpl; lia).
  unfold ContainerEditing.getNode, bind, tx.get. cbv beta iota.
  rewrite Hfirst. unfold ret. cbv beta iota. rewrite Hlast. cbv beta iota.
  pose proof (readonly_isEntirelySelected firstNode (Some start') None t) as R1.
  destruct (selectionHelpers.isEntirelySelected firstNode (Some start') None t) as [t1 r1].
  simpl in R1, Hsel1. subst t1 r1.
  pose proof (readonly_isEntirelySelected lastNode None (Some end') t) as R2.
  destruct (selectionHelpers.isEntirelySelected lastNode None (Some end') t) as [t2 r2].
  simpl in R2, Hsel2. subst t2 r2.
  unfold ContainerEditing.hideAndDelete, bind.
  (* the last node *)
  pose proof (removed_start t (id container) c Hc) as H0. rewrite Hnodes in H0.
  replace (pre ++ first :: mid ++ last :: post)
    with ((pre ++ first :: mid) ++ last :: post) in H0 by (rewrite <- ?app_assoc; reflexivity).
  destruct (removed_step t t container c _ last post [] [] lastNode H0 Hl1 Hlc
              ltac:(apply not_elem_of_nil) Hlast Hlid Hlorph) as (Hh1 & _ & Hd1 & H1).
  rewrite Hlid, Hh1, Hd1.
  (* the inner nodes *)
  rewrite <- app_assoc in H1. change ((first :: mid) ++ post) with (first :: mid ++ post) in H1.
  destruct (deleteInner_run t container c pre first post mid _ _ _ H1 Hnd1)
    as (t2 & E2 & H2).
  { intros x Hx. split.
    - apply Hrem. right. apply elem_of_app. now left.
    - apply not_elem_of_cons. split; [|apply not_elem_of_nil].
      intros ->. apply Hl1. apply elem_of_app. right. now right. }
  replace (Z.to_nat (Z.of_nat (length (pre ++ first :: mid)) - 1 - Z.of_nat (length pre)))
    with (length mid) by (rewrite length_app; simpl; lia).
  replace (Z.of_nat (length (pre ++ first :: mid)) - 1)%Z
    with (Z.of_nat (length pre + length mid)) by (rewrite length_app; simpl; lia).
  rewrite E2.
  (* the first node *)
  destruct (removed_step t t2 container c pre first post _ _ firstNode H2 Hf1 Hfc)
    as (Hh3 & _ & Hd3 & H3); try assumption.
  { rewrite elem_of_app, elem_of_cons, elem_of_nil. intros [Hin | [-> | []]].
    - apply NoDup_app in Hnd1 as (_ & _ & Hnd2). apply NoDup_cons in Hnd2 as [Hnm _].
      contradiction.
    - apply Hl1. apply elem_of_app. right. now left. }
  rewrite Hfid, Hh3, Hd3.
  set (t3 := commit (OpDelete firstNode) _) in *.
  change (true && true) with true. cbv beta iota.
  destruct H3 as (Hc3 & Hsame3 & Hgone3 & Hpar3 & Hsch3 & Huu3 & Hops3).
  (* the new node *)
  unfold tx.createDefaultTextNode, bind, tx.getSchema. cbv beta iota.
  assert (Hid_new : id new = nextId t3 (defaultTextType (schema (stage t3)))).
  { rewrite Hnew. unfold nextId. now rewrite Hsch3, Huu3. }
  assert (Hnew3 : data (stage t3) !! id new = None).
  { destruct (decide (id new ∈ first :: mid ++ [last])) as [Hin | Hout].
    - apply Hgone3. rewrite elem_of_cons in Hin. rewrite elem_of_cons, !elem_of_app,
        !elem_of_cons, !elem_of_nil. rewrite elem_of_app, elem_of_cons, elem_of_nil in Hin.
      tauto.
    - rewrite Hsame3; [exact Hfresh | congruence |].
      rewrite elem_of_cons in Hout. rewrite elem_of_cons, !elem_of_app,
        !elem_of_cons, !elem_of_nil. rewrite elem_of_app, elem_of_cons, elem_of_nil in Hout.
      tauto. }
  assert (Hcr : tx.create (textNode "" (defaultTextType (schema (stage t3))) "") t3
                = (commit (OpCreate new) (set_uuids (S (uuids t3)) t3), Normal new)).
  { pose proof (create_run t3 (textNode "" (defaultTextType (schema (stage t3))) "") eq_refl)
      as Hcr.
    change (type (textNode "" (defaultTextType (schema (stage t3))) ""))
      with (defaultTextType (schema (stage t3))) in Hcr.
    rewrite <- Hid_new in Hcr. specialize (Hcr Hnew3).
    replace (set_id (id new) (textNode "" (defaultTextType (schema (stage t3))) ""))
      with new in Hcr by (rewrite Hnew, Hsch3; reflexivity).
    exact Hcr. }
  rewrite Hcr.
  set (t4 := commit (OpCreate new) _).
  assert (Hne : id container <> id new) by congruence.
  assert (Hc4 : data (stage t4) !! id container = Some (set_nodes (pre ++ post) c)).
  { subst t4. rewrite data_commit_create, lookup_insert_ne by congruence. exact Hc3. }
  rewrite (array_insert_run t4 container _ _ _ Hc4)
    by (simpl; rewrite length_app; lia).
  unfold tx.createSelection, ret. unfold getTextPath, getPath.
  eexists. split; [reflexivity|].
  set (t5 := commit (OpArrayInsert _ _ _) t4).
  assert (Hd5 : forall i, i <> id container -> data (stage t5) !! i = data (stage t4) !! i).
  { intros i Hi. subst t5. rewrite data_commit_array_insert. now rewrite lookup_alter_ne. }
  split; [|split; [|split]].
  - unfold childrenOf. subst t5. rewrite data_commit_array_insert, lookup_alter_eq, Hc4.
    simpl. now rewrite array_insert_middle.
  - intros x Hx.
    assert (Hxc : x <> id container) by (apply Hrem; exact Hx).
    rewrite Hd5 by exact Hxc. subst t4. rewrite data_commit_create.
    assert (Hxg : x ∈ first :: mid ++ [last]) by exact Hx.
    rewrite lookup_insert_ne.
    + apply Hgone3. rewrite elem_of_cons in Hx. rewrite elem_of_app, elem_of_cons, elem_of_nil in Hx.
      rewrite elem_of_cons, !elem_of_app, !elem_of_cons, !elem_of_nil. tauto.
    + intros E. destruct (Hrem x Hxg) as (_ & (n & Hn & _) & _). rewrite <- E in Hn. congruence.
  - rewrite Hd5 by congruence. subst t4. rewrite data_commit_create. apply lookup_insert_eq.
  - subst t5 t4. rewrite !ops_commit. change (_ops (stage (set_uuids _ t3))) with (_ops (stage t3)).
    rewrite Hops3.
    change (removalsDescending (id container) (data (stage t)) (Z.of_nat (length pre))
              (first :: mid ++ [last]))
      with (removalsDescending (id container) (data (stage t)) (Z.of_nat (length pre) + 1)
              (mid ++ [last])
            ++ removal (id container) (data (stage t)) (Z.of_nat (length pre)) first).
    rewrite removalsDescending_snoc.
    unfold removal. rewrite Hlast, Hfirst.
    replace (Z.of_nat (length pre) + 1 + Z.of_nat (length mid))%Z
        with (Z.of_nat (length (pre ++ first :: mid))) by (rewrite length_app; simpl; lia).
    rewrite <- !app_assoc. reflexivity.
Qed.

Lemma deleteRange_both_entirely_selected_witness :
  exists t',
    ContainerEditing.deleteRange (getEditing 0) quartet (mkCoor ["a"; "content"] 0)
      (mkCoor ["d"; "content"] 4) (mkOptions false) (open quartetDoc)
    = (t', Normal (Some (PropertySelection ["paragraph-0"; "content"] 0 0 (Some "body"))))
    /\ childrenOf (stage t') "body" = Some ["paragraph-0"]
    /\ data (stage t') !! "b" = None.
Proof.
  destruct (deleteRange_both_entirely_selected (getEditing 0) quartet quartet
              [] "a" ["b"; "c"] "d" [] (mkCoor ["a"; "content"] 0) (mkCoor ["d"; "content"] 4)
              (mkOptions false) (open quartetDoc)
              (textNode "a" "paragraph" "one") (textNode "d" "paragraph" "four")
              eq_refl eq_refl)
    with (new := textNode "paragraph-0" "paragraph" "")
    as (t' & E & Hc & Hgone & _); try reflexivity.
  - apply (bool_decide_unpack _). vm_compute. reflexivity.
  - intros x Hx. change (x ∈ ["a"; "b"; "c"; "d"]) in Hx.
    rewrite !elem_of_cons, elem_of_nil in Hx.
    destruct Hx as [-> | [-> | [-> | [-> | []]]]];
      (split; [discriminate | split; [eexists; split; reflexivity | reflexivity]]).
  - exists t'. split; [exact E|]. split; [exact Hc|].
    apply Hgone. right. now left.
Defined.

(** ** Sessions *)

Lemma sameSession_refl t : sameSession t t.
Proof. repeat split. Qed.

Lemma sameSession_trans t1 t2 t3 :
  sameSession t1 t2 -> sameSession t2 t3 -> sameSession t1 t3.
Proof. unfold sameSession. intros (?&?&?&?&?) (?&?&?&?&?). repeat split; congruence. Qed.

Lemma sameSession_commit op t : sameSession t (commit op t).
Proof.
  unfold sameSession. rewrite schema_commit, parents_commit. repeat split.
Qed.

Lemma wf_store_alter (f : Node -> Node) i m :
  (forall n, id (f n) = id n) -> wf_store m -> wf_store (alter f i m).
Proof.
  intros Hf H j x. rewrite lookup_alter. case_decide; [|apply H]. subst j.
  destruct (m !! i) as [n|] eqn:E; [|discriminate]. intros [= <-].
  rewrite Hf. now apply H.
Qed.

Lemma wf_store_delete i m : wf_store m -> wf_store (delete i m).
Proof.
  intros H j x. rewrite lookup_delete. case_decide; [discriminate | apply H].
Qed.

(** ** The annotation loop *)

Lemma shift_run t i n prop v :
  data (stage t) !! i = Some n ->
  prop = "start" \/ prop = "end" ->
  tx.update [i; prop] (tx.shift v) t = (commit (OpShift [i; prop] v) t, Normal tt).
Proof.
  intros H Hp. unfold tx.update, bind, tx.get. rewrite H.
  destruct Hp as [-> | ->]; reflexivity.
Qed.

Lemma data_commit_shift_start i v t :
  data (stage (commit (OpShift [i; "start"] v) t)) = alter (shiftStart v) i (data (stage t)).
Proof. reflexivity. Qed.

Lemma data_commit_shift_end i v t :
  data (stage (commit (OpShift [i; "end"] v) t)) = alter (shiftEnd v) i (data (stage t)).
Proof. reflexivity. Qed.

Lemma shiftStart_run t a v :
  data (stage t) !! id a = Some a ->
  exists t', tx.update [id a; "start"] (tx.shift v) t = (t', Normal tt)
             /\ data (stage t') !! id a = Some (shiftStart v a)
             /\ (forall j, j <> id a -> data (stage t') !! j = data (stage t) !! j)
             /\ sameSession t t'.
Proof.
  intros H. rewrite (shift_run t (id a) a "start" v H) by now left.
  eexists. split; [reflexivity|]. rewrite data_commit_shift_start. split; [|split].
  - now rewrite lookup_alter_eq, H.
  - intros j Hj. now rewrite lookup_alter_ne.
  - apply sameSession_commit.
Qed.

Lemma shiftEnd_run t a v :
  data (stage t) !! id a = Some a ->
  exists t', tx.update [id a; "end"] (tx.shift v) t = (t', Normal tt)
             /\ data (stage t') !! id a = Some (shiftEnd v a)
             /\ (forall j, j <> id a -> data (stage t') !! j = data (stage t) !! j)
             /\ sameSession t t'.
Proof.
  intros H. rewrite (shift_run t (id a) a "end" v H) by now right.
  eexists. split; [reflexivity|]. rewrite data_commit_shift_end. split; [|split].
  - now rewrite lookup_alter_eq, H.
  - intros j Hj. now rewrite lookup_alter_ne.
  - apply sameSession_commit.
Qed.

Lemma deleteAnnotation_run t a :
  data (stage t) !! id a = Some a ->
  exists t', tx.delete (id a) t = (t', Normal tt)
             /\ data (stage t') !! id a = None
             /\ (forall j, j <> id a -> data (stage t') !! j = data (stage t) !! j)
             /\ sameSession t t'.
Proof.
  intros H. rewrite (delete_run t (id a) a H).
  eexists. split; [reflexivity|]. rewrite data_commit_delete. split; [|split].
  - apply lookup_delete_eq.
  - intros j Hj. now rewrite lookup_delete_ne.
  - apply sameSession_commit.
Qed.

Lemma skip_run t a :
  data (stage t) !! id a = Some a ->
  exists t', @ret unit tt t = (t', Normal tt)
             /\ data (stage t') !! id a = Some a
             /\ (forall j, j <> id a -> data (stage t') !! j = data (stage t) !! j)
             /\ sameSession t t'.
Proof. intros H. exists t. repeat split. exact H. Qed.

(** Two updates of the same annotation in a row. *)
Lemma then_run (m1 m2 : M unit) t a b c :
  (exists t', m1 t = (t', Normal tt)
              /\ data (stage t') !! id a = Some b
              /\ (forall j, j <> id a -> data (stage t') !! j = data (stage t) !! j)
              /\ sameSession t t') ->
  (forall t1, data (stage t1) !! id a = Some b ->
     exists t', m2 t1 = (t', Normal tt)
                /\ data (stage t') !! id a = Some c
                /\ (forall j, j <> id a -> data (stage t') !! j = data (stage t1) !! j)
                /\ sameSession t1 t') ->
  exists t', (m1 >> m2) t = (t', Normal tt)
             /\ data (stage t') !! id a = Some c
             /\ (forall j, j <> id a -> data (stage t') !! j = data (stage t) !! j)
             /\ sameSession t t'.
Proof.
  intros (t1 & E1 & H1 & F1 & S1) H2.
  destruct (H2 t1 H1) as (t2 & E2 & H2' & F2 & S2).
  exists t2. unfold bind. rewrite E1. split; [exact E2|]. split; [exact H2'|]. split.
  - intros j Hj. rewrite F2 by exact Hj. now apply F1.
  - eapply sameSession_trans; eassumption.
Qed.

Lemma updateAnnotation_step start' end' text typeover a t :
  data (stage t) !! id a = Some a ->
  exists t', updateAnnotation start' end' text typeover a t = (t', Normal tt)
             /\ data (stage t') !! id a = afterEdit start' end' text typeover a
             /\ (forall j, j <> id a -> data (stage t') !! j = data (stage t) !! j)
             /\ sameSession t t'.
Proof.
  intros H. unfold updateAnnotation, afterEdit, annotationCase.
  destruct (offset (end_ a) <? offset start')%Z; [now apply skip_run|].
  destruct (offset (start a) >=? offset end')%Z.
  { eapply then_run; [now apply shiftStart_run|].
    intros t1 H1. exact (shiftEnd_run t1 (shiftStart _ a) _ H1). }
  destruct ((offset (start a) >=? offset start')%Z && _); [now apply deleteAnnotation_run|].
  destruct ((offset (start a) >=? offset start')%Z && _).
  { destruct ((offset (start a) >? offset start')%Z || negb typeover).
    - eapply then_run; [now apply shiftStart_run|].
      intros t1 H1. exact (shiftEnd_run t1 (shiftStart _ a) _ H1).
    - eapply then_run; [now apply skip_run|].
      intros t1 H1. now apply shiftEnd_run. }
  destruct ((offset (start a) <? offset start')%Z && _); [now apply shiftEnd_run|].
  destruct ((offset (end_ a) =? offset start')%Z && _); [now apply skip_run|].
  destruct ((offset (start a) <? offset start')%Z && _); [|now apply skip_run].
  destruct (_isInlineNode a); [now apply skip_run | now apply shiftEnd_run].
Qed.

(** A loop whose body rewrites or deletes the node it is given and
    touches no other node. *)
Lemma forEach_updates (f : Node -> M unit) (g : Node -> option Node) l :
  (forall a t, data (stage t) !! id a = Some a ->
     exists t', f a t = (t', Normal tt)
                /\ data (stage t') !! id a = g a
                /\ (forall j, j <> id a -> data (stage t') !! j = data (stage t) !! j)
                /\ sameSession t t') ->
  forall t,
    NoDup (id <$> l) ->
    (forall a, a ∈ l -> data (stage t) !! id a = Some a) ->
    exists t', forEach l f t = (t', Normal tt)
               /\ (forall a, a ∈ l -> data (stage t') !! id a = g a)
               /\ (forall i, i ∉ id <$> l -> data (stage t') !! i = data (stage t) !! i)
               /\ sameSession t t'.
Proof.
  intros Hstep. induction l as [|a l IH]; intros t Hnd Hin.
  - exists t. split; [reflexivity|]. split; [|split; [reflexivity | apply sameSession_refl]].
    intros a Ha. inversion Ha.
  - rewrite fmap_cons in Hnd. apply NoDup_cons in Hnd as [Hnotin Hnd].
    destruct (Hstep a t) as (t1 & E1 & D1 & F1 & S1); [apply Hin; left|].
    destruct (IH t1 Hnd) as (t2 & E2 & In2 & Out2 & S2).
    + intros b Hb. rewrite F1; [apply Hin; now right|].
      intros E. apply Hnotin. rewrite <- E. now apply list_elem_of_fmap_2.
    + exists t2. split; [simpl; unfold bind; now rewrite E1|]. split; [|split].
      * intros b [->|Hb]%elem_of_cons; [|now apply In2].
        rewrite Out2 by exact Hnotin. exact D1.
      * intros i Hi. rewrite fmap_cons in Hi. apply not_elem_of_cons in Hi as [Hne Hi].
        rewrite Out2 by exact Hi. now apply F1.
      * eapply sameSession_trans; eassumption.
Qed.

Lemma annotates_elem p d a :
  a ∈ tx.annotationsOn p d <-> annotates p a = true /\ exists i, data d !! i = Some a.
Proof.
  rewrite annotationsOn_elem. unfold annotates.
  rewrite andb_true_iff, bool_decide_eq_true. tauto.
Qed.

Lemma annotations_run start' end' text typeover p t :
  wf_store (data (stage t)) ->
  exists t',
    forEach (tx.annotationsOn p (stage t)) (updateAnnotation start' end' text typeover) t
    = (t', Normal tt)
    /\ (forall i a, data (stage t) !! i = Some a ->
          data (stage t') !! i
          = if annotates p a then afterEdit start' end' text typeover a else Some a)
    /\ (forall i, data (stage t) !! i = None -> data (stage t') !! i = None)
    /\ sameSession t t'.
Proof.
  intros Hwf.
  destruct (forEach_updates (updateAnnotation start' end' text typeover)
              (afterEdit start' end' text typeover) (tx.annotationsOn p (stage t))
              (updateAnnotation_step start' end' text typeover) t)
    as (t' & E & Hin & Hout & S).
  - now apply annotationsOn_NoDup.
  - intros a [_ [i Hi]]%annotates_elem. now rewrite (Hwf _ _ Hi).
  - exists t'. split; [exact E|]. split; [|split; [|exact S]].
    + intros i a Hi. destruct (annotates p a) eqn:Ha.
      * rewrite <- (Hwf _ _ Hi). apply Hin. apply annotates_elem. eauto.
      * rewrite Hout; [exact Hi|].
        intros (b & Eb & [Hb [j Hj]]%annotates_elem)%list_elem_of_fmap.
        pose proof (Hwf _ _ Hj). assert (Eij : j = i) by congruence.
        rewrite Eij, Hi in Hj. injection Hj as ->. congruence.
    + intros i Hi. rewrite Hout; [exact Hi|].
      intros (b & Eb & [_ [j Hj]]%annotates_elem)%list_elem_of_fmap.
      pose proof (Hwf _ _ Hj). assert (Eij : j = i) by congruence.
      rewrite Eij in Hj. congruence.
Qed.

(** ** More on strings *)

Lemma length_append a b : String.length (a +:+ b) = (String.length a + String.length b)%nat.
Proof.
  induction a as [|c a IH]; [reflexivity|].
  change (String c a +:+ b) with (String c (a +:+ b)). simpl. now rewrite IH.
Qed.

Lemma strlen_append a b : strlen (a +:+ b) = (strlen a + strlen b)%Z.
Proof. unfold strlen. rewrite length_append. lia. Qed.

Lemma substring_all s : substring 0 (String.length s) s = s.
Proof. induction s as [|c s IH]; simpl; [reflexivity | now rewrite IH]. Qed.

Lemma substring_prefix a b : substring 0 (String.length a) (a +:+ b) = a.
Proof.
  induction a as [|c a IH]; simpl.
  - now destruct b.
  - change (String c a +:+ b) with (String c (a +:+ b)). simpl. now rewrite IH.
Qed.

Lemma substring_suffix a b m : substring (String.length a) m (a +:+ b) = substring 0 m b.
Proof.
  induction a as [|c a IH]; [reflexivity|].
  change (String c a +:+ b) with (String c (a +:+ b)). simpl. exact IH.
Qed.

Lemma str_take_app a b : str_take (strlen a) (a +:+ b) = a.
Proof. unfold str_take, strlen. rewrite Nat2Z.id. apply substring_prefix. Qed.

Lemma str_drop_app a b : str_drop (strlen a) (a +:+ b) = b.
Proof.
  unfold str_drop, strlen. rewrite Nat2Z.id, length_append, substring_suffix.
  replace (String.length a + String.length b - String.length a)%nat
    with (String.length b) by lia.
  apply substring_all.
Qed.

Lemma strlen_take n s : (0 <= n <= strlen s)%Z -> strlen (str_take n s) = n.
Proof.
  unfold strlen, str_take. intros H. rewrite length_substring by lia. lia.
Qed.

Lemma strlen_drop n s : (0 <= n <= strlen s)%Z -> strlen (str_drop n s) = (strlen s - n)%Z.
Proof.
  unfold strlen, str_drop. intros H. rewrite length_substring by lia. lia.
Qed.

Lemma strlen_between a b s :
  (0 <= a <= b)%Z -> (b <= strlen s)%Z -> strlen (substring_between a b s) = (b - a)%Z.
Proof.
  unfold strlen, substring_between. intros H1 H2. rewrite length_substring by lia. lia.
Qed.

Lemma strlen_nonneg s : (0 <= strlen s)%Z.
Proof. unfold strlen. lia. Qed.

(** Cutting a text in two and gluing it again. *)
Lemma substring_split s : forall n m,
  substring 0 n s +:+ substring n m s = substring 0 (n + m) s.
Proof.
  induction s as [|c s IH]; intros n m.
  - destruct n, m; reflexivity.
  - destruct n as [|n]; simpl.
    + destruct m; reflexivity.
    + change (String c (substring 0 n s) +:+ substring n m s)
        with (String c (substring 0 n s +:+ substring n m s)).
      now rewrite IH.
Qed.

Lemma take_drop n s : (0 <= n <= strlen s)%Z -> str_take n s +:+ str_drop n s = s.
Proof.
  unfold str_take, str_drop, strlen. intros H. rewrite substring_split.
  replace (Z.to_nat n + (String.length s - Z.to_nat n))%nat with (String.length s) by lia.
  apply substring_all.
Qed.

(** ** Replacing text *)

Lemma text_insert_run t i n s text :
  data (stage t) !! i = Some n ->
  (0 <= s <= strlen (content n))%Z ->
  tx.update [i; "content"] (tx.text_insert s text) t
  = (commit (OpTextInsert [i; "content"] s text) t, Normal tt).
Proof.
  intros H Hs. unfold tx.update, bind, tx.get. rewrite H.
  replace (0 <=? s)%Z with true by (symmetry; apply Z.leb_le; lia).
  replace (s <=? strlen (content n))%Z with true by (symmetry; apply Z.leb_le; lia).
  reflexivity.
Qed.

Lemma data_commit_text_insert i pos s t :
  data (stage (commit (OpTextInsert [i; "content"] pos s) t))
  = alter (fun n => set_content (text_insert_at pos s (content n)) n) i (data (stage t)).
Proof. reflexivity. Qed.

Lemma delete_then_insert s e text c :
  (0 <= s <= e)%Z -> (e <= strlen c)%Z ->
  text_insert_at s text (text_delete_at s (strlen (substring_between s e c)) c)
  = str_take s c +:+ text +:+ str_drop e c.
Proof.
  intros H1 H2. rewrite strlen_between by assumption.
  unfold text_delete_at, text_insert_at.
  replace (s + (e - s))%Z with e by lia.
  rewrite <- (strlen_take s c) at 1 3 by lia.
  now rewrite str_take_app, str_drop_app.
Qed.

Lemma bind_run {A B} (m : M A) (k : A -> M B) t t1 a :
  m t = (t1, Normal a) -> bind m k t = k a t1.
Proof. intros E. unfold bind. now rewrite E. Qed.

Lemma replaceText_run t node start' end' text i n :
  wf_store (data (stage t)) ->
  path start' = [i; "content"] ->
  data (stage t) !! i = Some n ->
  isAnnotation n = false ->
  (0 <= offset start' <= offset end')%Z -> (offset end' <= strlen (content n))%Z ->
  exists t',
    NodeEditing.replaceText node start' end' text t
    = (t', Normal (PropertySelection [i; "content"] (offset start' + strlen text)
                     (offset start' + strlen text) None))
    /\ data (stage t') !! i
       = Some (set_content (str_take (offset start') (content n) +:+ text
                            +:+ str_drop (offset end') (content n)) n)
    /\ (forall j a, j <> i -> data (stage t) !! j = Some a ->
          data (stage t') !! j
          = if annotates [i; "content"] a
            then afterEdit start' end' text (negb (offset start' =? offset end')%Z) a
            else Some a)
    /\ (forall j, data (stage t) !! j = None -> data (stage t') !! j = None)
    /\ sameSession t t'.
Proof.
  intros Hwf Hp Hn Hna Hse He.
  pose proof (Hwf _ _ Hn) as Hid.
  (* the text operations *)
  assert (Htext : exists t1,
    (if negb (offset start' =? offset end')%Z
     then tx.update [i; "content"] (tx.text_delete (offset start') (offset end')) >> ret true
     else ret false) t = (t1, Normal (negb (offset start' =? offset end')%Z))
    /\ data (stage t1)
       = <[i := set_content (if negb (offset start' =? offset end')%Z
                            then text_delete_at (offset start')
                                   (strlen (substring_between (offset start') (offset end')
                                              (content n))) (content n)
                            else content n) n]> (data (stage t))
    /\ sameSession t t1).
  { destruct (negb (offset start' =? offset end')%Z).
    - erewrite bind_run by (apply (text_delete_run t i n); [exact Hn | lia | lia]).
      eexists. split; [reflexivity|]. split; [|apply sameSession_commit].
      rewrite data_commit_text_delete. apply map_eq. intros j.
      destruct (decide (i = j)) as [<-|Hne].
      + now rewrite lookup_alter_eq, lookup_insert_eq, Hn.
      + now rewrite lookup_alter_ne, lookup_insert_ne.
    - exists t. split; [reflexivity|]. split; [|apply sameSession_refl].
      symmetry. apply insert_id. rewrite Hn. f_equal. now destruct n. }
  destruct Htext as (t1 & E1 & D1 & S1).
  set (c1 := if negb (offset start' =? offset end')%Z then _ else _) in D1.
  assert (Hc1 : text_insert_at (offset start') text c1
                = str_take (offset start') (content n) +:+ text
                  +:+ str_drop (offset end') (content n)).
  { subst c1. destruct (Z.eqb_spec (offset start') (offset end')) as [E|E]; simpl.
    - unfold text_insert_at. now rewrite E.
    - apply delete_then_insert; lia. }
  assert (Hlen1 : (offset start' <= strlen c1)%Z).
  { subst c1. destruct (negb (offset start' =? offset end')%Z); [|lia].
    rewrite strlen_between by lia. unfold text_delete_at.
    rewrite strlen_append, strlen_take, strlen_drop by lia. lia. }
  assert (H1 : data (stage t1) !! i = Some (set_content c1 n))
    by (rewrite D1; apply lookup_insert_eq).
  unfold NodeEditing.replaceText. rewrite Hp.
  rewrite (bind_run _ _ _ _ _ E1).
  erewrite bind_run by (apply (text_insert_run t1 i _ _ _ H1); simpl; lia).
  set (t2 := commit _ t1).
  assert (D2 : data (stage t2)
               = <[i := set_content (str_take (offset start') (content n) +:+ text
                                     +:+ str_drop (offset end') (content n)) n]>
                   (data (stage t))).
  { subst t2. rewrite data_commit_text_insert, D1. apply map_eq. intros j.
    destruct (decide (i = j)) as [<-|Hne].
    - rewrite lookup_alter_eq, !lookup_insert_eq. simpl. now rewrite Hc1.
    - now rewrite lookup_alter_ne, !lookup_insert_ne. }
  assert (Hwf2 : wf_store (data (stage t2))).
  { rewrite D2. rewrite <- Hid at 1. apply (wf_store_insert _ (set_content _ n)). exact Hwf. }
  destruct (annotations_run start' end' text (negb (offset start' =? offset end')%Z)
              [i; "content"] t2 Hwf2) as (t3 & E3 & Hsome & Hnone & S3).
  unfold tx.getAnnotations. erewrite bind_run by reflexivity.
  rewrite (bind_run _ _ _ _ _ E3). unfold tx.createSelection, ret.
  exists t3. split; [reflexivity|]. split; [|split; [|split]].
  - rewrite (Hsome i (set_content (str_take (offset start') (content n) +:+ text
                                    +:+ str_drop (offset end') (content n)) n)).
    + unfold annotates. change (isAnnotation (set_content _ n)) with (isAnnotation n).
      now rewrite Hna.
    + rewrite D2. apply lookup_insert_eq.
  - intros j a Hj Ha. apply Hsome. rewrite D2. now rewrite lookup_insert_ne.
  - intros j Hj. apply Hnone. rewrite D2. rewrite lookup_insert_ne; [exact Hj|].
    intros <-. congruence.
  - eapply sameSession_trans; [exact S1|].
    eapply sameSession_trans; [apply sameSession_commit | exact S3].
Qed.

Lemma annotates_other p a i n :
  annotates p a = true -> isAnnotation n = false ->
  forall j, data i !! j = Some a -> forall k, data i !! k = Some n -> j <> k.
Proof.
  unfold annotates. intros Ha Hn j Hj k Hk ->. rewrite Hj in Hk. injection Hk as ->.
  rewrite Hn in Ha. discriminate.
Qed.

(** X1: the final [else] of the policy is dead code. *)
Theorem annotationCase_exhaustive start' end' anno :
  annotationCase start' end' anno <> Unhandled.
Proof.
  unfold annotationCase.
  destruct (Z.ltb_spec (offset (end_ anno)) (offset start')); [discriminate|].
  destruct (Z.geb_spec (offset (start anno)) (offset end')); [discriminate|].
  destruct (Z.geb_spec (offset (start anno)) (offset start'));
    destruct (Z.ltb_spec (offset (end_ anno)) (offset end'));
    destruct (Z.leb_spec (offset (end_ anno)) (offset end'));
    destruct (Z.geb_spec (offset (end_ anno)) (offset end'));
    destruct (Z.ltb_spec (offset (start anno)) (offset start'));
    destruct (Z.eqb_spec (offset (end_ anno)) (offset start'));
    destruct (_isInlineNode anno); destruct (autoExpandRight anno);
    simpl; try discriminate; lia.
Qed.

(** X2: the range is replaced, the cursor follows the inserted text, and
    no node other than the text node and the annotations of its property
    is touched. *)
Theorem replaceText_replaces_range t node start' end' text i n :
  wf_store (data (stage t)) ->
  path start' = [i; "content"] ->
  data (stage t) !! i = Some n ->
  isAnnotation n = false ->
  (0 <= offset start' <= offset end')%Z -> (offset end' <= strlen (content n))%Z ->
  exists t' containerId,
    NodeEditing.replaceText node start' end' text t
    = (t', Normal (PropertySelection [i; "content"] (offset start' + strlen text)
                     (offset start' + strlen text) containerId))
    /\ textOf (stage t') i
       = Some (str_take (offset start') (content n) +:+ text
               +:+ str_drop (offset end') (content n))
    /\ (forall j a, j <> i -> data (stage t) !! j = Some a ->
          annotates [i; "content"] a = false -> data (stage t') !! j = Some a)
    /\ (forall j, data (stage t) !! j = None -> data (stage t') !! j = None)
    /\ _selection t' = _selection t.
Proof.
  intros Hwf Hp Hn Hna Hse He.
  destruct (replaceText_run t node start' end' text i n Hwf Hp Hn Hna Hse He)
    as (t' & E & Hi & Hj & Hnone & S).
  exists t', None. split; [exact E|]. split; [|split; [|split]].
  - unfold textOf. now rewrite Hi.
  - intros j a Hne Ha Hno. rewrite (Hj j a Hne Ha). now rewrite Hno.
  - exact Hnone.
  - apply S.
Qed.

Lemma replaceText_replaces_range_witness :
  exists t' containerId,
    NodeEditing.replaceText hello (mkCoor ["p1"; "content"] 0) (mkCoor ["p1"; "content"] 5)
      "bye" (open splitDoc)
    = (t', Normal (PropertySelection ["p1"; "content"] 3 3 containerId))
    /\ textOf (stage t') "p1" = Some "bye world".
Proof.
  destruct (replaceText_replaces_range (open splitDoc) hello (mkCoor ["p1"; "content"] 0)
              (mkCoor ["p1"; "content"] 5) "bye" "p1" hello splitDoc_wf eq_refl eq_refl eq_refl
              ltac:(simpl; lia) ltac:(vm_compute; discriminate))
    as (t' & cid & E & Ht & _).
  exists t', cid. split; [exact E | exact Ht].
Defined.

(** What [replaceText] does to one annotation of the property. *)
Lemma replaceText_annotation t node start' end' text i n j a :
  wf_store (data (stage t)) ->
  path start' = [i; "content"] ->
  data (stage t) !! i = Some n ->
  isAnnotation n = false ->
  (0 <= offset start' <= offset end')%Z -> (offset end' <= strlen (content n))%Z ->
  data (stage t) !! j = Some a ->
  annotates [i; "content"] a = true ->
  exists t' sel,
    NodeEditing.replaceText node start' end' text t = (t', Normal sel)
    /\ data (stage t') !! j
       = afterEdit start' end' text (negb (offset start' =? offset end')%Z) a
    /\ textOf (stage t') i
       = Some (str_take (offset start') (content n) +:+ text
               +:+ str_drop (offset end') (content n)).
Proof.
  intros Hwf Hp Hn Hna Hse He Ha Hon.
  destruct (replaceText_run t node start' end' text i n Hwf Hp Hn Hna Hse He)
    as (t' & E & Hi & Hj & _).
  exists t'. eexists. split; [exact E|]. split.
  - rewrite (Hj j a); [now rewrite Hon | | exact Ha].
    intros ->. rewrite Hn in Ha. injection Ha as ->. unfold annotates in Hon.
    rewrite Hna in Hon. discriminate.
  - unfold textOf. now rewrite Hi.
Qed.

Ltac case_offsets :=
  repeat match goal with
  | |- context [(?a <? ?b)%Z] => destruct (Z.ltb_spec a b)
  | |- context [(?a <=? ?b)%Z] => destruct (Z.leb_spec a b)
  | |- context [(?a >=? ?b)%Z] => destruct (Z.geb_spec a b)
  | |- context [(?a >? ?b)%Z] => destruct (Z.gtb_spec a b)
  | |- context [(?a =? ?b)%Z] => destruct (Z.eqb_spec a b)
  end.

Lemma afterEdit_before start' end' text typeover a :
  (offset (end_ a) < offset start')%Z -> afterEdit start' end' text typeover a = Some a.
Proof.
  intros H. unfold afterEdit, annotationCase. case_offsets; first [lia | reflexivity].
Qed.

Lemma afterEdit_after start' end' text typeover a :
  (offset start' <= offset end')%Z ->
  (offset end' <= offset (start a) <= offset (end_ a))%Z ->
  afterEdit start' end' text typeover a
  = Some (shiftEnd (offset start' - offset end' + strlen text)
            (shiftStart (offset start' - offset end' + strlen text) a)).
Proof.
  intros H1 H2. unfold afterEdit, annotationCase. case_offsets; first [lia | reflexivity].
Qed.

Lemma afterEdit_covered start' end' text typeover a :
  (offset start' <= offset (start a) <= offset (end_ a))%Z ->
  (offset (end_ a) < offset end'
   \/ (offset (start a) < offset (end_ a) <= offset end' /\ _isInlineNode a = true))%Z ->
  afterEdit start' end' text typeover a = None.
Proof.
  intros H1 H2. unfold afterEdit, annotationCase.
  destruct H2 as [H2 | [H2 ->]]; case_offsets; simpl; first [lia | reflexivity].
Qed.

(** X3: annotations outside the range.  One that ends before the start
    offset is left as it is; one that starts at or after the end offset
    has both anchors moved by [start - end + length text]. *)
Theorem replaceText_annotation_outside t node start' end' text i n j a :
  wf_store (data (stage t)) ->
  path start' = [i; "content"] ->
  data (stage t) !! i = Some n ->
  isAnnotation n = false ->
  (0 <= offset start' <= offset end')%Z -> (offset end' <= strlen (content n))%Z ->
  data (stage t) !! j = Some a ->
  annotates [i; "content"] a = true ->
  exists t' sel,
    NodeEditing.replaceText node start' end' text t = (t', Normal sel)
    /\ ((offset (end_ a) < offset start')%Z -> data (stage t') !! j = Some a)
    /\ ((offset end' <= offset (start a) <= offset (end_ a))%Z ->
        data (stage t') !! j
        = Some (shiftEnd (offset start' - offset end' + strlen text)
                  (shiftStart (offset start' - offset end' + strlen text) a))).
Proof.
  intros Hwf Hp Hn Hna Hse He Ha Hon.
  destruct (replaceText_annotation t node start' end' text i n j a Hwf Hp Hn Hna Hse He Ha Hon)
    as (t' & sel & E & Hj & _).
  exists t', sel. split; [exact E|]. split; intros H; rewrite Hj.
  - now apply afterEdit_before.
  - apply afterEdit_after; lia.
Qed.

Lemma replaceText_annotation_outside_witness :
  exists t' sel,
    NodeEditing.replaceText hello (mkCoor ["p1"; "content"] 0) (mkCoor ["p1"; "content"] 5)
      "bye" (open splitDoc) = (t', Normal sel)
    /\ bounds (stage t') "a2" = Some (4, 9)%Z.
Proof.
  destruct (replaceText_annotation_outside (open splitDoc) hello (mkCoor ["p1"; "content"] 0)
              (mkCoor ["p1"; "content"] 5) "bye" "p1" hello "a2"
              (annotation "a2" "emphasis" ["p1"; "content"] 6 11 false true)
              splitDoc_wf eq_refl eq_refl eq_refl
              ltac:(simpl; lia) ltac:(vm_compute; discriminate) eq_refl eq_refl)
    as (t' & sel & E & _ & Hafter).
  exists t', sel. split; [exact E|].
  unfold bounds. rewrite Hafter by (simpl; lia). reflexivity.
Defined.

(** X4: an annotation that starts within the range and ends before its
    end is deleted; so is an inline node that ends at its end. *)
Theorem replaceText_deletes_covered t node start' end' text i n j a :
  wf_store (data (stage t)) ->
  path start' = [i; "content"] ->
  data (stage t) !! i = Some n ->
  isAnnotation n = false ->
  (0 <= offset start' <= offset end')%Z -> (offset end' <= strlen (content n))%Z ->
  data (stage t) !! j = Some a ->
  annotates [i; "content"] a = true ->
  (offset start' <= offset (start a) <= offset (end_ a))%Z ->
  (offset (end_ a) < offset end'
   \/ (offset (start a) < offset (end_ a) <= offset end' /\ _isInlineNode a = true))%Z ->
  exists t' sel,
    NodeEditing.replaceText node start' end' text t = (t', Normal sel)
    /\ data (stage t') !! j = None.
Proof.
  intros Hwf Hp Hn Hna Hse He Ha Hon H1 H2.
  destruct (replaceText_annotation t node start' end' text i n j a Hwf Hp Hn Hna Hse He Ha Hon)
    as (t' & sel & E & Hj & _).
  exists t', sel. split; [exact E|]. rewrite Hj. now apply afterEdit_covered.
Qed.

Lemma replaceText_deletes_covered_witness :
  exists t' sel,
    NodeEditing.replaceText hello (mkCoor ["p1"; "content"] 0) (mkCoor ["p1"; "content"] 6)
      "!" (open splitDoc) = (t', Normal sel)
    /\ data (stage t') !! "a1" = None.
Proof.
  apply (replaceText_deletes_covered (open splitDoc) hello (mkCoor ["p1"; "content"] 0)
           (mkCoor ["p1"; "content"] 6) "!" "p1" hello "a1"
           (annotation "a1" "strong" ["p1"; "content"] 0 5 false true)).
  all: try reflexivity; try exact splitDoc_wf; simpl; try lia.
  vm_compute; discriminate.
Defined.

Lemma afterEdit_anchored start' end' text a len :
  (0 <= offset start' <= offset end')%Z -> (offset end' <= len)%Z ->
  anchoredWithin len a -> inlineLength a ->
  match afterEdit start' end' text (negb (offset start' =? offset end')%Z) a with
  | Some a' => anchoredWithin (offset start' + strlen text + (len - offset end')) a'
  | None => True
  end.
Proof.
  intros Hse He [Ha1 Ha2] Hin. pose proof (strlen_nonneg text).
  unfold inlineLength in Hin. unfold afterEdit, annotationCase, anchoredWithin.
  destruct (_isInlineNode a); [specialize (Hin eq_refl)|clear Hin];
    destruct (autoExpandRight a); case_offsets; simpl; try exact I; lia.
Qed.

(** X5: annotations stay anchored inside the text. *)
Theorem replaceText_keeps_annotations_anchored t node start' end' text i n j a :
  wf_store (data (stage t)) ->
  path start' = [i; "content"] ->
  data (stage t) !! i = Some n ->
  isAnnotation n = false ->
  (0 <= offset start' <= offset end')%Z -> (offset end' <= strlen (content n))%Z ->
  data (stage t) !! j = Some a ->
  annotates [i; "content"] a = true ->
  anchoredWithin (strlen (content n)) a -> inlineLength a ->
  exists t' sel text',
    NodeEditing.replaceText node start' end' text t = (t', Normal sel)
    /\ textOf (stage t') i = Some text'
    /\ match data (stage t') !! j with
       | Some a' => anchoredWithin (strlen text') a'
       | None => True
       end.
Proof.
  intros Hwf Hp Hn Hna Hse He Ha Hon Hanch Hinl.
  destruct (replaceText_annotation t node start' end' text i n j a Hwf Hp Hn Hna Hse He Ha Hon)
    as (t' & sel & E & Hj & Ht).
  exists t', sel. eexists. split; [exact E|]. split; [exact Ht|]. rewrite Hj.
  rewrite !strlen_append, strlen_take, strlen_drop by lia.
  replace (offset start' + (strlen text + (strlen (content n) - offset end')))%Z
    with (offset start' + strlen text + (strlen (content n) - offset end'))%Z by lia.
  now apply afterEdit_anchored.
Qed.

Lemma replaceText_keeps_annotations_anchored_witness :
  exists t' sel text',
    NodeEditing.replaceText hello (mkCoor ["p1"; "content"] 3) (mkCoor ["p1"; "content"] 8)
      "" (open splitDoc) = (t', Normal sel)
    /\ textOf (stage t') "p1" = Some text'
    /\ match data (stage t') !! "a2" with
       | Some a' => anchoredWithin (strlen text') a'
       | None => True
       end.
Proof.
  apply (replaceText_keeps_annotations_anchored (open splitDoc) hello
           (mkCoor ["p1"; "content"] 3) (mkCoor ["p1"; "content"] 8) "" "p1" hello "a2"
           (annotation "a2" "emphasis" ["p1"; "content"] 6 11 false true)).
  all: try reflexivity; try exact splitDoc_wf.
  - simpl; lia.
  - vm_compute; discriminate.
  - split; vm_compute; [split|]; discriminate.
  - intros H; discriminate H.
Defined.

(** X6: typing at the edges of an annotation.  Text inserted where an
    annotation starts pushes the whole annotation to the right; text
    inserted where it ends is taken into the annotation exactly when the
    annotation auto-expands to the right and is not an inline node. *)
Theorem insertText_at_annotation_edges t node coor text i n j a :
  wf_store (data (stage t)) ->
  path coor = [i; "content"] ->
  data (stage t) !! i = Some n ->
  isAnnotation n = false ->
  (0 <= offset coor <= strlen (content n))%Z ->
  data (stage t) !! j = Some a ->
  annotates [i; "content"] a = true ->
  (offset (start a) <= offset (end_ a))%Z ->
  exists t' sel,
    NodeEditing.insertText node coor text t = (t', Normal sel)
    /\ (offset (start a) = offset coor ->
        data (stage t') !! j = Some (shiftEnd (strlen text) (shiftStart (strlen text) a)))
    /\ ((offset (start a) < offset (end_ a))%Z -> offset (end_ a) = offset coor ->
        data (stage t') !! j
        = Some (if autoExpandRight a && negb (_isInlineNode a)
                then shiftEnd (strlen text) a else a)).
Proof.
  intros Hwf Hp Hn Hna Hoff Ha Hon Hord.
  destruct (replaceText_annotation t node coor coor text i n j a Hwf Hp Hn Hna
              ltac:(lia) ltac:(lia) Ha Hon) as (t' & sel & E & Hj & _).
  exists t', sel. split; [exact E|]. rewrite Hj.
  replace (strlen text) with (offset coor - offset coor + strlen text)%Z by lia.
  unfold afterEdit, annotationCase. split.
  - intros H. case_offsets; first [lia | reflexivity].
  - intros H1 H2. destruct (autoExpandRight a), (_isInlineNode a);
      case_offsets; simpl; first [lia | reflexivity].
Qed.

Lemma insertText_at_annotation_edges_witness :
  exists t' sel,
    NodeEditing.insertText hello (mkCoor ["p1"; "content"] 5) "!" (open splitDoc)
    = (t', Normal sel)
    /\ bounds (stage t') "a1" = Some (0, 6)%Z.
Proof.
  destruct (insertText_at_annotation_edges (open splitDoc) hello (mkCoor ["p1"; "content"] 5)
              "!" "p1" hello "a1" (annotation "a1" "strong" ["p1"; "content"] 0 5 false true)
              splitDoc_wf eq_refl eq_refl eq_refl
              ltac:(split; vm_compute; discriminate) eq_refl eq_refl
              ltac:(vm_compute; discriminate))
    as (t' & sel & E & _ & Hend).
  exists t', sel. split; [exact E|].
  unfold bounds. rewrite Hend by (simpl; first [lia | reflexivity]). reflexivity.
Defined.

(** X7: replacing a non-empty range by text stretches every annotation
    that ends exactly where the range starts over the inserted text: the
    branch "starts before the altered area and ends within" is taken
    before [autoExpandRight] or [_isInlineNode] is looked at, so an
    annotation that does not expand to the right grows, and so does an
    inline node, which then covers more than one character. *)
Theorem replaceText_typeover_stretches t node start' end' text i n j a :
  wf_store (data (stage t)) ->
  path start' = [i; "content"] ->
  data (stage t) !! i = Some n ->
  isAnnotation n = false ->
  (0 <= offset start' < offset end')%Z -> (offset end' <= strlen (content n))%Z ->
  data (stage t) !! j = Some a ->
  annotates [i; "content"] a = true ->
  (offset (start a) < offset start')%Z -> offset (end_ a) = offset start' ->
  exists t' sel,
    NodeEditing.replaceText node start' end' text t = (t', Normal sel)
    /\ bounds (stage t') j = Some (offset (start a), offset start' + strlen text)%Z.
Proof.
  intros Hwf Hp Hn Hna Hse He Ha Hon Hstart Hend.
  destruct (replaceText_annotation t node start' end' text i n j a Hwf Hp Hn Hna
              ltac:(lia) He Ha Hon) as (t' & sel & E & Hj & _).
  exists t', sel. split; [exact E|]. unfold bounds. rewrite Hj.
  unfold afterEdit, annotationCase.
  destruct (_isInlineNode a), (autoExpandRight a);
    case_offsets; simpl; try lia; f_equal; f_equal; lia.
Qed.

Lemma helloDoc_wf inline expand : wf_store (data (helloDoc inline expand)).
Proof.
  change (map_Forall (fun i n => id n = i) (data (helloDoc inline expand))).
  apply map_Forall_to_list. vm_compute. repeat constructor.
Qed.

Lemma replaceText_typeover_stretches_witness :
  exists t' sel,
    NodeEditing.replaceText hello (mkCoor ["p1"; "content"] 5) (mkCoor ["p1"; "content"] 11)
      "!" (open (helloDoc true false)) = (t', Normal sel)
    /\ bounds (stage t') "a1" = Some (0, 6)%Z.
Proof.
  apply (replaceText_typeover_stretches (open (helloDoc true false)) hello
           (mkCoor ["p1"; "content"] 5) (mkCoor ["p1"; "content"] 11) "!" "p1" hello "a1"
           (annotation "a1" "strong" ["p1"; "content"] 0 5 true false)).
  all: try reflexivity; try apply helloDoc_wf.
  all: first [simpl; lia | vm_compute; discriminate].
Defined.

(** ** Merging children of a container *)

Lemma getChild_run t c cn pos x xn :
  data (stage t) !! id c = Some cn ->
  (0 <= pos)%Z -> nodes cn !! Z.to_nat pos = Some x ->
  data (stage t) !! x = Some xn ->
  ContainerEditing.getChild c pos t = (t, Normal xn).
Proof.
  intros Hc Hpos Hx Hxn. unfold ContainerEditing.getChild, Container.getNodeAt,
    Container.getChildAt.
  erewrite bind_run.
  2:{ erewrite bind_run by (apply (nodes_run t c cn Hc)).
      replace (pos <? 0)%Z with false by (symmetry; apply Z.ltb_ge; lia).
      rewrite Hx. unfold tx.get. rewrite Hxn. reflexivity. }
  reflexivity.
Qed.

Lemma getLength_run t c cn :
  data (stage t) !! id c = Some cn ->
  Container.getLength c t = (t, Normal (Z.of_nat (length (nodes cn)))).
Proof.
  intros Hc. unfold Container.getLength.
  erewrite bind_run by (apply (nodes_run t c cn Hc)). reflexivity.
Qed.

Lemma getEditing_text fuel n : kind n = TextClass -> getEditing (S fuel) n = text_behaviour.
Proof. intros H. simpl. unfold capability. now rewrite H. Qed.

Lemma merge_nothing ed container c coor direction t x xn pos :
  data (stage t) !! id container = Some c ->
  path0 coor = x -> data (stage t) !! x = Some xn -> id xn = x ->
  parents (stage t) !! x = None ->
  indexOf x (nodes c) = pos -> (0 <= pos)%Z ->
  (direction = "left" /\ pos = 0%Z)
  \/ (direction = "right" /\ pos = (Z.of_nat (length (nodes c)) - 1)%Z) ->
  ContainerEditing.merge ed container coor direction t = (t, Normal None).
Proof.
  intros Hc Hp Hx Hid Horph Hpos Hpos0 Hdir. unfold ContainerEditing.merge. rewrite Hp.
  assert (Hroot : getRoot (stage t) x = x) by now apply getRoot_orphan.
  rewrite (bind_run _ _ _ _ _ (getPosition_run t container c x false Hc ltac:(eauto)
             ltac:(rewrite Hroot, Hpos; lia))).
  rewrite Hroot, Hpos.
  erewrite bind_run.
  2:{ apply (getChild_run t container c _ x xn Hc); [lia | | exact Hx].
      rewrite <- Hpos. apply indexOf_lookup. lia. }
  rewrite Hid, String.eqb_refl. simpl negb. cbv iota.
  erewrite bind_run by reflexivity. cbv beta iota.
  erewrite bind_run by (apply (getLength_run t container c Hc)).
  destruct Hdir as [[-> E] | [-> E]]; rewrite E.
  - reflexivity.
  - rewrite Z.ltb_irrefl. reflexivity.
Qed.

(** X8: no merge past the boundary of the container. *)
Theorem merge_at_boundary ed container c coor direction t x xn l :
  data (stage t) !! id container = Some c ->
  path0 coor = x -> data (stage t) !! x = Some xn -> id xn = x ->
  parents (stage t) !! x = None ->
  (direction = "left" /\ nodes c = x :: l) \/ (direction = "right" /\ nodes c = l ++ [x]) ->
  NoDup (nodes c) ->
  ContainerEditing.merge ed container coor direction t = (t, Normal None).
Proof.
  intros Hc Hp Hx Hid Horph Hdir Hnd.
  destruct Hdir as [[Hd E] | [Hd E]].
  - apply (merge_nothing ed container c coor direction t x xn 0 Hc Hp Hx Hid Horph).
    + rewrite E. unfold indexOf. simpl. now rewrite String.eqb_refl.
    + lia.
    + now left.
  - assert (Hpos : indexOf x (nodes c) = Z.of_nat (length l)).
    { rewrite E in *. apply indexOf_middle.
      apply NoDup_app in Hnd as (_ & Hdj & _). intros Hin. apply (Hdj x Hin). now left. }
    apply (merge_nothing ed container c coor direction t x xn _ Hc Hp Hx Hid Horph Hpos);
      [lia|]. right. split; [exact Hd|]. rewrite E, length_app. simpl. lia.
Qed.

Lemma merge_at_boundary_witness :
  ContainerEditing.merge (getEditing 1) body (mkCoor ["t"; "content"] 0) "left"
    (open fooBarDoc)
  = (open fooBarDoc, Normal None).
Proof.
  apply (merge_at_boundary (getEditing 1) body body (mkCoor ["t"; "content"] 0) "left"
           (open fooBarDoc) "t" foo ["s"]); try reflexivity.
  - left. split; reflexivity.
  - apply (bool_decide_unpack _). vm_compute. exact I.
Defined.

Lemma append_at_end c text : text_insert_at (strlen c) text c = c +:+ text.
Proof.
  unfold text_insert_at, str_take, str_drop, strlen. rewrite Nat2Z.id, Nat.sub_diag.
  now rewrite substring_all, substring_none, append_empty_r.
Qed.

Lemma text_getMergeAsTypes_run t node coor :
  path0 coor = id node -> data (stage t) !! id node = Some node ->
  TextNodeEditing.getMergeAsTypes node coor t
  = (t, Normal (if isEmpty node then ["text"; "remove"] else ["text"])).
Proof.
  intros Hp Hn. unfold TextNodeEditing.getMergeAsTypes.
  rewrite Hp, String.eqb_refl. change (negb true) with false. cbv iota.
  erewrite bind_run by (apply (live_run t node Hn)). reflexivity.
Qed.

Lemma text_selectMergeType_run t node types coor :
  path0 coor = id node -> data (stage t) !! id node = Some node ->
  TextNodeEditing.selectMergeType node types coor t
  = (t, Normal (if isEmpty node then firstType types else findType "text" types)).
Proof.
  intros Hp Hn. unfold TextNodeEditing.selectMergeType.
  rewrite Hp, String.eqb_refl. change (negb true) with false. cbv iota.
  erewrite bind_run by (apply (live_run t node Hn)).
  destruct (isEmpty node); reflexivity.
Qed.

(** The target takes the text and the annotations of the source. *)
Lemma text_mergeNode_run t target source coor container ce :
  wf_store (data (stage t)) ->
  path0 coor = id target ->
  data (stage t) !! id target = Some target ->
  isText target = true -> isEmpty target = false ->
  data (stage t) !! id source = Some source ->
  isAnnotation source = false -> id source <> id target ->
  exists t',
    TextNodeEditing.mergeNode target (TType "text") source coor container ce t
    = (t', Normal (Some (PropertySelection (getPath target) (strlen (content target))
                           (strlen (content target)) (Some (id container)))))
    /\ data (stage t') !! id target
       = Some (set_content (content target +:+ content source) target)
    /\ data (stage t') !! id source = None
    /\ (forall j a, j <> id target -> j <> id source -> data (stage t) !! j = Some a ->
          data (stage t') !! j
          = Some (if annotates (getPath source) a && (offset (start a) >=? 0)%Z
                  then transferred 0 (getPath target) (strlen (content target)) a else a))
    /\ (forall j, data (stage t) !! j = None -> data (stage t') !! j = None).
Proof.
  intros Hwf Hp Ht Htext Hne Hs Hsa Hdiff.
  unfold TextNodeEditing.mergeNode. rewrite Hp, String.eqb_refl. change (negb true) with false. cbv iota.
  erewrite bind_run by (apply (live_run t target Ht)). rewrite Hne. change (isType (TType "text") "text") with true. cbv iota.
  erewrite bind_run by (apply (live_run t source Hs)).
  unfold getLength. rewrite Htext. unfold getPath at 1.
  erewrite bind_run by (apply (text_insert_run t (id target) target); [exact Ht | pose proof (strlen_nonneg (content target)); lia]).
  set (t1 := commit _ t).
  assert (D1 : forall j, data (stage t1) !! j
                 = if decide (id target = j)
                   then Some (set_content (content target +:+ content source) target)
                   else data (stage t) !! j).
  { intros j. subst t1. rewrite data_commit_text_insert, lookup_alter. case_decide; [|reflexivity].
    subst j. rewrite Ht. simpl. unfold getText. now rewrite append_at_end. }
  assert (Hwf1 : wf_store (data (stage t1))).
  { subst t1. rewrite data_commit_text_insert. now apply wf_store_alter. }
  destruct (transferAnnotations_run (getPath source) 0 [id target; "content"]
              (strlen (content target)) t1 Hwf1) as (t2 & E2 & Hsome & Hnone).
  rewrite (bind_run _ _ _ _ _ E2).
  assert (Hs2 : data (stage t2) !! id source = Some source).
  { rewrite (Hsome (id source) source).
    - now rewrite Hsa.
    - rewrite D1. now rewrite decide_False by congruence. }
  unfold documentHelpers.deleteNode.
  erewrite bind_run by (apply (delete_run t2 (id source) source Hs2)).
  unfold tx.createSelection. erewrite bind_run by reflexivity. unfold ret.
  eexists. split; [reflexivity|].
  rewrite data_commit_delete. split; [|split; [|split]].
  - rewrite lookup_delete_ne by congruence.
    rewrite (Hsome (id target) (set_content (content target +:+ content source) target)).
    + assert (isAnnotation target = false) as Hta by now apply text_not_annotation.
      change (isAnnotation (set_content _ target)) with (isAnnotation target). now rewrite Hta.
    + rewrite D1. now rewrite decide_True.
  - apply lookup_delete_eq.
  - intros j a Hjt Hjs Ha. rewrite lookup_delete_ne by congruence.
    rewrite (Hsome j a); [reflexivity|]. rewrite D1. now rewrite decide_False by congruence.
  - intros j Hj. destruct (decide (id source = j)) as [<-|Hnej]; [apply lookup_delete_eq|].
    rewrite lookup_delete_ne by exact Hnej. apply Hnone. rewrite D1.
    rewrite decide_False; [exact Hj|]. intros <-. congruence.
Qed.

Lemma indexOf_second x y l1 l2 :
  NoDup (l1 ++ x :: y :: l2) -> indexOf y (l1 ++ x :: y :: l2) = Z.of_nat (S (length l1)).
Proof.
  intros Hnd. replace (l1 ++ x :: y :: l2) with ((l1 ++ [x]) ++ y :: l2) in *
    by (now rewrite <- app_assoc).
  rewrite indexOf_middle.
  - rewrite length_app. simpl. f_equal. lia.
  - apply NoDup_app in Hnd as (_ & Hdj & _). intros Hin. apply (Hdj y Hin). now left.
Qed.

Lemma indexOf_first x l1 l2 :
  NoDup (l1 ++ x :: l2) -> indexOf x (l1 ++ x :: l2) = Z.of_nat (length l1).
Proof.
  intros Hnd. apply indexOf_middle.
  apply NoDup_app in Hnd as (_ & Hdj & _). intros Hin. apply (Hdj x Hin). now left.
Qed.

Lemma lookup_second {A} (x y : A) l1 l2 :
  (l1 ++ x :: y :: l2) !! S (length l1) = Some y.
Proof.
  replace (l1 ++ x :: y :: l2) with ((l1 ++ [x]) ++ y :: l2) by (now rewrite <- app_assoc).
  replace (S (length l1)) with (length (l1 ++ [x])) by (rewrite length_app; simpl; lia).
  apply list_lookup_middle. reflexivity.
Qed.

Lemma array_delete_second {A} (x y : A) l1 l2 :
  array_delete_at (Z.of_nat (S (length l1))) (l1 ++ x :: y :: l2) = l1 ++ x :: l2.
Proof.
  replace (l1 ++ x :: y :: l2) with ((l1 ++ [x]) ++ y :: l2) by (now rewrite <- app_assoc).
  replace (S (length l1)) with (length (l1 ++ [x])) by (rewrite length_app; simpl; lia).
  rewrite array_delete_middle. now rewrite <- app_assoc.
Qed.

(** Merging a text node into the non-empty text node before it. *)
Lemma mergeNodes_text_run fuel container c sourceCoor targetCoor direction t pre tn sn post :
  wf_store (data (stage t)) ->
  data (stage t) !! id container = Some c ->
  nodes c = pre ++ id tn :: id sn :: post -> NoDup (nodes c) ->
  data (stage t) !! id tn = Some tn -> data (stage t) !! id sn = Some sn ->
  kind c = ContainerClass -> kind tn = TextClass -> kind sn = TextClass ->
  isEmpty tn = false ->
  parents (stage t) !! id sn = None ->
  path0 sourceCoor = id sn -> path0 targetCoor = id tn ->
  exists t',
    ContainerEditing.mergeNodes (getEditing (S fuel)) container sn sourceCoor tn targetCoor
      direction t
    = (t', Normal (Some (PropertySelection (getPath tn) (strlen (content tn))
                           (strlen (content tn)) (Some (id container)))))
    /\ data (stage t') !! id tn = Some (set_content (content tn +:+ content sn) tn)
    /\ data (stage t') !! id container = Some (set_nodes (pre ++ id tn :: post) c)
    /\ data (stage t') !! id sn = None
    /\ (forall j a, j <> id container -> j <> id tn -> j <> id sn ->
          data (stage t) !! j = Some a ->
          data (stage t') !! j
          = Some (if annotates (getPath sn) a && (offset (start a) >=? 0)%Z
                  then transferred 0 (getPath tn) (strlen (content tn)) a else a))
    /\ (forall j, data (stage t) !! j = None -> data (stage t') !! j = None).
Proof.
  intros Hwf Hc Hn Hnd Ht Hs Hkc Hkt Hks Hne Horph Hsp Htp.
  assert (Hct : id container <> id tn).
  { intros E. rewrite E, Ht in Hc. congruence. }
  assert (Hcs : id container <> id sn).
  { intros E. rewrite E, Hs in Hc. congruence. }
  assert (Hts : id sn <> id tn).
  { intros E. rewrite Hn, E in Hnd. apply NoDup_app in Hnd as (_ & _ & Hnd).
    apply NoDup_cons in Hnd as [Hnot _]. apply Hnot. now left. }
  unfold ContainerEditing.mergeNodes. rewrite !(getEditing_text fuel) by assumption.
  cbv zeta. unfold text_behaviour. cbv [Behaviour.getMergeAsTypes
    Behaviour.selectMergeType Behaviour.convertForMerge Behaviour.mergeNode].
  erewrite bind_run by (apply (text_getMergeAsTypes_run t sn sourceCoor Hsp Hs)).
  erewrite bind_run by (apply (text_selectMergeType_run t tn _ targetCoor Htp Ht)).
  rewrite Hne.
  assert (Hfind : findType "text" (if isEmpty sn then ["text"; "remove"] else ["text"])
                  = TType "text") by (destruct (isEmpty sn); reflexivity).
  rewrite Hfind. cbv iota.
  unfold TextNodeEditing.convertForMerge, ContainerEditing.this. cbv [hide_].
  assert (Hroot : getRoot (stage t) (id sn) = id sn) by now apply getRoot_orphan.
  assert (Hpos : indexOf (id sn) (nodes c) = Z.of_nat (S (length pre))).
  { rewrite Hn in *. now apply indexOf_second. }
  erewrite bind_run.
  2:{ erewrite bind_run.
      2:{ apply (hide_run t container c (id sn) Hc); [eauto|]. rewrite Hroot, Hpos. lia. }
      reflexivity. }
  rewrite Hroot, Hpos. set (t1 := commit _ t).
  assert (D1 : data (stage t1)
               = alter (fun n => set_nodes (pre ++ id tn :: post) n) (id container)
                   (data (stage t))).
  { subst t1. rewrite data_commit_array_delete. apply map_eq. intros j.
    rewrite !lookup_alter. case_decide; [|reflexivity]. subst j. rewrite Hc. simpl.
    rewrite Hn. now rewrite array_delete_second. }
  assert (Hwf1 : wf_store (data (stage t1))).
  { rewrite D1. now apply wf_store_alter. }
  destruct (text_mergeNode_run t1 tn sn targetCoor container
              {| hide_ := ContainerEditing.hide; show_ := ContainerEditing.show |} Hwf1 Htp)
    as (t' & E & Dt & Ds & Dother & Dnone).
  - rewrite D1, lookup_alter_ne by exact Hct. exact Ht.
  - unfold isText. now apply bool_decide_eq_true.
  - exact Hne.
  - rewrite D1, lookup_alter_ne by exact Hcs. exact Hs.
  - unfold isAnnotation. apply bool_decide_eq_false. congruence.
  - exact Hts.
  - exists t'. split; [exact E|]. split; [exact Dt|]. split; [|split; [exact Ds|split]].
    + rewrite (Dother (id container) (set_nodes (pre ++ id tn :: post) c)); try congruence.
      * unfold annotates, isAnnotation. simpl. rewrite Hkc. reflexivity.
      * rewrite D1, lookup_alter_eq, Hc. reflexivity.
    + intros j a Hjc Hjt Hjs Ha. apply Dother; [exact Hjt | exact Hjs |].
      rewrite D1, lookup_alter_ne by congruence. exact Ha.
    + intros j Hj. apply Dnone. rewrite D1, lookup_alter_None. exact Hj.
Qed.

(** The two ways into [mergeNodes]. *)
Lemma merge_left_run ed container c coor t pre target source post tn sn :
  data (stage t) !! id container = Some c ->
  nodes c = pre ++ target :: source :: post -> NoDup (nodes c) ->
  data (stage t) !! target = Some tn -> data (stage t) !! source = Some sn ->
  id sn = source ->
  parents (stage t) !! source = None ->
  path0 coor = source ->
  ContainerEditing.merge ed container coor "left" t
  = ContainerEditing.mergeNodes ed container sn coor tn (mkCoor [id tn] 0) "left" t.
Proof.
  intros Hc Hn Hnd Ht Hs Hid Horph Hp. unfold ContainerEditing.merge. rewrite Hp.
  assert (Hroot : getRoot (stage t) source = source) by now apply getRoot_orphan.
  assert (Hpos : indexOf source (nodes c) = Z.of_nat (S (length pre))).
  { rewrite Hn in *. now apply indexOf_second. }
  rewrite (bind_run _ _ _ _ _ (getPosition_run t container c source false Hc ltac:(eauto)
             ltac:(rewrite Hroot, Hpos; lia))).
  rewrite Hroot, Hpos.
  erewrite bind_run.
  2:{ apply (getChild_run t container c _ source sn Hc); [lia | | exact Hs].
      rewrite Nat2Z.id, Hn. apply lookup_second. }
  rewrite Hid, String.eqb_refl. change (negb true) with false. cbv iota.
  erewrite bind_run by reflexivity. cbv beta iota.
  erewrite bind_run by (apply (getLength_run t container c Hc)).
  change ("left" =? "left") with true.
  replace (Z.of_nat (S (length pre)) >? 0)%Z with true by (symmetry; apply Z.gtb_lt; lia).
  change (true && true) with true. cbv iota.
  erewrite bind_run.
  2:{ apply (getChild_run t container c _ target tn Hc); [lia | | exact Ht].
      replace (Z.to_nat (Z.of_nat (S (length pre)) - 1)) with (length pre) by lia.
      rewrite Hn. now apply list_lookup_middle. }
  reflexivity.
Qed.

Lemma merge_right_run ed container c coor t pre target source post tn sn :
  data (stage t) !! id container = Some c ->
  nodes c = pre ++ target :: source :: post -> NoDup (nodes c) ->
  data (stage t) !! target = Some tn -> data (stage t) !! source = Some sn ->
  id tn = target ->
  parents (stage t) !! target = None ->
  path0 coor = target ->
  ContainerEditing.merge ed container coor "right" t
  = ContainerEditing.mergeNodes ed container sn (mkCoor [id sn] 0) tn coor "right" t.
Proof.
  intros Hc Hn Hnd Ht Hs Hid Horph Hp. unfold ContainerEditing.merge. rewrite Hp.
  assert (Hroot : getRoot (stage t) target = target) by now apply getRoot_orphan.
  assert (Hpos : indexOf target (nodes c) = Z.of_nat (length pre)).
  { rewrite Hn in *. now apply indexOf_first. }
  rewrite (bind_run _ _ _ _ _ (getPosition_run t container c target false Hc ltac:(eauto)
             ltac:(rewrite Hroot, Hpos; lia))).
  rewrite Hroot, Hpos.
  erewrite bind_run.
  2:{ apply (getChild_run t container c _ target tn Hc); [lia | | exact Ht].
      rewrite Nat2Z.id, Hn. now apply list_lookup_middle. }
  rewrite Hid, String.eqb_refl. change (negb true) with false. cbv iota.
  erewrite bind_run by reflexivity. cbv beta iota.
  erewrite bind_run by (apply (getLength_run t container c Hc)).
  change ("right" =? "left") with false. change (false && _) with false. cbv iota.
  change ("right" =? "right") with true.
  replace (Z.of_nat (length pre) <? Z.of_nat (length (nodes c)) - 1)%Z with true.
  2:{ symmetry. apply Z.ltb_lt. rewrite Hn, length_app. simpl. lia. }
  change (true && true) with true. cbv iota.
  erewrite bind_run.
  2:{ apply (getChild_run t container c _ source sn Hc); [lia | | exact Hs].
      replace (Z.to_nat (Z.of_nat (length pre) + 1)) with (S (length pre)) by lia.
      rewrite Hn. apply lookup_second. }
  reflexivity.
Qed.

(** X9: two adjacent text children, the first one not empty, merged from
    the start of the second leftwards or from the first rightwards: the
    first takes the text of both, the second leaves the container and the
    document, annotations of the second move onto the first, shifted by
    the length the first had, everything else stays, and the cursor stands
    where the two texts meet. *)
Theorem merge_adjacent_text fuel container c coor direction t pre tn sn post :
  wf_store (data (stage t)) ->
  data (stage t) !! id container = Some c ->
  nodes c = pre ++ id tn :: id sn :: post -> NoDup (nodes c) ->
  data (stage t) !! id tn = Some tn -> data (stage t) !! id sn = Some sn ->
  kind c = ContainerClass -> kind tn = TextClass -> kind sn = TextClass ->
  isEmpty tn = false ->
  parents (stage t) !! id tn = None -> parents (stage t) !! id sn = None ->
  (direction = "left" /\ path0 coor = id sn) \/ (direction = "right" /\ path0 coor = id tn) ->
  exists t',
    ContainerEditing.merge (getEditing (S fuel)) container coor direction t
    = (t', Normal (Some (PropertySelection [id tn; "content"] (strlen (content tn))
                           (strlen (content tn)) (Some (id container)))))
    /\ textOf (stage t') (id tn) = Some (content tn +:+ content sn)
    /\ childrenOf (stage t') (id container) = Some (pre ++ id tn :: post)
    /\ data (stage t') !! id sn = None
    /\ (forall j a, j <> id container -> j <> id tn -> j <> id sn ->
          data (stage t) !! j = Some a ->
          data (stage t') !! j
          = Some (if annotates [id sn; "content"] a && (0 <=? offset (start a))%Z
                  then transferred 0 [id tn; "content"] (strlen (content tn)) a else a))
    /\ (forall j, data (stage t) !! j = None -> data (stage t') !! j = None).
Proof.
  intros Hwf Hc Hn Hnd Ht Hs Hkc Hkt Hks Hne Hot Hos Hdir.
  assert (exists sourceCoor targetCoor,
            ContainerEditing.merge (getEditing (S fuel)) container coor direction t
            = ContainerEditing.mergeNodes (getEditing (S fuel)) container sn sourceCoor
                tn targetCoor direction t
            /\ path0 sourceCoor = id sn /\ path0 targetCoor = id tn)
    as (sourceCoor & targetCoor & E & Hsp & Htp).
  { destruct Hdir as [[-> Hp] | [-> Hp]].
    - exists coor, (mkCoor [id tn] 0). split; [|split; [exact Hp | reflexivity]].
      now apply (merge_left_run _ container c coor t pre (id tn) (id sn) post tn sn).
    - exists (mkCoor [id sn] 0), coor. split; [|split; [reflexivity | exact Hp]].
      now apply (merge_right_run _ container c coor t pre (id tn) (id sn) post tn sn). }
  destruct (mergeNodes_text_run fuel container c sourceCoor targetCoor direction t
              pre tn sn post Hwf Hc Hn Hnd Ht Hs Hkc Hkt Hks Hne Hos Hsp Htp)
    as (t' & E' & Dt & Dc & Ds & Dother & Dnone).
  exists t'. rewrite E. split; [exact E'|].
  unfold textOf, childrenOf. rewrite Dt, Dc. repeat split; try assumption.
  intros j a Hjc Hjt Hjs Ha. rewrite (Dother j a Hjc Hjt Hjs Ha).
  now rewrite Z.geb_leb.
Qed.

Lemma fooBarDoc_wf : wf_store (data fooBarDoc).
Proof.
  change (map_Forall (fun i n => id n = i) (data fooBarDoc)).
  apply map_Forall_to_list. vm_compute. repeat constructor.
Qed.

Lemma merge_adjacent_text_witness :
  exists t',
    ContainerEditing.merge (getEditing 1) body (mkCoor ["s"; "content"] 0) "left"
      (open fooBarDoc)
    = (t', Normal (Some (PropertySelection ["t"; "content"] 3 3 (Some "body"))))
    /\ textOf (stage t') "t" = Some "foobar".
Proof.
  destruct (merge_adjacent_text 0 body body (mkCoor ["s"; "content"] 0) "left"
              (open fooBarDoc) [] foo bar [])
    as (t' & E & Htext & _); try reflexivity.
  - exact fooBarDoc_wf.
  - apply (bool_decide_unpack _). vm_compute. exact I.
  - left. split; reflexivity.
  - exists t'. split; [exact E | exact Htext].
Defined.

Lemma selectCursor_text_run t n cid mode :
  data (stage t) !! id n = Some n -> kind n = TextClass ->
  selectionHelpers.selectCursor n cid mode t
  = (t, Normal (PropertySelection [id n; "content"]
                  (if String.eqb mode "after" then strlen (content n) else 0)
                  (if String.eqb mode "after" then strlen (content n) else 0) cid)).
Proof.
  intros Hn Hk. unfold selectionHelpers.selectCursor.
  erewrite bind_run by (apply (live_run t n Hn)).
  unfold isText, getLength, isText. rewrite !bool_decide_eq_true_2 by exact Hk.
  reflexivity.
Qed.

(** Merging a text node into the empty text node before it: the empty
    node gives way. *)
Lemma mergeNodes_empty_run fuel container c sourceCoor targetCoor direction t pre tn sn post :
  data (stage t) !! id container = Some c ->
  nodes c = pre ++ id tn :: id sn :: post -> NoDup (nodes c) ->
  data (stage t) !! id tn = Some tn -> data (stage t) !! id sn = Some sn ->
  kind c = ContainerClass -> kind tn = TextClass -> kind sn = TextClass ->
  isEmpty tn = true ->
  parents (stage t) !! id tn = None -> parents (stage t) !! id sn = None ->
  path0 sourceCoor = id sn -> path0 targetCoor = id tn ->
  exists t',
    ContainerEditing.mergeNodes (getEditing (S fuel)) container sn sourceCoor tn targetCoor
      direction t
    = (t', Normal (Some (PropertySelection [id sn; "content"] 0 0 (Some (id container)))))
    /\ data (stage t') !! id tn = None
    /\ data (stage t') !! id container = Some (set_nodes (pre ++ id sn :: post) c)
    /\ (forall j, j <> id container -> j <> id tn ->
          data (stage t') !! j = data (stage t) !! j).
Proof.
  intros Hc Hn Hnd Ht Hs Hkc Hkt Hks He Hot Hos Hsp Htp.
  assert (Hct : id container <> id tn).
  { intros E. rewrite E, Ht in Hc. congruence. }
  assert (Hcs : id container <> id sn).
  { intros E. rewrite E, Hs in Hc. congruence. }
  assert (Hts : id sn <> id tn).
  { intros E. rewrite Hn, E in Hnd. apply NoDup_app in Hnd as (_ & _ & Hnd).
    apply NoDup_cons in Hnd as [Hnot _]. apply Hnot. now left. }
  assert (Hnd' : NoDup (pre ++ id tn :: post)).
  { rewrite Hn in Hnd. apply NoDup_app in Hnd as (H1 & H2 & H3).
    apply NoDup_app. split; [exact H1|]. split.
    - intros x Hx Hin. apply (H2 x Hx). apply elem_of_cons in Hin as [->|Hin];
        [now left | right; now right].
    - apply NoDup_cons in H3 as [H3 H4]. apply NoDup_cons in H4 as [H4 H5].
      apply NoDup_cons. split; [|exact H5]. intros Hin. apply H3. now right. }
  unfold ContainerEditing.mergeNodes. rewrite !(getEditing_text fuel) by assumption.
  cbv zeta. unfold text_behaviour. cbv [Behaviour.getMergeAsTypes
    Behaviour.selectMergeType Behaviour.convertForMerge Behaviour.mergeNode].
  erewrite bind_run by (apply (text_getMergeAsTypes_run t sn sourceCoor Hsp Hs)).
  erewrite bind_run by (apply (text_selectMergeType_run t tn _ targetCoor Htp Ht)).
  rewrite He.
  assert (Hfirst : firstType (if isEmpty sn then ["text"; "remove"] else ["text"])
                   = TType "text") by (destruct (isEmpty sn); reflexivity).
  rewrite Hfirst. cbv iota.
  unfold TextNodeEditing.convertForMerge, ContainerEditing.this. cbv [hide_].
  assert (Hroot : getRoot (stage t) (id sn) = id sn) by now apply getRoot_orphan.
  assert (Hpos : indexOf (id sn) (nodes c) = Z.of_nat (S (length pre))).
  { rewrite Hn in *. now apply indexOf_second. }
  erewrite bind_run.
  2:{ erewrite bind_run.
      2:{ apply (hide_run t container c (id sn) Hc); [eauto|]. rewrite Hroot, Hpos. lia. }
      reflexivity. }
  rewrite Hroot, Hpos. set (t1 := commit _ t).
  assert (D1 : data (stage t1)
               = alter (fun n => set_nodes (pre ++ id tn :: post) n) (id container)
                   (data (stage t))).
  { subst t1. rewrite data_commit_array_delete. apply map_eq. intros j.
    rewrite !lookup_alter. case_decide; [|reflexivity]. subst j. rewrite Hc. simpl.
    rewrite Hn. now rewrite array_delete_second. }
  assert (Hc1 : data (stage t1) !! id container = Some (set_nodes (pre ++ id tn :: post) c)).
  { rewrite D1, lookup_alter_eq, Hc. reflexivity. }
  assert (Ht1 : data (stage t1) !! id tn = Some tn).
  { rewrite D1, lookup_alter_ne by exact Hct. exact Ht. }
  (* the target's [mergeNode] *)
  unfold TextNodeEditing.mergeNode. rewrite Htp, String.eqb_refl.
  change (negb true) with false. cbv iota.
  erewrite bind_run by (apply (live_run t1 tn Ht1)). rewrite He. cbv iota.
  assert (Hroot1 : getRoot (stage t1) (id tn) = id tn).
  { apply getRoot_orphan. subst t1. now rewrite parents_commit. }
  assert (Hpos1 : indexOf (id tn) (pre ++ id tn :: post) = Z.of_nat (length pre))
    by now apply indexOf_first.
  erewrite bind_run.
  2:{ apply (getPosition_run t1 container _ (id tn) false Hc1); [eauto|].
      rewrite Hroot1. simpl nodes. rewrite Hpos1. lia. }
  rewrite Hroot1. simpl nodes. rewrite Hpos1. cbv [hide_ show_].
  erewrite bind_run.
  2:{ apply (hide_run t1 container _ (id tn) Hc1); [eauto|].
      rewrite Hroot1. simpl nodes. rewrite Hpos1. lia. }
  rewrite Hroot1. simpl nodes. rewrite Hpos1. set (t2 := commit _ t1).
  assert (Hc2 : data (stage t2) !! id container = Some (set_nodes (pre ++ post) c)).
  { subst t2. rewrite data_commit_array_delete, lookup_alter_eq, Hc1. simpl.
    now rewrite array_delete_middle. }
  erewrite bind_run.
  2:{ apply (array_insert_run t2 container _ _ (id sn) Hc2). simpl nodes.
      rewrite length_app. lia. }
  set (t3 := commit _ t2).
  assert (Hc3 : data (stage t3) !! id container = Some (set_nodes (pre ++ id sn :: post) c)).
  { subst t3. rewrite data_commit_array_insert, lookup_alter_eq, Hc2. simpl.
    now rewrite array_insert_middle. }
  assert (Hother3 : forall j, j <> id container -> data (stage t3) !! j = data (stage t) !! j).
  { intros j Hj. subst t3. rewrite data_commit_array_insert, lookup_alter_ne by congruence.
    subst t2. rewrite data_commit_array_delete, lookup_alter_ne by congruence.
    rewrite D1. now rewrite lookup_alter_ne by congruence. }
  unfold documentHelpers.deleteNode.
  erewrite bind_run.
  2:{ apply (delete_run t3 (id tn) tn). rewrite Hother3 by congruence. exact Ht. }
  set (t4 := commit _ t3).
  assert (D4 : data (stage t4) = delete (id tn) (data (stage t3))).
  { subst t4. now rewrite data_commit_delete. }
  erewrite bind_run.
  2:{ apply (selectCursor_text_run t4 sn); [|exact Hks].
      rewrite D4, lookup_delete_ne by congruence. rewrite Hother3 by congruence. exact Hs. }
  exists t4. split; [reflexivity|]. rewrite D4. split; [apply lookup_delete_eq|]. split.
  - rewrite lookup_delete_ne by congruence. exact Hc3.
  - intros j Hjc Hjt. rewrite lookup_delete_ne by congruence. now apply Hother3.
Qed.

(** X10: an empty text child merged with the text child after it, from
    either side: the empty node is taken out of the container and deleted,
    the other one stands in its place with its text and its annotations
    untouched, nothing else changes (annotations anchored on the deleted
    node are not looked at), and the cursor is at the start of the node
    that stays. *)
Theorem merge_into_empty_text fuel container c coor direction t pre tn sn post :
  data (stage t) !! id container = Some c ->
  nodes c = pre ++ id tn :: id sn :: post -> NoDup (nodes c) ->
  data (stage t) !! id tn = Some tn -> data (stage t) !! id sn = Some sn ->
  kind c = ContainerClass -> kind tn = TextClass -> kind sn = TextClass ->
  isEmpty tn = true ->
  parents (stage t) !! id tn = None -> parents (stage t) !! id sn = None ->
  (direction = "left" /\ path0 coor = id sn) \/ (direction = "right" /\ path0 coor = id tn) ->
  exists t',
    ContainerEditing.merge (getEditing (S fuel)) container coor direction t
    = (t', Normal (Some (PropertySelection [id sn; "content"] 0 0 (Some (id container)))))
    /\ data (stage t') !! id tn = None
    /\ childrenOf (stage t') (id container) = Some (pre ++ id sn :: post)
    /\ (forall j, j <> id container -> j <> id tn ->
          data (stage t') !! j = data (stage t) !! j).
Proof.
  intros Hc Hn Hnd Ht Hs Hkc Hkt Hks He Hot Hos Hdir.
  assert (exists sourceCoor targetCoor,
            ContainerEditing.merge (getEditing (S fuel)) container coor direction t
            = ContainerEditing.mergeNodes (getEditing (S fuel)) container sn sourceCoor
                tn targetCoor direction t
            /\ path0 sourceCoor = id sn /\ path0 targetCoor = id tn)
    as (sourceCoor & targetCoor & E & Hsp & Htp).
  { destruct Hdir as [[-> Hp] | [-> Hp]].
    - exists coor, (mkCoor [id tn] 0). split; [|split; [exact Hp | reflexivity]].
      now apply (merge_left_run _ container c coor t pre (id tn) (id sn) post tn sn).
    - exists (mkCoor [id sn] 0), coor. split; [|split; [reflexivity | exact Hp]].
      now apply (merge_right_run _ container c coor t pre (id tn) (id sn) post tn sn). }
  destruct (mergeNodes_empty_run fuel container c sourceCoor targetCoor direction t
              pre tn sn post Hc Hn Hnd Ht Hs Hkc Hkt Hks He Hot Hos Hsp Htp)
    as (t' & E' & Dt & Dc & Dother).
  exists t'. rewrite E. split; [exact E'|]. split; [exact Dt|]. split; [|exact Dother].
  unfold childrenOf. now rewrite Dc.
Qed.

Lemma merge_into_empty_text_witness :
  exists t',
    ContainerEditing.merge (getEditing 1) lead (mkCoor ["s"; "content"] 0) "left"
      (open leadDoc)
    = (t', Normal (Some (PropertySelection ["s"; "content"] 0 0 (Some "body"))))
    /\ data (stage t') !! "e" = None
    /\ childrenOf (stage t') "body" = Some ["s"].
Proof.
  destruct (merge_into_empty_text 0 lead lead (mkCoor ["s"; "content"] 0) "left"
              (open leadDoc) [] blank bar [])
    as (t' & E & He & Hc & _); try reflexivity.
  - apply (bool_decide_unpack _). vm_compute. exact I.
  - left. split; reflexivity.
  - exists t'. split; [exact E|]. split; [exact He | exact Hc].
Defined.

(** ** Showing several nodes, hiding and showing again *)

Lemma show1_run t c n pos v :
  data (stage t) !! id c = Some n ->
  (0 <= pos <= Z.of_nat (length (nodes n)))%Z ->
  ContainerEditing.show1 c v pos t
  = (commit (OpArrayInsert [id c; "nodes"] pos v) t, Normal tt).
Proof.
  intros Hc Hpos. unfold ContainerEditing.show1.
  unfold Container.getContentPath, tx.update, bind, tx.get. rewrite Hc.
  replace (0 <=? pos)%Z with true by (symmetry; apply Z.leb_le; lia).
  replace (pos <=? Z.of_nat (length (nodes n)))%Z with true by (symmetry; apply Z.leb_le; lia).
  reflexivity.
Qed.

Lemma showEach_run c ns : forall t l1 l2 n,
  data (stage t) !! id c = Some n -> nodes n = l1 ++ l2 ->
  exists t',
    ContainerEditing.showEach c ns (Z.of_nat (length l1)) t = (t', Normal tt)
    /\ data (stage t') !! id c = Some (set_nodes (l1 ++ ns ++ l2) n)
    /\ (forall j, j <> id c -> data (stage t') !! j = data (stage t) !! j)
    /\ _ops (stage t')
       = _ops (stage t)
         ++ imap (fun k x => OpArrayInsert [id c; "nodes"] (Z.of_nat (length l1 + k)) x) ns
    /\ sameSession t t'.
Proof.
  induction ns as [|x ns IH]; intros t l1 l2 n Hc Hn.
  - exists t. split; [reflexivity|]. simpl. rewrite app_nil_r, <- Hn, set_nodes_same.
    repeat split; try assumption; reflexivity.
  - simpl ContainerEditing.showEach.
    erewrite bind_run.
    2:{ apply (show1_run t c n _ x Hc). rewrite Hn, length_app. lia. }
    set (t1 := commit _ t).
    assert (Hc1 : data (stage t1) !! id c = Some (set_nodes ((l1 ++ [x]) ++ l2) n)).
    { subst t1. rewrite data_commit_array_insert, lookup_alter_eq, Hc. simpl.
      rewrite Hn, array_insert_middle. now rewrite <- app_assoc. }
    destruct (IH t1 (l1 ++ [x]) l2 _ Hc1 eq_refl) as (t' & E & Dc & Dother & Dops & S).
    exists t'. split.
    { rewrite <- E. f_equal. rewrite length_app. simpl. lia. }
    split; [|split; [|split]].
    + rewrite Dc. simpl. f_equal. unfold set_nodes. simpl. f_equal.
      now rewrite <- !app_assoc.
    + intros j Hj. rewrite Dother by exact Hj. subst t1.
      rewrite data_commit_array_insert. now apply lookup_alter_ne.
    + rewrite Dops. subst t1. rewrite ops_commit, <- app_assoc. f_equal. simpl.
      f_equal; [do 2 f_equal; lia|]. apply imap_ext. intros k y _. simpl.
      rewrite length_app. simpl. do 2 f_equal. lia.
    + eapply sameSession_trans; [apply sameSession_commit | exact S].
Qed.

(** X11: [show] with an array puts the nodes into the container in the
    order of the array, the first one at the position given, or behind
    the last child when no position is given; nothing else changes, and
    one insertion is recorded for each node. *)
Theorem show_many t c n ns pos l1 l2 :
  data (stage t) !! id c = Some n -> nodes n = l1 ++ l2 ->
  pos = Some (Z.of_nat (length l1)) \/ (pos = None /\ l2 = []) ->
  exists t',
    ContainerEditing.show c (ManyNodes ns) pos t = (t', Normal tt)
    /\ childrenOf (stage t') (id c) = Some (l1 ++ ns ++ l2)
    /\ (forall j, j <> id c -> data (stage t') !! j = data (stage t) !! j)
    /\ _ops (stage t')
       = _ops (stage t)
         ++ imap (fun k x => OpArrayInsert [id c; "nodes"] (Z.of_nat (length l1 + k)) x) ns.
Proof.
  intros Hc Hn Hpos.
  destruct (showEach_run c ns t l1 l2 n Hc Hn) as (t' & E & Dc & Dother & Dops & _).
  exists t'. split; [|split; [|split; assumption]].
  - unfold ContainerEditing.show. destruct Hpos as [-> | [-> ->]].
    + erewrite bind_run by reflexivity. exact E.
    + erewrite bind_run by (apply (getLength_run t c n Hc)).
      rewrite Hn, app_nil_r. exact E.
  - unfold childrenOf. now rewrite Dc.
Qed.

Lemma show_many_witness :
  exists t',
    ContainerEditing.show body (ManyNodes ["x"; "y"]) (Some 1%Z) (open fooBarDoc)
    = (t', Normal tt)
    /\ childrenOf (stage t') "body" = Some ["t"; "x"; "y"; "s"].
Proof.
  destruct (show_many (open fooBarDoc) body body ["x"; "y"] (Some 1%Z) ["t"] ["s"]
              eq_refl eq_refl ltac:(left; reflexivity)) as (t' & E & Hc & _).
  exists t'. split; [exact E | exact Hc].
Defined.

(** X12: hiding a child and showing it again at the position it had leaves
    the node store as it was; the log has grown by the deletion from the
    content path and the insertion that undoes it. *)
Theorem hide_then_show t c n l1 x l2 :
  data (stage t) !! id c = Some n -> nodes n = l1 ++ x :: l2 -> x ∉ l1 ->
  is_Some (data (stage t) !! x) -> parents (stage t) !! x = None ->
  exists t',
    (ContainerEditing.hide c x >>
     ContainerEditing.show c (OneNode x) (Some (Z.of_nat (length l1)))) t = (t', Normal tt)
    /\ data (stage t') = data (stage t)
    /\ _ops (stage t')
       = _ops (stage t) ++ [OpArrayDelete [id c; "nodes"] (Z.of_nat (length l1)) x;
                            OpArrayInsert [id c; "nodes"] (Z.of_nat (length l1)) x].
Proof.
  intros Hc Hn Hx Hsome Horph.
  assert (Hroot : getRoot (stage t) x = x) by now apply getRoot_orphan.
  assert (Hpos : indexOf x (nodes n) = Z.of_nat (length l1)).
  { rewrite Hn. now apply indexOf_middle. }
  erewrite bind_run.
  2:{ apply (hide_run t c n x Hc Hsome). rewrite Hroot, Hpos. lia. }
  rewrite Hroot, Hpos. set (t1 := commit _ t).
  assert (Hc1 : data (stage t1) !! id c = Some (set_nodes (l1 ++ l2) n)).
  { subst t1. rewrite data_commit_array_delete, lookup_alter_eq, Hc. simpl.
    now rewrite Hn, array_delete_middle. }
  erewrite (array_insert_run t1 c _ _ x Hc1) by (simpl; rewrite length_app; lia).
  eexists. split; [reflexivity|]. split.
  - apply map_eq. intros j. rewrite data_commit_array_insert.
    destruct (decide (j = id c)) as [->|Hne].
    + rewrite lookup_alter_eq, Hc1, Hc. simpl. f_equal.
      rewrite array_insert_middle, <- Hn. now destruct n.
    + rewrite lookup_alter_ne by congruence. subst t1.
      rewrite data_commit_array_delete. now rewrite lookup_alter_ne by congruence.
  - rewrite ops_commit. subst t1. rewrite ops_commit, <- app_assoc. reflexivity.
Qed.

Lemma hide_then_show_witness :
  exists t',
    (ContainerEditing.hide body "s" >>
     ContainerEditing.show body (OneNode "s") (Some 1%Z)) (open fooBarDoc) = (t', Normal tt)
    /\ data (stage t') = data fooBarDoc.
Proof.
  destruct (hide_then_show (open fooBarDoc) body body ["t"] "s" []) as (t' & E & Hd & _);
    try reflexivity.
  - apply (bool_decide_unpack _). vm_compute. exact I.
  - eexists. reflexivity.
  - exists t'. split; [exact E | exact Hd].
Defined.

(** ** Deleting text *)

Lemma deleteTextRange_run t start' end' i n :
  let s := default (mkCoor [i; "content"] 0) start' in
  let e := default (mkCoor [i; "content"] (strlen (content n))) end' in
  wf_store (data (stage t)) ->
  data (stage t) !! i = Some n ->
  isAnnotation n = false ->
  path s = [i; "content"] -> path e = [i; "content"] ->
  is_Some start' \/ is_Some end' ->
  (0 <= offset s <= offset e)%Z -> (offset e <= strlen (content n))%Z ->
  exists t',
    documentHelpers.deleteTextRange start' end' t = (t', Normal tt)
    /\ data (stage t') !! i
       = Some (set_content (str_take (offset s) (content n)
                            +:+ str_drop (offset e) (content n)) n)
    /\ (forall j a, j <> i -> data (stage t) !! j = Some a ->
          data (stage t') !! j
          = if annotates [i; "content"] a then afterEdit s e "" true a else Some a)
    /\ (forall j, data (stage t) !! j = None -> data (stage t') !! j = None)
    /\ sameSession t t'.
Proof.
  intros s e Hwf Hn Hna Hps Hpe Hsome Hse He.
  pose proof (Hwf _ _ Hn) as Hid.
  assert (Hbody : exists t',
    (let* text := tx.getProperty [i; "content"] in
     let s := default (mkCoor [i; "content"] 0) start' in
     let e := default (mkCoor [i; "content"] (strlen text)) end' in
     if negb (bool_decide (path s = path e))
     then throw (Error "start and end must be on one property")
     else
       tx.update [i; "content"] (tx.text_delete (offset s) (offset e)) >>
       let* annos := tx.getAnnotations [i; "content"] in
       forEach annos (updateAnnotation s e "" true)) t = (t', Normal tt)
    /\ data (stage t') !! i
       = Some (set_content (str_take (offset s) (content n)
                            +:+ str_drop (offset e) (content n)) n)
    /\ (forall j a, j <> i -> data (stage t) !! j = Some a ->
          data (stage t') !! j
          = if annotates [i; "content"] a then afterEdit s e "" true a else Some a)
    /\ (forall j, data (stage t) !! j = None -> data (stage t') !! j = None)
    /\ sameSession t t').
  { erewrite bind_run by (apply (getProperty_run t _ i n eq_refl Hn)).
    cbv zeta. fold s e. rewrite Hps, Hpe.
    rewrite bool_decide_eq_true_2 by reflexivity. change (negb true) with false. cbv iota.
    erewrite bind_run by (apply (text_delete_run t i n); [exact Hn | lia | lia]).
    set (t1 := commit _ t).
    assert (D1 : data (stage t1)
                 = <[i := set_content (str_take (offset s) (content n)
                                       +:+ str_drop (offset e) (content n)) n]>
                     (data (stage t))).
    { subst t1. rewrite data_commit_text_delete. apply map_eq. intros j.
      destruct (decide (i = j)) as [<-|Hne].
      - rewrite lookup_alter_eq, lookup_insert_eq, Hn. simpl. do 2 f_equal.
        rewrite strlen_between by lia. unfold text_delete_at. do 2 f_equal. lia.
      - now rewrite lookup_alter_ne, lookup_insert_ne. }
    assert (Hwf1 : wf_store (data (stage t1))).
    { rewrite D1. rewrite <- Hid at 1. apply (wf_store_insert _ (set_content _ n)). exact Hwf. }
    destruct (annotations_run s e "" true [i; "content"] t1 Hwf1)
      as (t2 & E2 & Hsome2 & Hnone2 & S2).
    unfold tx.getAnnotations. erewrite bind_run by reflexivity.
    exists t2. split; [exact E2|]. split; [|split; [|split]].
    - rewrite (Hsome2 i (set_content (str_take (offset s) (content n)
                                      +:+ str_drop (offset e) (content n)) n)).
      + unfold annotates. change (isAnnotation (set_content _ n)) with (isAnnotation n).
        now rewrite Hna.
      + rewrite D1. apply lookup_insert_eq.
    - intros j a Hne Ha. apply Hsome2. rewrite D1. now rewrite lookup_insert_ne by congruence.
    - intros j Hj. apply Hnone2. rewrite D1. rewrite lookup_insert_ne; [exact Hj|].
      intros <-. congruence.
    - eapply sameSession_trans; [apply sameSession_commit | exact S2]. }
  unfold documentHelpers.deleteTextRange. subst s e.
  destruct start' as [cs|], end' as [ce|]; cbn [from_option Datatypes.id] in *; cbv beta iota zeta.
  - rewrite ?Hps, ?Hpe in Hbody |- *. exact Hbody.
  - rewrite ?Hps in Hbody |- *. exact Hbody.
  - rewrite ?Hpe in Hbody |- *. exact Hbody.
  - destruct Hsome as [[? H]|[? H]]; discriminate H.
Qed.

(** X13: [NodeEditing.deleteCharacter] takes out the character before the
    cursor (direction 'left') or the one behind it (any other direction)
    and leaves the cursor where that character was. *)
Theorem deleteCharacter_removes_one t node coor direction i n :
  let at' := if String.eqb direction "left" then (offset coor - 1)%Z else offset coor in
  wf_store (data (stage t)) ->
  path coor = [i; "content"] ->
  data (stage t) !! i = Some n ->
  isAnnotation n = false ->
  (0 <= at' < strlen (content n))%Z ->
  exists t' containerId,
    NodeEditing.deleteCharacter node coor direction t
    = (t', Normal (PropertySelection [i; "content"] at' at' containerId))
    /\ textOf (stage t') i
       = Some (str_take at' (content n) +:+ str_drop (at' + 1) (content n))
    /\ (forall j a, j <> i -> data (stage t) !! j = Some a ->
          annotates [i; "content"] a = false -> data (stage t') !! j = Some a)
    /\ (forall j, data (stage t) !! j = None -> data (stage t') !! j = None).
Proof.
  intros at' Hwf Hp Hn Hna Hat.
  unfold NodeEditing.deleteCharacter. cbv zeta. fold at'. rewrite Hp.
  destruct (deleteTextRange_run t (Some (mkCoor [i; "content"] at'))
              (Some (mkCoor [i; "content"] (at' + 1))) i n Hwf Hn Hna eq_refl eq_refl
              ltac:(left; eauto) ltac:(simpl; lia) ltac:(simpl; lia))
    as (t' & E & Hi & Hj & Hnone & _).
  exists t', None. split; [|split; [|split]].
  - rewrite (bind_run _ _ _ _ _ E). reflexivity.
  - unfold textOf. now rewrite Hi.
  - intros j a Hne Ha Hno. rewrite (Hj j a Hne Ha). now rewrite Hno.
  - exact Hnone.
Qed.

Lemma deleteCharacter_removes_one_witness :
  exists t' containerId,
    NodeEditing.deleteCharacter hello (mkCoor ["p1"; "content"] 5) "left" (open splitDoc)
    = (t', Normal (PropertySelection ["p1"; "content"] 4 4 containerId))
    /\ textOf (stage t') "p1" = Some "hell world".
Proof.
  destruct (deleteCharacter_removes_one (open splitDoc) hello (mkCoor ["p1"; "content"] 5)
              "left" "p1" hello splitDoc_wf eq_refl eq_refl eq_refl
              ltac:(split; vm_compute; [discriminate | reflexivity]))
    as (t' & cid & E & Ht & _).
  exists t', cid. split; [exact E | exact Ht].
Defined.

(** [TextNodeEditing.deleteRange] with its range on the node. *)
Lemma text_deleteRange_run t node start' end' options i n c :
  let s := default (mkCoor [i; "content"] 0) start' in
  let e := default (mkCoor [i; "content"] (strlen (content n))) end' in
  wf_store (data (stage t)) ->
  id node = i ->
  data (stage t) !! i = Some n ->
  isAnnotation n = false ->
  or_else start' end' = Some c ->
  path s = [i; "content"] -> path e = [i; "content"] ->
  (0 <= offset s <= offset e)%Z -> (offset e <= strlen (content n))%Z ->
  exists t',
    TextNodeEditing.deleteRange node start' end' options t
    = (t', Normal (Some (PropertySelection [i; "content"] (offset c) (offset c) None)))
    /\ data (stage t') !! i
       = Some (set_content (str_take (offset s) (content n)
                            +:+ str_drop (offset e) (content n)) n)
    /\ (forall j a, j <> i -> data (stage t) !! j = Some a ->
          data (stage t') !! j
          = if annotates [i; "content"] a then afterEdit s e "" true a else Some a)
    /\ (forall j, data (stage t) !! j = None -> data (stage t') !! j = None)
    /\ sameSession t t'.
Proof.
  intros s e Hwf Hid Hn Hna Hc Hps Hpe Hse He.
  assert (Hsome : is_Some start' \/ is_Some end').
  { destruct start', end'; eauto; discriminate Hc. }
  assert (Hpc : path c = [i; "content"]).
  { destruct start' as [cs|]; simpl in Hc.
    - injection Hc as <-. exact Hps.
    - destruct end' as [ce|]; [|discriminate Hc]. injection Hc as <-. exact Hpe. }
  destruct (deleteTextRange_run t start' end' i n Hwf Hn Hna Hps Hpe Hsome Hse He)
    as (t' & E & Hrest).
  exists t'. split; [|exact Hrest].
  unfold TextNodeEditing.deleteRange. rewrite Hc.
  unfold path0. rewrite Hpc. simpl head. simpl default. rewrite Hid, String.eqb_refl.
  change (negb true) with false. cbv iota.
  rewrite (bind_run _ _ _ _ _ E). unfold tx.createSelection.
  erewrite bind_run by reflexivity. unfold ret. do 4 f_equal;
    unfold or_num; destruct (Z.eqb_spec (offset c) 0) as [->|]; reflexivity.
Qed.

(** ** Deleting a range that starts in one text child and ends in another *)

Lemma isEntirelySelected_text_run t n start' end' :
  data (stage t) !! id n = Some n -> kind n = TextClass ->
  selectionHelpers.isEntirelySelected n start' end' t
  = (t, Normal (match start' with
                | Some s => (offset s =? 0)%Z
                | None => true
                end
                && match end' with
                   | Some e => negb (offset e <? strlen (content n))%Z
                   | None => true
                   end)).
Proof.
  intros Hn Hk. unfold selectionHelpers.isEntirelySelected.
  erewrite bind_run by (apply (live_run t n Hn)).
  unfold getLength, isText. rewrite !bool_decide_eq_true_2 by exact Hk. reflexivity.
Qed.

Lemma afterEdit_id start' end' text typeover a a' :
  afterEdit start' end' text typeover a = Some a' -> id a' = id a.
Proof.
  unfold afterEdit. destruct (annotationCase start' end' a); intros H;
    try (injection H as <-; reflexivity); try discriminate H.
  - destruct (_ || _); injection H as <-; reflexivity.
  - destruct (_isInlineNode a); injection H as <-; reflexivity.
Qed.

(** The node store after an edit of the text of [i] is well formed. *)
Lemma wf_store_edit (m m' : gmap string Node) i n c start' end' text typeover p :
  wf_store m -> m !! i = Some n ->
  m' !! i = Some (set_content c n) ->
  (forall j a, j <> i -> m !! j = Some a ->
     m' !! j = if annotates p a then afterEdit start' end' text typeover a else Some a) ->
  (forall j, m !! j = None -> m' !! j = None) ->
  wf_store m'.
Proof.
  intros Hwf Hn Hi Hj Hnone j x Hx.
  destruct (decide (j = i)) as [->|Hne].
  - rewrite Hi in Hx. injection Hx as <-. exact (Hwf _ _ Hn).
  - destruct (m !! j) as [a|] eqn:Ha.
    + rewrite (Hj j a Hne Ha) in Hx. destruct (annotates p a).
      * rewrite (afterEdit_id _ _ _ _ _ _ Hx). exact (Hwf _ _ Ha).
      * injection Hx as <-. exact (Hwf _ _ Ha).
    + rewrite (Hnone j Ha) in Hx. discriminate Hx.
Qed.

Lemma str_take_0 s : str_take 0 s = "".
Proof. unfold str_take. simpl. now destruct s. Qed.

Lemma str_drop_all s : str_drop (strlen s) s = "".
Proof.
  unfold str_drop, strlen. rewrite Nat2Z.id, Nat.sub_diag. apply substring_none.
Qed.

Lemma isEmpty_false n : (0 < strlen (content n))%Z -> isEmpty n = false.
Proof.
  unfold isEmpty, strlen. destruct (content n); simpl; [lia | reflexivity].
Qed.

Lemma NoDup_without_middle {A} (pre mid post : list A) x :
  NoDup (pre ++ x :: mid ++ post) -> NoDup (pre ++ x :: post).
Proof.
  intros H. apply NoDup_app in H as (H1 & H2 & H3).
  apply NoDup_cons in H3 as [H3 H4]. apply NoDup_app in H4 as (_ & _ & H5).
  apply NoDup_app. split; [exact H1|]. split.
  - intros y Hy Hin. apply (H2 y Hy). apply elem_of_cons in Hin as [->|Hin]; [now left|].
    right. apply elem_of_app. now right.
  - apply NoDup_cons. split; [|exact H5]. intros Hin. apply H3. apply elem_of_app. now right.
Qed.

(** X14: a range from inside one text child to inside a later text child.
    The head of the last child up to the end offset is deleted, the
    children between the two are hidden and deleted, the tail of the
    first child from the start offset is deleted, and the two are merged:
    the first child holds its text before the start offset followed by
    the text of the last child from the end offset on, the last child and
    the inner children are gone from the container and from the document,
    and the cursor is at the start offset of the first child. *)
Theorem deleteRange_across_text fuel container c pre mid post fn ln start' end' options t :
  wf_store (data (stage t)) ->
  data (stage t) !! id container = Some c -> kind c = ContainerClass ->
  nodes c = pre ++ id fn :: mid ++ id ln :: post -> NoDup (nodes c) ->
  data (stage t) !! id fn = Some fn -> data (stage t) !! id ln = Some ln ->
  kind fn = TextClass -> kind ln = TextClass ->
  parents (stage t) !! id fn = None -> parents (stage t) !! id ln = None ->
  (forall x, x ∈ mid ->
     removable t (id container) x
     /\ forall n, data (stage t) !! x = Some n -> isAnnotation n = false) ->
  path start' = [id fn; "content"] -> path end' = [id ln; "content"] ->
  (0 < offset start' <= strlen (content fn))%Z ->
  (0 <= offset end' < strlen (content ln))%Z ->
  noMerge options = false ->
  exists t',
    ContainerEditing.deleteRange (getEditing (S fuel)) container start' end' options t
    = (t', Normal (Some (PropertySelection [id fn; "content"] (offset start') (offset start')
                           (Some (id container)))))
    /\ textOf (stage t') (id fn)
       = Some (str_take (offset start') (content fn) +:+ str_drop (offset end') (content ln))
    /\ childrenOf (stage t') (id container) = Some (pre ++ id fn :: post)
    /\ (forall x, x ∈ mid ++ [id ln] -> data (stage t') !! x = None).
Proof.
  intros Hwf Hc Hkc Hnodes Hnd Hfn Hln Hkf Hkl Hof Hol Hmid Hps Hpe Hs He Hopt.
  assert (Hcf : id container <> id fn) by (intros E; rewrite E, Hfn in Hc; congruence).
  assert (Hcl : id container <> id ln) by (intros E; rewrite E, Hln in Hc; congruence).
  assert (Hfa : isAnnotation fn = false)
    by (apply text_not_annotation, bool_decide_eq_true; exact Hkf).
  assert (Hla : isAnnotation ln = false)
    by (apply text_not_annotation, bool_decide_eq_true; exact Hkl).
  assert (Hca : isAnnotation c = false)
    by (apply bool_decide_eq_false; congruence).
  rewrite Hnodes in Hnd.
  assert (Hnd' : NoDup ((pre ++ id fn :: mid) ++ id ln :: post))
    by (rewrite <- app_assoc; exact Hnd).
  apply NoDup_app in Hnd' as (Hnd1 & Hdisj & _).
  assert (Hl1 : id ln ∉ pre ++ id fn :: mid).
  { intros Hin. apply (Hdisj _ Hin). now left. }
  assert (Hfl : id fn <> id ln).
  { intros E. apply Hl1. apply elem_of_app. right. rewrite E. now left. }
  assert (Hf1 : id fn ∉ pre).
  { apply NoDup_app in Hnd1 as (_ & Hd & _). intros Hin. apply (Hd _ Hin). now left. }
  assert (Hpos1 : indexOf (getRoot (stage t) (id fn)) (nodes c) = Z.of_nat (length pre)).
  { rewrite getRoot_orphan by exact Hof. rewrite Hnodes. now apply indexOf_middle. }
  assert (Hpos2 : indexOf (getRoot (stage t) (id ln)) (nodes c)
                  = Z.of_nat (length (pre ++ id fn :: mid))).
  { rewrite getRoot_orphan by exact Hol. rewrite Hnodes.
    replace (pre ++ id fn :: mid ++ id ln :: post)
      with ((pre ++ id fn :: mid) ++ id ln :: post) by (rewrite <- ?app_assoc; reflexivity).
    now apply indexOf_middle. }
  assert (Hp0s : path0 start' = id fn) by (unfold path0; now rewrite Hps).
  assert (Hp0e : path0 end' = id ln) by (unfold path0; now rewrite Hpe).
  unfold ContainerEditing.deleteRange. rewrite Hp0s, Hp0e.
  erewrite bind_run
    by (apply (getPosition_run t container c (id fn) true Hc); [eauto | rewrite Hpos1; lia]).
  erewrite bind_run
    by (apply (getPosition_run t container c (id ln) true Hc); [eauto | rewrite Hpos2; lia]).
  rewrite Hpos1, Hpos2.
  replace (Z.of_nat (length pre) =? Z.of_nat (length (pre ++ id fn :: mid)))%Z with false
    by (symmetry; apply Z.eqb_neq; rewrite length_app; simpl; lia).
  cbv iota.
  assert (Hget : forall x n, data (stage t) !! x = Some n ->
                   ContainerEditing.getNode x t = (t, Normal n)).
  { intros x n H. unfold ContainerEditing.getNode, bind, tx.get. now rewrite H. }
  erewrite bind_run by (apply (Hget _ _ Hfn)).
  erewrite bind_run by (apply (Hget _ _ Hln)).
  erewrite bind_run by (apply (isEntirelySelected_text_run t fn _ _ Hfn Hkf)).
  erewrite bind_run by (apply (isEntirelySelected_text_run t ln _ _ Hln Hkl)).
  replace (offset start' =? 0)%Z with false by (symmetry; apply Z.eqb_neq; lia).
  replace (offset end' <? strlen (content ln))%Z with true by (symmetry; apply Z.ltb_lt; lia).
  change (false && true) with false. change (true && negb true) with false.
  cbv iota. change (negb false && negb false) with true. rewrite Hopt.
  change (negb false) with true. cbv iota.
  (* the last node *)
  rewrite !(getEditing_text fuel) by assumption.
  unfold text_behaviour. cbv [Behaviour.deleteRange].
  destruct (text_deleteRange_run t ln None (Some end') options (id ln) ln end' Hwf eq_refl Hln
              Hla eq_refl eq_refl Hpe ltac:(simpl; lia) ltac:(simpl; lia))
    as (t1 & E1 & Dl1 & Dj1 & Dn1 & S1).
  erewrite bind_run by (erewrite bind_run by exact E1; reflexivity).
  assert (Hwf1 : wf_store (data (stage t1))) by (eapply wf_store_edit; eassumption).
  assert (Keep1 : forall j a, j <> id ln -> data (stage t) !! j = Some a ->
                    isAnnotation a = false -> data (stage t1) !! j = Some a).
  { intros j a Hj Ha Hno. rewrite (Dj1 j a Hj Ha). unfold annotates. now rewrite Hno. }
  assert (Hc1 : data (stage t1) !! id container = Some c) by (apply Keep1; assumption).
  assert (Hf1' : data (stage t1) !! id fn = Some fn) by (apply Keep1; assumption).
  destruct S1 as (Hsch1 & Hpar1 & Huu1 & Hsel1 & Htr1).
  (* the inner nodes *)
  pose proof (removed_start t1 (id container) c Hc1) as H0. rewrite Hnodes in H0.
  destruct (deleteInner_run t1 container c pre (id fn) (id ln :: post) mid _ _ _ H0 Hnd1)
    as (t2 & E2 & H2).
  { intros x Hx. destruct (Hmid x Hx) as ((Hxc & (n & Hn & Hid) & Horph) & Hna).
    split; [|apply not_elem_of_nil]. split; [exact Hxc|]. split.
    - exists n. split; [|exact Hid]. apply Keep1; [|exact Hn|now apply Hna].
      intros ->. apply Hl1. apply elem_of_app. right. now right.
    - now rewrite Hpar1. }
  replace (Z.to_nat (Z.of_nat (length (pre ++ id fn :: mid)) - 1 - Z.of_nat (length pre)))
    with (length mid) by (rewrite length_app; simpl; lia).
  replace (Z.of_nat (length (pre ++ id fn :: mid)) - 1)%Z
    with (Z.of_nat (length pre + length mid)) by (rewrite length_app; simpl; lia).
  rewrite (bind_run _ _ _ _ _ E2).
  rewrite app_nil_r in H2.
  destruct H2 as (Hc2 & Hsame2 & Hgone2 & Hpar2 & Hsch2 & Huu2 & _).
  assert (Hmc : forall x, x ∈ mid -> x <> id container).
  { intros x Hx. now destruct (Hmid x Hx) as ((Hxc & _) & _). }
  assert (Hfm : id fn ∉ mid).
  { apply NoDup_app in Hnd1 as (_ & _ & Hnd2). now apply NoDup_cons in Hnd2 as [Hnm _]. }
  assert (Hlm : id ln ∉ mid).
  { intros Hin. apply Hl1. apply elem_of_app. right. now right. }
  assert (Hwf2 : wf_store (data (stage t2))).
  { intros j x Hx. destruct (decide (j = id container)) as [->|Hjc].
    - rewrite Hc2 in Hx. injection Hx as <-. exact (Hwf _ _ Hc).
    - destruct (decide (j ∈ mid)) as [Hin|Hout].
      + rewrite (Hgone2 j Hin) in Hx. discriminate Hx.
      + rewrite (Hsame2 j Hjc Hout) in Hx. exact (Hwf1 _ _ Hx). }
  assert (Hf2 : data (stage t2) !! id fn = Some fn).
  { rewrite Hsame2 by (try assumption; congruence). exact Hf1'. }
  (* the first node *)
  destruct (text_deleteRange_run t2 fn (Some start') None options (id fn) fn start' Hwf2
              eq_refl Hf2 Hfa eq_refl Hps eq_refl ltac:(simpl; lia) ltac:(simpl; lia))
    as (t3 & E3 & Df3 & Dj3 & Dn3 & S3).
  erewrite bind_run by (erewrite bind_run by exact E3; reflexivity).
  cbn [from_option Datatypes.id offset] in Df3, Dl1.
  rewrite str_drop_all in Df3. rewrite str_take_0 in Dl1.
  set (fn' := set_content (str_take (offset start') (content fn) +:+ "") fn) in *.
  set (ln' := set_content ("" +:+ str_drop (offset end') (content ln)) ln) in *.
  assert (Hwf3 : wf_store (data (stage t3))) by (eapply wf_store_edit; eassumption).
  assert (Keep3 : forall j a, j <> id fn -> data (stage t2) !! j = Some a ->
                    isAnnotation a = false -> data (stage t3) !! j = Some a).
  { intros j a Hj Ha Hno. rewrite (Dj3 j a Hj Ha). unfold annotates. now rewrite Hno. }
  assert (Hc3 : data (stage t3) !! id container
                = Some (set_nodes (pre ++ id fn :: id ln :: post) c)).
  { apply Keep3; [congruence | exact Hc2 | exact Hca]. }
  assert (Hl3 : data (stage t3) !! id ln = Some ln').
  { apply Keep3; [congruence | | exact Hla].
    rewrite Hsame2 by (try assumption; congruence). exact Dl1. }
  destruct S3 as (Hsch3 & Hpar3 & Huu3 & Hsel3 & Htr3).
  (* the merge *)
  assert (Hmerge : ContainerEditing.merge (getEditing (S fuel)) container start' "right" t3
                   = ContainerEditing.mergeNodes (getEditing (S fuel)) container ln'
                       (mkCoor [id ln'] 0) fn' start' "right" t3).
  { apply (merge_right_run _ container _ start' t3 pre (id fn) (id ln) post fn' ln' Hc3
             eq_refl); try assumption; try reflexivity.
    - eapply NoDup_without_middle. exact Hnd.
    - rewrite Hpar3, Hpar2, Hpar1. exact Hof. }
  change (false && false) with false. cbv iota. rewrite Hmerge.
  destruct (mergeNodes_text_run fuel container (set_nodes (pre ++ id fn :: id ln :: post) c)
              (mkCoor [id ln'] 0) start' "right" t3 pre fn' ln' post Hwf3 Hc3 eq_refl)
    as (t4 & E4 & Dt4 & Dc4 & Ds4 & Dother4 & Dnone4); try assumption; try reflexivity.
  - eapply NoDup_without_middle. exact Hnd.
  - apply isEmpty_false. subst fn'. simpl content.
    rewrite append_empty_r, strlen_take by lia. lia.
  - rewrite Hpar3, Hpar2, Hpar1. exact Hol.
  - change (id fn') with (id fn) in Dt4. change (id ln') with (id ln) in Ds4.
    exists t4. split; [|split; [|split]].
    + rewrite E4. subst fn'. simpl content. unfold getPath. simpl id.
      rewrite append_empty_r, strlen_take by lia. reflexivity.
    + unfold textOf. rewrite Dt4. simpl. f_equal. now rewrite append_empty_r.
    + unfold childrenOf. rewrite Dc4. reflexivity.
    + intros x [Hx | ->%list_elem_of_singleton]%elem_of_app; [|exact Ds4].
      apply Dnone4, Dn3, Hgone2. exact Hx.
Qed.

Lemma quartetDoc_wf : wf_store (data quartetDoc).
Proof.
  change (map_Forall (fun i n => id n = i) (data quartetDoc)).
  apply map_Forall_to_list. vm_compute. repeat constructor.
Qed.

Lemma deleteRange_across_text_witness :
  exists t',
    ContainerEditing.deleteRange (getEditing 1) quartet (mkCoor ["a"; "content"] 1)
      (mkCoor ["d"; "content"] 2) (mkOptions false) (open quartetDoc)
    = (t', Normal (Some (PropertySelection ["a"; "content"] 1 1 (Some "body"))))
    /\ textOf (stage t') "a" = Some "our"
    /\ childrenOf (stage t') "body" = Some ["a"].
Proof.
  destruct (deleteRange_across_text 0 quartet quartet [] ["b"; "c"] []
              (textNode "a" "paragraph" "one") (textNode "d" "paragraph" "four")
              (mkCoor ["a"; "content"] 1) (mkCoor ["d"; "content"] 2)
              (mkOptions false) (open quartetDoc) quartetDoc_wf)
    as (t' & E & Ht & Hc & _); try reflexivity.
  - apply (bool_decide_unpack _). vm_compute. reflexivity.
  - intros x Hx. rewrite !elem_of_cons, elem_of_nil in Hx.
    destruct Hx as [-> | [-> | []]];
      (split; [split; [discriminate | split; [eexists; split; reflexivity | reflexivity]]|]);
      intros n Hn; vm_compute in Hn; injection Hn as <-; reflexivity.
  - simpl. split; [lia | vm_compute; discriminate].
  - simpl. split; [lia | reflexivity].
  - exists t'. split; [exact E|]. split; [exact Ht | exact Hc].
Defined.

(** X15: a range whose two ends lie in the same child of the container
    (the child itself or a node below it) is handed to the [deleteRange]
    of that child's behaviour, with both bounds and the options; the
    container does nothing more. *)
Theorem deleteRange_same_child ed container c start' end' options t child :
  data (stage t) !! id container = Some c ->
  is_Some (data (stage t) !! path0 start') -> is_Some (data (stage t) !! path0 end') ->
  getRoot (stage t) (path0 end') = getRoot (stage t) (path0 start') ->
  (0 <= indexOf (getRoot (stage t) (path0 start')) (nodes c))%Z ->
  data (stage t) !! getRoot (stage t) (path0 start') = Some child ->
  ContainerEditing.deleteRange ed container start' end' options t
  = Behaviour.deleteRange (ed child) child (Some start') (Some end') options t.
Proof.
  intros Hc Hs He Hroot Hpos Hchild. unfold ContainerEditing.deleteRange.
  erewrite bind_run by (apply (getPosition_run t container c (path0 start') true Hc Hs Hpos)).
  erewrite bind_run
    by (apply (getPosition_run t container c (path0 end') true Hc He);
        rewrite Hroot; exact Hpos).
  rewrite Hroot, Z.eqb_refl. cbv iota.
  erewrite bind_run; [reflexivity|].
  apply (getChild_run t container c _ (getRoot (stage t) (path0 start')) child Hc Hpos);
    [|exact Hchild].
  now apply indexOf_lookup.
Qed.

Lemma deleteRange_same_child_witness :
  ContainerEditing.deleteRange (getEditing 1) body (mkCoor ["t"; "content"] 1)
    (mkCoor ["t"; "content"] 2) (mkOptions false) (open fooBarDoc)
  = TextNodeEditing.deleteRange foo (Some (mkCoor ["t"; "content"] 1))
      (Some (mkCoor ["t"; "content"] 2)) (mkOptions false) (open fooBarDoc).
Proof.
  apply (deleteRange_same_child (getEditing 1) body body (mkCoor ["t"; "content"] 1)
           (mkCoor ["t"; "content"] 2) (mkOptions false) (open fooBarDoc) foo);
    try reflexivity; try (eexists; reflexivity).
Defined.

Lemma getNode_run t x n :
  data (stage t) !! x = Some n -> ContainerEditing.getNode x t = (t, Normal n).
Proof. intros H. unfold ContainerEditing.getNode, bind, tx.get. now rewrite H. Qed.

Lemma isEntirelySelected_run t n s e b :
  snd (selectionHelpers.isEntirelySelected n s e t) = Normal b ->
  selectionHelpers.isEntirelySelected n s e t = (t, Normal b).
Proof.
  intros H. pose proof (readonly_isEntirelySelected n s e t) as R.
  destruct (selectionHelpers.isEntirelySelected n s e t) as [t1 r1].
  simpl in *. now subst.
Qed.

(** X16: the first child entirely selected, the range ending inside a
    later text child.  The head of the last child up to the end offset is
    deleted, the first child and the children between are hidden and
    deleted, and the cursor is put at the start of the last child. *)
Theorem deleteRange_first_entirely_selected fuel container c pre mid post fn ln
    start' end' options t :
  wf_store (data (stage t)) ->
  data (stage t) !! id container = Some c -> kind c = ContainerClass ->
  nodes c = pre ++ id fn :: mid ++ id ln :: post -> NoDup (nodes c) ->
  data (stage t) !! id fn = Some fn -> data (stage t) !! id ln = Some ln ->
  kind ln = TextClass -> parents (stage t) !! id ln = None ->
  (forall x, x ∈ id fn :: mid ->
     removable t (id container) x
     /\ forall n, data (stage t) !! x = Some n -> isAnnotation n = false) ->
  path0 start' = id fn -> path end' = [id ln; "content"] ->
  snd (selectionHelpers.isEntirelySelected fn (Some start') None t) = Normal true ->
  (0 <= offset end' < strlen (content ln))%Z ->
  exists t',
    ContainerEditing.deleteRange (getEditing (S fuel)) container start' end' options t
    = (t', Normal (Some (PropertySelection [id ln; "content"] 0 0 (Some (id container)))))
    /\ textOf (stage t') (id ln) = Some (str_drop (offset end') (content ln))
    /\ childrenOf (stage t') (id container) = Some (pre ++ id ln :: post)
    /\ (forall x, x ∈ id fn :: mid -> data (stage t') !! x = None).
Proof.
  intros Hwf Hc Hkc Hnodes Hnd Hfn Hln Hkl Hol Hmid Hp0s Hpe Hsel He.
  assert (Hcl : id container <> id ln) by (intros E; rewrite E, Hln in Hc; congruence).
  assert (Hla : isAnnotation ln = false)
    by (apply text_not_annotation, bool_decide_eq_true; exact Hkl).
  assert (Hca : isAnnotation c = false) by (apply bool_decide_eq_false; congruence).
  destruct (Hmid (id fn)) as ((Hfc & _ & Hof) & Hfa'); [now left|].
  pose proof (Hfa' fn Hfn) as Hfa.
  rewrite Hnodes in Hnd.
  assert (Hnd' : NoDup ((pre ++ id fn :: mid) ++ id ln :: post))
    by (rewrite <- app_assoc; exact Hnd).
  apply NoDup_app in Hnd' as (Hnd1 & Hdisj & _).
  assert (Hl1 : id ln ∉ pre ++ id fn :: mid).
  { intros Hin. apply (Hdisj _ Hin). now left. }
  assert (Hfl : id fn <> id ln).
  { intros E. apply Hl1. apply elem_of_app. right. rewrite E. now left. }
  assert (Hf1 : id fn ∉ pre).
  { apply NoDup_app in Hnd1 as (_ & Hd & _). intros Hin. apply (Hd _ Hin). now left. }
  assert (Hfm : id fn ∉ mid).
  { apply NoDup_app in Hnd1 as (_ & _ & Hnd2). now apply NoDup_cons in Hnd2 as [Hnm _]. }
  assert (Hpos1 : indexOf (getRoot (stage t) (id fn)) (nodes c) = Z.of_nat (length pre)).
  { rewrite getRoot_orphan by exact Hof. rewrite Hnodes. now apply indexOf_middle. }
  assert (Hpos2 : indexOf (getRoot (stage t) (id ln)) (nodes c)
                  = Z.of_nat (length (pre ++ id fn :: mid))).
  { rewrite getRoot_orphan by exact Hol. rewrite Hnodes.
    replace (pre ++ id fn :: mid ++ id ln :: post)
      with ((pre ++ id fn :: mid) ++ id ln :: post) by (rewrite <- ?app_assoc; reflexivity).
    now apply indexOf_middle. }
  assert (Hp0e : path0 end' = id ln) by (unfold path0; now rewrite Hpe).
  unfold ContainerEditing.deleteRange. rewrite Hp0s, Hp0e.
  erewrite bind_run
    by (apply (getPosition_run t container c (id fn) true Hc); [eauto | rewrite Hpos1; lia]).
  erewrite bind_run
    by (apply (getPosition_run t container c (id ln) true Hc); [eauto | rewrite Hpos2; lia]).
  rewrite Hpos1, Hpos2.
  replace (Z.of_nat (length pre) =? Z.of_nat (length (pre ++ id fn :: mid)))%Z with false
    by (symmetry; apply Z.eqb_neq; rewrite length_app; simpl; lia).
  cbv iota.
  erewrite bind_run by (apply (getNode_run _ _ _ Hfn)).
  erewrite bind_run by (apply (getNode_run _ _ _ Hln)).
  erewrite bind_run by (apply (isEntirelySelected_run _ _ _ _ _ Hsel)).
  erewrite bind_run by (apply (isEntirelySelected_text_run t ln _ _ Hln Hkl)).
  cbv beta iota. replace (offset end' <? strlen (content ln))%Z with true by (symmetry; apply Z.ltb_lt; lia).
  change (true && negb true) with false. cbv iota.
  (* the last node *)
  rewrite !(getEditing_text fuel) by assumption.
  unfold text_behaviour. cbv [Behaviour.deleteRange].
  destruct (text_deleteRange_run t ln None (Some end') options (id ln) ln end' Hwf eq_refl Hln
              Hla eq_refl eq_refl Hpe ltac:(simpl; lia) ltac:(simpl; lia))
    as (t1 & E1 & Dl1 & Dj1 & Dn1 & S1).
  erewrite bind_run by (erewrite bind_run by exact E1; reflexivity).
  assert (Keep1 : forall j a, j <> id ln -> data (stage t) !! j = Some a ->
                    isAnnotation a = false -> data (stage t1) !! j = Some a).
  { intros j a Hj Ha Hno. rewrite (Dj1 j a Hj Ha). unfold annotates. now rewrite Hno. }
  assert (Hc1 : data (stage t1) !! id container = Some c) by (apply Keep1; assumption).
  destruct S1 as (Hsch1 & Hpar1 & Huu1 & Hsel1 & Htr1).
  assert (Hrem1 : forall x, x ∈ id fn :: mid -> removable t1 (id container) x).
  { intros x Hx. destruct (Hmid x Hx) as ((Hxc & (n & Hn & Hid) & Horph) & Hna).
    split; [exact Hxc|]. split.
    - exists n. split; [|exact Hid]. apply Keep1; [|exact Hn|now apply Hna].
      intros ->. apply Hl1. apply elem_of_app. now right.
    - now rewrite Hpar1. }
  (* the inner nodes *)
  pose proof (removed_start t1 (id container) c Hc1) as H0. rewrite Hnodes in H0.
  destruct (deleteInner_run t1 container c pre (id fn) (id ln :: post) mid _ _ _ H0 Hnd1)
    as (t2 & E2 & H2).
  { intros x Hx. split; [apply Hrem1; now right | apply not_elem_of_nil]. }
  replace (Z.to_nat (Z.of_nat (length (pre ++ id fn :: mid)) - 1 - Z.of_nat (length pre)))
    with (length mid) by (rewrite length_app; simpl; lia).
  replace (Z.of_nat (length (pre ++ id fn :: mid)) - 1)%Z
    with (Z.of_nat (length pre + length mid)) by (rewrite length_app; simpl; lia).
  rewrite (bind_run _ _ _ _ _ E2).
  rewrite app_nil_r in H2.
  (* the first node *)
  destruct (Hrem1 (id fn)) as (_ & (fn1 & Hfn1 & Hfid1) & Hof1); [now left|].
  destruct (removed_step t1 t2 container c pre (id fn) (id ln :: post) _ _ fn1 H2 Hf1 Hfc Hfm
              Hfn1 Hfid1 Hof1) as (Hh3 & _ & Hd3 & H3).
  assert (Efn : fn1 = fn).
  { rewrite (Keep1 (id fn) fn Hfl Hfn Hfa) in Hfn1. now injection Hfn1. }
  subst fn1.
  unfold ContainerEditing.hideAndDelete.
  erewrite bind_run by (erewrite bind_run by exact Hh3; exact Hd3).
  set (t3 := commit (OpDelete fn) _) in *.
  destruct H3 as (Hc3 & Hsame3 & Hgone3 & _).
  change (true && false) with false. cbv iota.
  change (negb true && negb false) with false. cbv iota.
  cbn [from_option Datatypes.id offset] in Dl1. rewrite str_take_0 in Dl1.
  set (ln' := set_content ("" +:+ str_drop (offset end') (content ln)) ln) in *.
  assert (Hl3 : data (stage t3) !! id ln = Some ln').
  { rewrite Hsame3; [exact Dl1 | congruence |].
    intros [E | Hin]%elem_of_cons; [congruence|].
    apply Hl1. apply elem_of_app. right. now right. }
  erewrite bind_run.
  2:{ unfold selectionHelpers.selectCursor.
      erewrite bind_run by (unfold tx.live, bind, tx.get; rewrite Hl3; reflexivity).
      unfold isText. rewrite bool_decide_eq_true_2 by exact Hkl. reflexivity. }
  exists t3. split; [reflexivity|]. split; [|split].
  - unfold textOf. rewrite Hl3. reflexivity.
  - unfold childrenOf. rewrite Hc3. reflexivity.
  - intros x Hx. apply Hgone3. exact Hx.
Qed.

Lemma deleteRange_first_entirely_selected_witness :
  exists t',
    ContainerEditing.deleteRange (getEditing 1) quartet (mkCoor ["a"; "content"] 0)
      (mkCoor ["d"; "content"] 2) (mkOptions false) (open quartetDoc)
    = (t', Normal (Some (PropertySelection ["d"; "content"] 0 0 (Some "body"))))
    /\ textOf (stage t') "d" = Some "ur"
    /\ childrenOf (stage t') "body" = Some ["d"].
Proof.
  destruct (deleteRange_first_entirely_selected 0 quartet quartet [] ["b"; "c"] []
              (textNode "a" "paragraph" "one") (textNode "d" "paragraph" "four")
              (mkCoor ["a"; "content"] 0) (mkCoor ["d"; "content"] 2)
              (mkOptions false) (open quartetDoc) quartetDoc_wf)
    as (t' & E & Ht & Hc & _); try reflexivity.
  - apply (bool_decide_unpack _). vm_compute. reflexivity.
  - intros x Hx. rewrite !elem_of_cons, elem_of_nil in Hx.
    destruct Hx as [-> | [-> | [-> | []]]];
      (split; [split; [discriminate | split; [eexists; split; reflexivity | reflexivity]]|]);
      intros n Hn; vm_compute in Hn; injection Hn as <-; reflexivity.
  - simpl. split; [lia | reflexivity].
  - exists t'. split; [exact E|]. split; [exact Ht | exact Hc].
Defined.

(** X17: the range starting inside a text child, a later child entirely
    selected.  The last child and the children between are hidden and
    deleted, the tail of the first child from the start offset is
    deleted, and the cursor is put at the end of the first child. *)
Theorem deleteRange_last_entirely_selected fuel container c pre mid post fn ln
    start' end' options t :
  wf_store (data (stage t)) ->
  data (stage t) !! id container = Some c -> kind c = ContainerClass ->
  nodes c = pre ++ id fn :: mid ++ id ln :: post -> NoDup (nodes c) ->
  data (stage t) !! id fn = Some fn -> data (stage t) !! id ln = Some ln ->
  kind fn = TextClass -> parents (stage t) !! id fn = None ->
  (forall x, x ∈ mid ++ [id ln] -> removable t (id container) x) ->
  path start' = [id fn; "content"] -> path0 end' = id ln ->
  snd (selectionHelpers.isEntirelySelected ln None (Some end') t) = Normal true ->
  (0 < offset start' <= strlen (content fn))%Z ->
  exists t',
    ContainerEditing.deleteRange (getEditing (S fuel)) container start' end' options t
    = (t', Normal (Some (PropertySelection [id fn; "content"] (offset start') (offset start')
                           (Some (id container)))))
    /\ textOf (stage t') (id fn) = Some (str_take (offset start') (content fn))
    /\ childrenOf (stage t') (id container) = Some (pre ++ id fn :: post)
    /\ (forall x, x ∈ mid ++ [id ln] -> data (stage t') !! x = None).
Proof.
  intros Hwf Hc Hkc Hnodes Hnd Hfn Hln Hkf Hof Hmid Hps Hp0e Hsel Hs.
  assert (Hfc : id fn <> id container) by (intros E; rewrite <- E, Hfn in Hc; congruence).
  assert (Hca : isAnnotation c = false) by (apply bool_decide_eq_false; congruence).
  assert (Hfa : isAnnotation fn = false)
    by (apply text_not_annotation, bool_decide_eq_true; exact Hkf).
  destruct (Hmid (id ln)) as (Hlc & (ln1 & Hln1 & Hlid) & Hol);
    [apply elem_of_app; right; now left|].
  rewrite Hln in Hln1. injection Hln1 as Eln. subst ln1.
  rewrite Hnodes in Hnd.
  assert (Hnd' : NoDup ((pre ++ id fn :: mid) ++ id ln :: post))
    by (rewrite <- app_assoc; exact Hnd).
  apply NoDup_app in Hnd' as (Hnd1 & Hdisj & _).
  assert (Hl1 : id ln ∉ pre ++ id fn :: mid).
  { intros Hin. apply (Hdisj _ Hin). now left. }
  assert (Hfl : id fn <> id ln).
  { intros E. apply Hl1. apply elem_of_app. right. rewrite E. now left. }
  assert (Hf1 : id fn ∉ pre).
  { apply NoDup_app in Hnd1 as (_ & Hd & _). intros Hin. apply (Hd _ Hin). now left. }
  assert (Hfm : id fn ∉ mid).
  { apply NoDup_app in Hnd1 as (_ & _ & Hnd2). now apply NoDup_cons in Hnd2 as [Hnm _]. }
  assert (Hpos1 : indexOf (getRoot (stage t) (id fn)) (nodes c) = Z.of_nat (length pre)).
  { rewrite getRoot_orphan by exact Hof. rewrite Hnodes. now apply indexOf_middle. }
  assert (Hpos2 : indexOf (getRoot (stage t) (id ln)) (nodes c)
                  = Z.of_nat (length (pre ++ id fn :: mid))).
  { rewrite getRoot_orphan by exact Hol. rewrite Hnodes.
    replace (pre ++ id fn :: mid ++ id ln :: post)
      with ((pre ++ id fn :: mid) ++ id ln :: post) by (rewrite <- ?app_assoc; reflexivity).
    now apply indexOf_middle. }
  assert (Hp0s : path0 start' = id fn) by (unfold path0; now rewrite Hps).
  unfold ContainerEditing.deleteRange. rewrite Hp0s, Hp0e.
  erewrite bind_run
    by (apply (getPosition_run t container c (id fn) true Hc); [eauto | rewrite Hpos1; lia]).
  erewrite bind_run
    by (apply (getPosition_run t container c (id ln) true Hc); [eauto | rewrite Hpos2; lia]).
  rewrite Hpos1, Hpos2.
  replace (Z.of_nat (length pre) =? Z.of_nat (length (pre ++ id fn :: mid)))%Z with false
    by (symmetry; apply Z.eqb_neq; rewrite length_app; simpl; lia).
  cbv iota.
  erewrite bind_run by (apply (getNode_run _ _ _ Hfn)).
  erewrite bind_run by (apply (getNode_run _ _ _ Hln)).
  erewrite bind_run by (apply (isEntirelySelected_text_run t fn _ _ Hfn Hkf)).
  erewrite bind_run by (apply (isEntirelySelected_run _ _ _ _ _ Hsel)).
  cbv beta iota.
  replace (offset start' =? 0)%Z with false by (symmetry; apply Z.eqb_neq; lia).
  change (false && true) with false. cbv iota.
  (* the last node *)
  pose proof (removed_start t (id container) c Hc) as H0. rewrite Hnodes in H0.
  replace (pre ++ id fn :: mid ++ id ln :: post)
    with ((pre ++ id fn :: mid) ++ id ln :: post) in H0 by (rewrite <- ?app_assoc; reflexivity).
  destruct (removed_step t t container c _ (id ln) post [] [] ln H0 Hl1 Hlc
              ltac:(apply not_elem_of_nil) Hln eq_refl Hol) as (Hh1 & _ & Hd1 & H1).
  unfold ContainerEditing.hideAndDelete.
  erewrite bind_run by (erewrite bind_run by exact Hh1; exact Hd1).
  (* the inner nodes *)
  rewrite <- app_assoc in H1.
  change ((id fn :: mid) ++ post) with (id fn :: mid ++ post) in H1.
  destruct (deleteInner_run t container c pre (id fn) post mid _ _ _ H1 Hnd1)
    as (t2 & E2 & H2).
  { intros x Hx. split.
    - apply Hmid. apply elem_of_app. now left.
    - apply not_elem_of_cons. split; [|apply not_elem_of_nil].
      intros ->. apply Hl1. apply elem_of_app. right. now right. }
  replace (Z.to_nat (Z.of_nat (length (pre ++ id fn :: mid)) - 1 - Z.of_nat (length pre)))
    with (length mid) by (rewrite length_app; simpl; lia).
  replace (Z.of_nat (length (pre ++ id fn :: mid)) - 1)%Z
    with (Z.of_nat (length pre + length mid)) by (rewrite length_app; simpl; lia).
  rewrite (bind_run _ _ _ _ _ E2).
  destruct H2 as (Hc2 & Hsame2 & Hgone2 & _).
  assert (Hfg : id fn ∉ mid ++ [id ln]).
  { intros [Hin | Hin]%elem_of_app; [contradiction|].
    apply list_elem_of_singleton in Hin. congruence. }
  assert (Hwf2 : wf_store (data (stage t2))).
  { intros j x Hx. destruct (decide (j = id container)) as [->|Hjc].
    - rewrite Hc2 in Hx. injection Hx as <-. exact (Hwf _ _ Hc).
    - destruct (decide (j ∈ mid ++ [id ln])) as [Hin|Hout].
      + rewrite (Hgone2 j Hin) in Hx. discriminate Hx.
      + rewrite (Hsame2 j Hjc Hout) in Hx. exact (Hwf _ _ Hx). }
  assert (Hf2 : data (stage t2) !! id fn = Some fn).
  { rewrite Hsame2 by assumption. exact Hfn. }
  (* the first node *)
  rewrite !(getEditing_text fuel) by assumption.
  unfold text_behaviour. cbv [Behaviour.deleteRange].
  destruct (text_deleteRange_run t2 fn (Some start') None options (id fn) fn start' Hwf2
              eq_refl Hf2 Hfa eq_refl Hps eq_refl ltac:(simpl; lia) ltac:(simpl; lia))
    as (t3 & E3 & Df3 & Dj3 & Dn3 & S3).
  erewrite bind_run by (erewrite bind_run by exact E3; reflexivity).
  cbn [from_option Datatypes.id offset] in Df3.
  rewrite str_drop_all, append_empty_r in Df3.
  change (false && true) with false. cbv iota.
  change (negb false && negb true) with false. cbv iota.
  erewrite bind_run.
  2:{ unfold selectionHelpers.selectCursor.
      erewrite bind_run by (unfold tx.live, bind, tx.get; rewrite Df3; reflexivity).
      unfold isText. change (kind (set_content _ fn)) with (kind fn).
      rewrite bool_decide_eq_true_2 by exact Hkf. reflexivity. }
  exists t3. split; [|split; [|split]].
  - unfold ret. do 3 f_equal. change ("after" =? "after") with true. cbv iota.
    unfold getLength, isText. change (kind (set_content _ fn)) with (kind fn).
    rewrite bool_decide_eq_true_2 by exact Hkf. simpl content.
    rewrite strlen_take by lia. reflexivity.
  - unfold textOf. rewrite Df3. reflexivity.
  - unfold childrenOf. rewrite (Dj3 (id container) _ (not_eq_sym Hfc) Hc2).
    unfold annotates. change (isAnnotation (set_nodes _ c)) with (isAnnotation c).
    rewrite Hca. reflexivity.
  - intros x Hx. apply Dn3, Hgone2. exact Hx.
Qed.

Lemma deleteRange_last_entirely_selected_witness :
  exists t',
    ContainerEditing.deleteRange (getEditing 1) quartet (mkCoor ["a"; "content"] 2)
      (mkCoor ["d"; "content"] 4) (mkOptions false) (open quartetDoc)
    = (t', Normal (Some (PropertySelection ["a"; "content"] 2 2 (Some "body"))))
    /\ textOf (stage t') "a" = Some "on"
    /\ childrenOf (stage t') "body" = Some ["a"].
Proof.
  destruct (deleteRange_last_entirely_selected 0 quartet quartet [] ["b"; "c"] []
              (textNode "a" "paragraph" "one") (textNode "d" "paragraph" "four")
              (mkCoor ["a"; "content"] 2) (mkCoor ["d"; "content"] 4)
              (mkOptions false) (open quartetDoc) quartetDoc_wf)
    as (t' & E & Ht & Hc & _); try reflexivity.
  - apply (bool_decide_unpack _). vm_compute. reflexivity.
  - intros x Hx. change (x ∈ ["b"; "c"; "d"]) in Hx.
    rewrite !elem_of_cons, elem_of_nil in Hx.
    destruct Hx as [-> | [-> | [-> | []]]];
      (split; [discriminate | split; [eexists; split; reflexivity | reflexivity]]).
  - simpl. split; [lia | vm_compute; discriminate].
  - exists t'. split; [exact E|]. split; [exact Ht | exact Hc].
Defined.

(** ** More on transactions *)

Lemma ops_applyOp op d : _ops (_applyOp op d) = _ops d.
Proof.
  unfold _applyOp. destruct op; simpl; try reflexivity;
    repeat match goal with |- context [match ?p with _ => _ end] => destruct p end;
    reflexivity.
Qed.

Lemma ops_applyAll l : forall d, _ops (foldl (fun d op => _applyOp op d) d l) = _ops d.
Proof.
  induction l as [|op l IH]; intros d; simpl; [reflexivity|].
  now rewrite IH, ops_applyOp.
Qed.

(** X18: [_sync] replays the operations logged on the master document on
    the stage and empties the master's log, so a second [_sync] right
    after it changes nothing; the stage's own log is not written to. *)
Theorem sync_twice t :
  let t1 := fst (TransactionImpl._sync t) in
  TransactionImpl._sync t1 = (t1, Normal tt)
  /\ stage t1 = foldl (fun d op => _applyOp op d) (stage t) (_ops (master t))
  /\ _ops (master t1) = []
  /\ data (master t1) = data (master t)
  /\ _ops (stage t1) = _ops (stage t).
Proof.
  destruct t as [m s s' sel tr b a i u]. simpl.
  split; [reflexivity|]. split; [reflexivity|]. split; [reflexivity|].
  split; [reflexivity|]. apply ops_applyAll.
Qed.

(** X19: once a transformation has failed in a transaction whose [_stage]
    was never assigned, the transaction stays marked as running, and
    every later [_recordChange] on it is refused as nested, before the
    new transformation is looked at. *)
Theorem recordChange_after_failure t f sel t' e g sel' :
  _isTransacting t = false ->
  (tx.setSelection sel >> let* s := tx.getSelection in f s)
    (fst (TransactionImpl._reset (set_isTransacting true t))) = (t', Throw e) ->
  _stage t' = None -> _isTransacting t' = true ->
  let failed := fst (TransactionImpl._recordChange (Some f) sel t) in
  TransactionImpl._recordChange g sel' failed
  = (failed, Throw (Error "Nested transactions are not supported.")).
Proof.
  intros Hrun Hbody Hnone Htr failed. subst failed.
  rewrite (recordChange_failure_keeps_stage t f sel t' e Hrun Hbody Hnone). simpl.
  unfold TransactionImpl._recordChange. now rewrite Htr.
Qed.

Lemma recordChange_after_failure_witness :
  let failed := fst (TransactionImpl._recordChange (Some createThenFail) NullSelection
                       (TransactionImpl.constructor emptyDoc)) in
  TransactionImpl._recordChange (Some (fun _ => ret tt)) NullSelection failed
  = (failed, Throw (Error "Nested transactions are not supported.")).
Proof.
  apply (recordChange_after_failure (TransactionImpl.constructor emptyDoc) createThenFail
           NullSelection
           (fst ((tx.setSelection NullSelection >>
                  let* s := tx.getSelection in createThenFail s)
                   (fst (TransactionImpl._reset
                           (set_isTransacting true (TransactionImpl.constructor emptyDoc))))))
           (Error "failed")); reflexivity.
Defined.

(** X20: a transformation that completes.  [_recordChange] hands it the
    selection it was given, on a stage whose log has been emptied; it
    returns a change exactly when the transformation recorded an
    operation, holding what the transformation recorded, the selection
    given and the selection the transformation left; the transaction is
    no longer marked as running. *)
Theorem recordChange_completes t f sel t' log :
  _isTransacting t = false ->
  let t0 := set_selection sel (fst (TransactionImpl._reset (set_isTransacting true t))) in
  f sel t0 = (t', Normal tt) ->
  _ops (stage t') = _ops (stage t0) ++ log ->
  TransactionImpl._recordChange (Some f) sel t
  = (set_isTransacting false t',
     Normal (match log with
             | [] => None
             | _ :: _ => Some (mkChange log sel (_selection t'))
             end)).
Proof.
  intros Hrun t0 Hf Hlog.
  unfold TransactionImpl._recordChange. rewrite Hrun.
  unfold bind, tx.setSelection, tx.getSelection. fold t0.
  change (_selection t0) with sel. rewrite Hf, Hlog.
  change (_ops (stage t0)) with (@nil Op). simpl app.
  destruct log; reflexivity.
Qed.

Lemma recordChange_completes_witness :
  exists t',
    TransactionImpl._recordChange
      (Some (fun _ => tx.create (textNode "p1" "paragraph" "x") >> ret tt)) NullSelection
      (TransactionImpl.constructor emptyDoc)
    = (set_isTransacting false t',
       Normal (Some (mkChange [OpCreate (textNode "p1" "paragraph" "x")] NullSelection
                       (_selection t'))))
    /\ data (stage t') !! "p1" = Some (textNode "p1" "paragraph" "x").
Proof.
  eexists. split.
  - apply (recordChange_completes (TransactionImpl.constructor emptyDoc)
             (fun _ => tx.create (textNode "p1" "paragraph" "x") >> ret tt) NullSelection
             (fst ((tx.create (textNode "p1" "paragraph" "x") >> ret tt)
                     (set_selection NullSelection
                        (fst (TransactionImpl._reset
                                (set_isTransacting true
                                   (TransactionImpl.constructor emptyDoc)))))))
             [OpCreate (textNode "p1" "paragraph" "x")]); reflexivity.
  - reflexivity.
Defined.

Lemma substring_join s : forall n m k,
  substring n m s +:+ substring (n + m) k s = substring n (m + k) s.
Proof.
  induction s as [|c s IH]; intros n m k.
  - destruct n, m, k; reflexivity.
  - destruct n as [|n]; simpl.
    + destruct m as [|m]; simpl; [reflexivity|].
      change (String c (substring 0 m s) +:+ substring m k s)
        with (String c (substring 0 m s +:+ substring (0 + m) k s)).
      now rewrite IH.
    + apply IH.
Qed.

Lemma take_between_drop a b s :
  (0 <= a <= b)%Z -> (b <= strlen s)%Z ->
  str_take a s +:+ substring_between a b s +:+ str_drop b s = s.
Proof.
  intros H1 H2. unfold str_take, substring_between, str_drop, strlen in *.
  replace (Z.to_nat b) with (Z.to_nat a + (Z.to_nat b - Z.to_nat a))%nat at 2 by lia.
  rewrite substring_join.
  replace (Z.to_nat a) with (0 + Z.to_nat a)%nat at 2 by lia.
  rewrite substring_join.
  replace (Z.to_nat a + (Z.to_nat b - Z.to_nat a + (String.length s - Z.to_nat b)))%nat
    with (String.length s) by lia.
  apply substring_all.
Qed.

Lemma str_app_assoc a b c : (a +:+ b) +:+ c = a +:+ (b +:+ c).
Proof.
  induction a as [|x a IH]; [reflexivity|].
  change (String x ((a +:+ b) +:+ c) = String x (a +:+ (b +:+ c))). now rewrite IH.
Qed.

Lemma text_insert_delete pos s c :
  (0 <= pos <= strlen c)%Z ->
  text_delete_at pos (strlen s) (text_insert_at pos s c) = c.
Proof.
  intros H. unfold text_delete_at, text_insert_at.
  rewrite <- (strlen_take pos c) at 1 by lia. rewrite str_take_app.
  rewrite <- (strlen_take pos c) at 2 by lia. rewrite <- strlen_append.
  rewrite <- str_app_assoc, str_drop_app. now apply take_drop.
Qed.

Lemma text_delete_insert pos e c :
  (0 <= pos <= e)%Z -> (e <= strlen c)%Z ->
  text_insert_at pos (substring_between pos e c)
    (text_delete_at pos (strlen (substring_between pos e c)) c) = c.
Proof.
  intros H1 H2. rewrite delete_then_insert by assumption.
  now apply take_between_drop.
Qed.

Lemma array_insert_delete {A} pos (v : A) l :
  (0 <= pos <= Z.of_nat (length l))%Z ->
  array_delete_at pos (array_insert_at pos v l) = l.
Proof.
  intros H. unfold array_delete_at, array_insert_at.
  set (k := Z.to_nat pos). assert (Hk : length (take k l) = k) by (rewrite length_take; lia).
  rewrite <- Hk at 1. rewrite take_app_length.
  replace (S k) with (length (take k l ++ [v])) by (rewrite length_app; simpl; lia).
  rewrite (cons_middle v (take k l) (drop k l)), app_assoc, drop_app_length.
  apply firstn_skipn.
Qed.

Lemma array_delete_insert {A} pos (v : A) l :
  (0 <= pos)%Z -> l !! Z.to_nat pos = Some v ->
  array_insert_at pos v (array_delete_at pos l) = l.
Proof.
  intros H Hv. unfold array_delete_at, array_insert_at.
  set (k := Z.to_nat pos) in *.
  assert (Hlt : (k < length l)%nat) by (apply lookup_lt_is_Some; eauto).
  assert (Hk : length (take k l) = k) by (rewrite length_take; lia).
  assert (E1 : take k (take k l ++ drop (S k) l) = take k l).
  { rewrite <- Hk at 1. apply take_app_length. }
  assert (E2 : drop k (take k l ++ drop (S k) l) = drop (S k) l).
  { rewrite <- Hk at 1. apply drop_app_length. }
  rewrite E1, E2. now apply take_drop_middle.
Qed.

Lemma set_content_same n : set_content (content n) n = n.
Proof. now destruct n. Qed.

Lemma set_data_same d : set_data (data d) d = d.
Proof. now destruct d. Qed.

Lemma alter_back (f g : Node -> Node) i n (m : gmap string Node) :
  m !! i = Some n -> g (f n) = n -> alter g i (alter f i m) = m.
Proof.
  intros Hn Hgf. apply map_eq. intros j. destruct (decide (i = j)) as [<-|Hne].
  - rewrite !lookup_alter_eq, Hn. simpl. now rewrite Hgf.
  - now rewrite !lookup_alter_ne.
Qed.

(** An operation followed by its inverse. *)
Lemma applyOp_invert op d :
  recordable op d -> _applyOp (invert op) (_applyOp op d) = d.
Proof.
  destruct op as [n|n|p pos s|p pos s|p pos v|p pos v|p v|p old new]; simpl.
  - intros H. unfold set_data. simpl. rewrite delete_insert_id by exact H. now destruct d.
  - intros H. unfold set_data. simpl. rewrite insert_delete_id by exact H. now destruct d.
  - intros (i & n & -> & Hn & Hpos). unfold set_data. simpl.
    rewrite (alter_back _ _ i n _ Hn); [now destruct d|]. simpl.
    rewrite text_insert_delete by exact Hpos. now destruct n.
  - intros (i & n & e & -> & Hn & H1 & H2 & ->). unfold set_data. simpl.
    rewrite (alter_back _ _ i n _ Hn); [now destruct d|]. simpl.
    rewrite text_delete_insert by assumption. now destruct n.
  - intros (i & n & -> & Hn & Hpos). unfold set_data. simpl.
    rewrite (alter_back _ _ i n _ Hn); [now destruct d|]. simpl.
    rewrite array_insert_delete by exact Hpos. now destruct n.
  - intros (i & n & -> & Hn & Hpos & Hv). unfold set_data. simpl.
    rewrite (alter_back _ _ i n _ Hn); [now destruct d|]. simpl.
    rewrite array_delete_insert by assumption. now destruct n.
  - intros (i & prop & -> & [n Hn]). unfold set_data. simpl.
    rewrite (alter_back _ _ i n _ Hn); [now destruct d|].
    unfold applyToNode. cbv beta iota.
    destruct (String.eqb prop "start") eqn:E1; [|destruct (String.eqb prop "end") eqn:E2].
    + destruct n as [? ? ? ? ? ? [sp so] ? ? ?]. unfold set_start, shift_coor. simpl.
      do 2 f_equal. lia.
    + destruct n as [? ? ? ? ? ? ? [ep eo] ? ?]. unfold set_end, shift_coor. simpl.
      do 2 f_equal. lia.
    + reflexivity.
  - intros (i & prop & n & -> & Hn & Hold). unfold set_data. simpl.
    rewrite (alter_back _ _ i n _ Hn); [now destruct d|].
    unfold tx.getValue in Hold. unfold applyToNode. cbv beta iota.
    destruct (String.eqb prop "level") eqn:E0.
    { injection Hold as <-. apply String.eqb_eq in E0. subst prop.
      destruct new; simpl; now destruct n. }
    destruct (String.eqb prop "start") eqn:E1.
    { injection Hold as <-. destruct new; cbv beta iota; rewrite ?E0, ?E1; now destruct n. }
    destruct (String.eqb prop "end") eqn:E2; [|discriminate Hold].
    injection Hold as <-. destruct new; cbv beta iota; rewrite ?E0, ?E1, ?E2; now destruct n.
Qed.

Lemma applyAll_snoc log op d : applyAll (log ++ [op]) d = _applyOp op (applyAll log d).
Proof. unfold applyAll. now rewrite foldl_app. Qed.

Lemma undoAll_cons op log d :
  TransactionImpl.undoAll (op :: log) d = _applyOp (invert op) (TransactionImpl.undoAll log d).
Proof. unfold TransactionImpl.undoAll. simpl. now rewrite foldl_app. Qed.

Lemma undoAll_applyAll log : forall d,
  recordedFrom d log -> TransactionImpl.undoAll log (applyAll log d) = d.
Proof.
  induction log as [|op log IH]; intros d H; [reflexivity|].
  destruct H as [Hop Hrest]. rewrite undoAll_cons.
  change (applyAll (op :: log) d) with (applyAll log (_applyOp op d)).
  rewrite IH by exact Hrest. now apply applyOp_invert.
Qed.

(** X21: what the loop of [_rollback] does to a log it can read.  Going
    from the last operation to the first and applying the inverse of
    each, it takes the staged document back to the document the log was
    recorded from, and the log it read is emptied. *)
Theorem rollback_undoes_log t s d :
  _stage t = Some s -> recordedFrom d (_ops s) -> stage t = applyAll (_ops s) d ->
  exists t',
    TransactionImpl._rollback t = (t', Normal tt)
    /\ stage t' = d
    /\ _ops <$> _stage t' = Some [].
Proof.
  intros Hs Hlog Hstage. unfold TransactionImpl._rollback. rewrite Hs.
  eexists. split; [reflexivity|]. simpl. split; [|reflexivity].
  rewrite Hstage. now apply undoAll_applyAll.
Qed.

Lemma rollback_undoes_log_witness :
  let log := [OpCreate (textNode "p1" "paragraph" "x");
              OpTextInsert ["p1"; "content"] 1 "yz"] in
  exists t',
    TransactionImpl._rollback
      (mkTx emptyDoc (applyAll log emptyDoc) (Some (set_ops log emptyDoc)) NullSelection true
            [] [] [] 0) = (t', Normal tt)
    /\ textOf (applyAll log emptyDoc) "p1" = Some "xyz"
    /\ stage t' = emptyDoc.
Proof.
  intros log.
  destruct (rollback_undoes_log
              (mkTx emptyDoc (applyAll log emptyDoc) (Some (set_ops log emptyDoc))
                    NullSelection true [] [] [] 0)
              (set_ops log emptyDoc) emptyDoc eq_refl) as (t' & E & Hs & _).
  - split; [reflexivity|]. split; [|exact I].
    exists "p1", (textNode "p1" "paragraph" "x").
    split; [reflexivity|]. split; [reflexivity|]. split; [lia | vm_compute; discriminate].
  - reflexivity.
  - exists t'. split; [exact E|]. split; [reflexivity | exact Hs].
Defined.

(** ** Deleting at the selection *)

Lemma getEditing_container fuel c :
  kind c = ContainerClass ->
  getEditing (S fuel) c = ContainerEditing.behaviour (getEditing fuel).
Proof. intros H. simpl. unfold capability. now rewrite H. Qed.

Lemma deleteCharacterOf_text fuel n :
  kind n = TextClass -> deleteCharacterOf (S fuel) n = TextNodeEditing'.deleteCharacter.
Proof. intros H. simpl. unfold capability. now rewrite H. Qed.

Lemma deleteCharacterOf_container fuel c :
  kind c = ContainerClass ->
  deleteCharacterOf (S fuel) c = ContainerEditing'.deleteCharacter (deleteCharacterOf fuel).
Proof. intros H. simpl. unfold capability. now rewrite H. Qed.

Lemma set_selection_same t : set_selection (_selection t) t = t.
Proof. now destruct t. Qed.

Lemma indexOfFrom_elem x l : forall k, x ∈ l -> (k <= indexOfFrom k x l)%Z.
Proof.
  induction l as [|y l IH]; intros k Hin; [inversion Hin|]. simpl.
  destruct (String.eqb_spec x y) as [->|Hne]; [lia|].
  apply elem_of_cons in Hin as [->|Hin]; [congruence|].
  specialize (IH (k + 1)%Z Hin). lia.
Qed.

Lemma indexOf_elem x l : x ∈ l -> (0 <= indexOf x l)%Z.
Proof. apply indexOfFrom_elem. Qed.

(** A collapsed property selection in a text child of its container:
    [delete] asks the container, which asks the child. *)
Lemma delete_collapsed_run fuel direction t i o cid c n :
  _selection t = PropertySelection [i; "content"] o o (Some cid) ->
  data (stage t) !! cid = Some c -> id c = cid -> kind c = ContainerClass ->
  data (stage t) !! i = Some n -> kind n = TextClass ->
  parents (stage t) !! i = None -> i ∈ nodes c ->
  Editing'.delete (S (S (S fuel))) direction t
  = (let* sel' := TextNodeEditing'.deleteCharacter n (mkCoor [i; "content"] o) direction
                    (Some (mkRoot c (ContainerEditing.behaviour (getEditing (S fuel))))) in
     tx.setSelection (default (PropertySelection [i; "content"] o o (Some cid)) sel') >>
     ret None) t.
Proof.
  intros Hsel Hc Hcid Hkc Hn Hkn Horph Hin.
  assert (Hroot : getRoot (stage t) i = i) by now apply getRoot_orphan.
  assert (Hpos : (0 <= indexOf (getRoot (stage t) i) (nodes c))%Z).
  { rewrite Hroot. now apply indexOf_elem. }
  assert (Hc' : data (stage t) !! id c = Some c) by now rewrite Hcid.
  cbn [Editing'.delete].
  erewrite bind_run by (unfold tx.getSelection; rewrite Hsel; reflexivity).
  erewrite bind_run by (unfold Editing'.getContainer, Editing'.containerId, tx.get;
                        rewrite Hc; reflexivity).
  cbv beta iota. rewrite Z.eqb_refl. cbv iota zeta.
  rewrite (getEditing_container _ c Hkc), (deleteCharacterOf_container _ c Hkc).
  unfold ContainerEditing'.deleteCharacter at 1.
  change (path0 (mkCoor [i; "content"] o)) with i.
  unfold bind at 1.
  unfold bind at 1.
  rewrite (getPosition_run t c c i false Hc' ltac:(eauto) Hpos).
  unfold bind at 1.
  rewrite (getChild_run t c c _ (getRoot (stage t) i) n Hc' Hpos
             ltac:(now apply indexOf_lookup) ltac:(now rewrite Hroot)).
  rewrite (deleteCharacterOf_text _ n Hkn). reflexivity.
Qed.

Lemma text_deleteCharacter_inside t n coor direction root i :
  let at' := if String.eqb direction "left" then (offset coor - 1)%Z else offset coor in
  data (stage t) !! i = Some n -> id n = i ->
  (0 <= at' < strlen (content n))%Z ->
  TextNodeEditing'.deleteCharacter n coor direction root t
  = NodeEditing'.deleteCharacter n coor direction root t.
Proof.
  intros at' Hn Hid Hat. unfold TextNodeEditing'.deleteCharacter.
  erewrite bind_run by (apply (live_run t n); now rewrite Hid).
  cbv zeta. destruct root as [r|]; [|reflexivity].
  subst at'. destruct (String.eqb_spec direction "left") as [->|Hd].
  - replace (offset coor =? 0)%Z with false by (symmetry; apply Z.eqb_neq; lia).
    change ("left" =? "right") with false. rewrite andb_false_r. reflexivity.
  - rewrite andb_false_r.
    replace (offset coor =? strlen (content n))%Z with false
      by (symmetry; apply Z.eqb_neq; lia).
    reflexivity.
Qed.

Lemma deleteCharacter_run t node coor direction i n :
  let at' := if String.eqb direction "left" then (offset coor - 1)%Z else offset coor in
  wf_store (data (stage t)) ->
  path coor = [i; "content"] ->
  data (stage t) !! i = Some n ->
  isAnnotation n = false ->
  (0 <= at' < strlen (content n))%Z ->
  exists t',
    NodeEditing.deleteCharacter node coor direction t
    = (t', Normal (PropertySelection [i; "content"] at' at' None))
    /\ data (stage t') !! i
       = Some (set_content (str_take at' (content n) +:+ str_drop (at' + 1) (content n)) n)
    /\ (forall j a, j <> i -> data (stage t) !! j = Some a ->
          annotates [i; "content"] a = false -> data (stage t') !! j = Some a)
    /\ (forall j, data (stage t) !! j = None -> data (stage t') !! j = None)
    /\ sameSession t t'.
Proof.
  intros at' Hwf Hp Hn Hna Hat.
  unfold NodeEditing.deleteCharacter. cbv zeta. fold at'. rewrite Hp.
  destruct (deleteTextRange_run t (Some (mkCoor [i; "content"] at'))
              (Some (mkCoor [i; "content"] (at' + 1))) i n Hwf Hn Hna eq_refl eq_refl
              ltac:(left; eauto) ltac:(simpl; lia) ltac:(simpl; lia))
    as (t' & E & Hi & Hj & Hnone & S).
  exists t'. split; [|split; [|split; [|split]]].
  - rewrite (bind_run _ _ _ _ _ E). reflexivity.
  - exact Hi.
  - intros j a Hne Ha Hno. rewrite (Hj j a Hne Ha). now rewrite Hno.
  - exact Hnone.
  - exact S.
Qed.

(** X22: [delete] with the cursor inside a text child of the container
    takes out one character, before the cursor for 'left' and behind it
    otherwise, and moves the cursor there: the container and the text
    behaviour hand the call down to [NodeEditing.deleteCharacter], and
    the selection it returns becomes the selection of the transaction. *)
Theorem delete_inside_text fuel direction t i o cid c n :
  let at' := if String.eqb direction "left" then (o - 1)%Z else o in
  wf_store (data (stage t)) ->
  _selection t = PropertySelection [i; "content"] o o (Some cid) ->
  data (stage t) !! cid = Some c -> kind c = ContainerClass ->
  data (stage t) !! i = Some n -> kind n = TextClass ->
  parents (stage t) !! i = None -> i ∈ nodes c ->
  (0 <= at' < strlen (content n))%Z ->
  exists t' containerId,
    Editing'.delete (S (S (S fuel))) direction t = (t', Normal None)
    /\ _selection t' = PropertySelection [i; "content"] at' at' containerId
    /\ textOf (stage t') i
       = Some (str_take at' (content n) +:+ str_drop (at' + 1) (content n))
    /\ (forall j a, j <> i -> data (stage t) !! j = Some a ->
          annotates [i; "content"] a = false -> data (stage t') !! j = Some a)
    /\ (forall j, data (stage t) !! j = None -> data (stage t') !! j = None).
Proof.
  intros at' Hwf Hsel Hc Hkc Hn Hkn Horph Hin Hat.
  pose proof (Hwf _ _ Hc) as Hcid. pose proof (Hwf _ _ Hn) as Hid.
  assert (Hna : isAnnotation n = false)
    by (apply text_not_annotation, bool_decide_eq_true; exact Hkn).
  rewrite (delete_collapsed_run fuel direction t i o cid c n Hsel Hc Hcid Hkc Hn Hkn Horph Hin).
  destruct (deleteCharacter_run t n (mkCoor [i; "content"] o) direction i n Hwf eq_refl Hn
              Hna Hat) as (t' & E & Hi & Hj & Hnone & _).
  erewrite bind_run.
  2:{ rewrite (text_deleteCharacter_inside t n (mkCoor [i; "content"] o) direction _ i Hn Hid Hat).
      unfold NodeEditing'.deleteCharacter. erewrite bind_run by exact E. reflexivity. }
  eexists. exists None. split; [reflexivity|]. split; [reflexivity|]. split; [|split].
  - unfold textOf. simpl. now rewrite Hi.
  - exact Hj.
  - exact Hnone.
Qed.

Lemma delete_inside_text_witness :
  exists t' containerId,
    Editing'.delete 3 "left"
      (set_selection (PropertySelection ["s"; "content"] 2 2 (Some "body")) (open fooBarDoc))
    = (t', Normal None)
    /\ _selection t' = PropertySelection ["s"; "content"] 1 1 containerId
    /\ textOf (stage t') "s" = Some "br".
Proof.
  destruct (delete_inside_text 0 "left"
              (set_selection (PropertySelection ["s"; "content"] 2 2 (Some "body"))
                 (open fooBarDoc)) "s" 2 "body" body bar fooBarDoc_wf)
    as (t' & cid & E & Hs & Ht & _); try reflexivity.
  - apply (bool_decide_unpack _). vm_compute. exact I.
  - simpl. split; [lia | reflexivity].
  - exists t', cid. split; [exact E|]. split; [exact Hs | exact Ht].
Defined.

(** At the start of the text going left, or at its end going right, the
    text behaviour asks the root to merge. *)
Lemma text_deleteCharacter_merges t n coor direction c ed i :
  data (stage t) !! i = Some n -> id n = i ->
  (direction = "left" /\ offset coor = 0%Z)
  \/ (direction = "right" /\ offset coor = strlen (content n)) ->
  TextNodeEditing'.deleteCharacter n coor direction
    (Some (mkRoot c (ContainerEditing.behaviour ed))) t
  = ContainerEditing.merge ed c coor direction t.
Proof.
  intros Hn Hid Hdir. unfold TextNodeEditing'.deleteCharacter.
  erewrite bind_run by (apply (live_run t n); now rewrite Hid).
  cbv zeta. destruct Hdir as [[-> ->] | [-> ->]].
  - reflexivity.
  - rewrite Z.eqb_refl. change ("right" =? "left") with false.
    rewrite andb_false_r. reflexivity.
Qed.

(** X23: backspace at the start of a text child, or forward delete at the
    end of the one before it, joins the two: [delete] goes through the
    container and the text behaviour to [merge], and the selection of the
    transaction becomes the cursor where the texts meet. *)
Theorem delete_joins_text_children fuel direction t o i c pre tn sn post :
  wf_store (data (stage t)) ->
  _selection t = PropertySelection [i; "content"] o o (Some (id c)) ->
  data (stage t) !! id c = Some c -> kind c = ContainerClass ->
  nodes c = pre ++ id tn :: id sn :: post -> NoDup (nodes c) ->
  data (stage t) !! id tn = Some tn -> data (stage t) !! id sn = Some sn ->
  kind tn = TextClass -> kind sn = TextClass -> isEmpty tn = false ->
  parents (stage t) !! id tn = None -> parents (stage t) !! id sn = None ->
  (direction = "left" /\ i = id sn /\ o = 0%Z)
  \/ (direction = "right" /\ i = id tn /\ o = strlen (content tn)) ->
  exists t',
    Editing'.delete (S (S (S fuel))) direction t = (t', Normal None)
    /\ _selection t'
       = PropertySelection [id tn; "content"] (strlen (content tn)) (strlen (content tn))
           (Some (id c))
    /\ textOf (stage t') (id tn) = Some (content tn +:+ content sn)
    /\ childrenOf (stage t') (id c) = Some (pre ++ id tn :: post)
    /\ data (stage t') !! id sn = None.
Proof.
  intros Hwf Hsel Hc Hkc Hn Hnd Ht Hs Hkt Hks Hne Hot Hos Hdir.
  assert (Hint : id tn ∈ nodes c).
  { rewrite Hn. apply elem_of_app. right. now left. }
  assert (Hins : id sn ∈ nodes c).
  { rewrite Hn. apply elem_of_app. right. right. now left. }
  assert (exists sourceCoor targetCoor,
            Editing'.delete (S (S (S fuel))) direction t
            = (let* sel' := ContainerEditing.mergeNodes (getEditing (S fuel)) c sn sourceCoor
                              tn targetCoor direction in
               tx.setSelection (default (PropertySelection [i; "content"] o o (Some (id c)))
                                  sel') >>
               ret None) t
            /\ path0 sourceCoor = id sn /\ path0 targetCoor = id tn)
    as (sourceCoor & targetCoor & E & Hsp & Htp).
  { destruct Hdir as [(-> & -> & ->) | (-> & -> & ->)].
    - exists (mkCoor [id sn; "content"] 0), (mkCoor [id tn] 0).
      split; [|split; reflexivity].
      rewrite (delete_collapsed_run fuel "left" t (id sn) 0 (id c) c sn Hsel Hc eq_refl Hkc
                 Hs Hks Hos Hins).
      unfold bind at 1.
      rewrite (text_deleteCharacter_merges t sn _ "left" c _ (id sn) Hs eq_refl)
        by (left; split; reflexivity).
      rewrite (merge_left_run _ c c (mkCoor [id sn; "content"] 0) t pre (id tn) (id sn) post tn sn Hc Hn Hnd Ht Hs
                 eq_refl Hos eq_refl).
      reflexivity.
    - exists (mkCoor [id sn] 0), (mkCoor [id tn; "content"] (strlen (content tn))).
      split; [|split; reflexivity].
      rewrite (delete_collapsed_run fuel "right" t (id tn) _ (id c) c tn Hsel Hc eq_refl Hkc
                 Ht Hkt Hot Hint).
      unfold bind at 1.
      rewrite (text_deleteCharacter_merges t tn _ "right" c _ (id tn) Ht eq_refl)
        by (right; split; reflexivity).
      rewrite (merge_right_run _ c c (mkCoor [id tn; "content"] (strlen (content tn))) t pre (id tn) (id sn) post tn sn Hc Hn Hnd Ht Hs
                 eq_refl Hot eq_refl).
      reflexivity. }
  destruct (mergeNodes_text_run fuel c c sourceCoor targetCoor direction t
              pre tn sn post Hwf Hc Hn Hnd Ht Hs Hkc Hkt Hks Hne Hos Hsp Htp)
    as (t' & E' & Dt & Dc & Ds & _).
  rewrite E. rewrite (bind_run _ _ _ _ _ E').
  eexists. split; [reflexivity|]. split; [reflexivity|].
  unfold textOf, childrenOf. simpl. rewrite Dt, Dc. repeat split. exact Ds.
Qed.

Lemma delete_joins_text_children_witness :
  exists t',
    Editing'.delete 3 "left"
      (set_selection (PropertySelection ["s"; "content"] 0 0 (Some "body")) (open fooBarDoc))
    = (t', Normal None)
    /\ _selection t' = PropertySelection ["t"; "content"] 3 3 (Some "body")
    /\ textOf (stage t') "t" = Some "foobar"
    /\ childrenOf (stage t') "body" = Some ["t"].
Proof.
  destruct (delete_joins_text_children 0 "left"
              (set_selection (PropertySelection ["s"; "content"] 0 0 (Some "body"))
                 (open fooBarDoc)) 0 "s" body [] foo bar [] fooBarDoc_wf)
    as (t' & E & Hs & Ht & Hc & _); try reflexivity.
  - apply (bool_decide_unpack _). vm_compute. exact I.
  - left. repeat split.
  - exists t'. split; [exact E|]. split; [exact Hs|]. split; [exact Ht | exact Hc].
Defined.

(** X24: backspace at the start of the first child, or forward delete at
    the end of the last child, does nothing: [merge] returns null, the
    selection is kept ([... || sel]), and the transaction is as it was. *)
Theorem delete_at_boundary fuel direction t o i c n l :
  _selection t = PropertySelection [i; "content"] o o (Some (id c)) ->
  data (stage t) !! id c = Some c -> kind c = ContainerClass ->
  data (stage t) !! i = Some n -> id n = i -> kind n = TextClass ->
  parents (stage t) !! i = None ->
  NoDup (nodes c) ->
  (direction = "left" /\ nodes c = i :: l /\ o = 0%Z)
  \/ (direction = "right" /\ nodes c = l ++ [i] /\ o = strlen (content n)) ->
  Editing'.delete (S (S (S fuel))) direction t = (t, Normal None).
Proof.
  intros Hsel Hc Hkc Hn Hid Hkn Horph Hnd Hdir.
  assert (Hin : i ∈ nodes c).
  { destruct Hdir as [(_ & -> & _) | (_ & -> & _)]; [now left|].
    apply elem_of_app. right. now left. }
  rewrite (delete_collapsed_run fuel direction t i o (id c) c n Hsel Hc eq_refl Hkc Hn Hkn
             Horph Hin).
  unfold bind at 1.
  rewrite (text_deleteCharacter_merges t n _ direction c _ i Hn Hid)
    by (destruct Hdir as [(-> & _ & ->) | (-> & _ & ->)]; [left | right]; split; reflexivity).
  assert (Hpos : (0 <= indexOf i (nodes c))%Z) by now apply indexOf_elem.
  rewrite (merge_nothing _ c c (mkCoor [i; "content"] o) direction t i n (indexOf i (nodes c)) Hc eq_refl Hn Hid Horph
             eq_refl Hpos).
  - cbv beta iota. unfold bind, tx.setSelection, ret. simpl default.
    rewrite <- Hsel. now rewrite set_selection_same.
  - destruct Hdir as [(-> & E & _) | (-> & E & _)]; [left | right]; (split; [reflexivity|]).
    + rewrite E. unfold indexOf. simpl. now rewrite String.eqb_refl.
    + rewrite E in *. rewrite indexOf_middle.
      * rewrite length_app. simpl. lia.
      * apply NoDup_app in Hnd as (_ & Hdj & _). intros Hi. apply (Hdj i Hi). now left.
Qed.

Lemma delete_at_boundary_witness :
  let t := set_selection (PropertySelection ["t"; "content"] 0 0 (Some "body"))
             (open fooBarDoc) in
  Editing'.delete 3 "left" t = (t, Normal None).
Proof.
  apply (delete_at_boundary 0 "left" _ 0 "t" body foo ["s"]); try reflexivity.
  - apply (bool_decide_unpack _). vm_compute. exact I.
  - left. repeat split.
Defined.

Lemma getContainer_readonly sel : readonly (Editing'.getContainer sel).
Proof.
  unfold Editing'.getContainer. destruct (Editing'.containerId sel); intros t; reflexivity.
Qed.

(** X25: [delete] on a property selection that is not collapsed deletes
    the selected text, whatever the direction, and collapses the
    selection to its start, keeping its container id. *)
Theorem delete_selected_text fuel direction t i s e cid n :
  wf_store (data (stage t)) ->
  _selection t = PropertySelection [i; "content"] s e cid ->
  data (stage t) !! i = Some n -> isAnnotation n = false ->
  (0 <= s < e)%Z -> (e <= strlen (content n))%Z ->
  exists t',
    Editing'.delete (S fuel) direction t = (t', Normal None)
    /\ _selection t' = PropertySelection [i; "content"] s s cid
    /\ textOf (stage t') i = Some (str_take s (content n) +:+ str_drop e (content n))
    /\ (forall j a, j <> i -> data (stage t) !! j = Some a ->
          annotates [i; "content"] a = false -> data (stage t') !! j = Some a)
    /\ (forall j, data (stage t) !! j = None -> data (stage t') !! j = None).
Proof.
  intros Hwf Hsel Hn Hna Hse He.
  cbn [Editing'.delete].
  erewrite bind_run by (unfold tx.getSelection; rewrite Hsel; reflexivity).
  pose proof (getContainer_readonly (PropertySelection [i; "content"] s e cid) t) as R.
  unfold bind at 1.
  destruct (Editing'.getContainer _ t) as [t0 [container|err]] eqn:Eg; simpl in R; subst t0.
  2:{ exfalso. unfold Editing'.getContainer in Eg. destruct (Editing'.containerId _);
        discriminate Eg. }
  replace (s =? e)%Z with false by (symmetry; apply Z.eqb_neq; lia). cbv iota.
  destruct (deleteTextRange_run t (Some (mkCoor [i; "content"] s))
              (Some (mkCoor [i; "content"] e)) i n Hwf Hn Hna eq_refl eq_refl
              ltac:(left; eauto) ltac:(simpl; lia) ltac:(simpl; lia))
    as (t' & E & Hi & Hj & Hnone & _).
  rewrite (bind_run _ _ _ _ _ E).
  eexists. split; [reflexivity|]. split; [reflexivity|]. split; [|split].
  - unfold textOf. simpl. now rewrite Hi.
  - intros j a Hne Ha Hno. simpl. rewrite (Hj j a Hne Ha). now rewrite Hno.
  - exact Hnone.
Qed.

Lemma delete_selected_text_witness :
  exists t',
    Editing'.delete 1 "right"
      (set_selection (PropertySelection ["p1"; "content"] 5 11 None) (open splitDoc))
    = (t', Normal None)
    /\ _selection t' = PropertySelection ["p1"; "content"] 5 5 None
    /\ textOf (stage t') "p1" = Some "hello".
Proof.
  destruct (delete_selected_text 0 "right"
              (set_selection (PropertySelection ["p1"; "content"] 5 11 None) (open splitDoc))
              "p1" 5 11 None hello splitDoc_wf eq_refl eq_refl eq_refl
              ltac:(lia) ltac:(vm_compute; discriminate))
    as (t' & E & Hs & Ht & _).
  exists t'. split; [exact E|]. split; [exact Hs | exact Ht].
Defined.

Lemma createDefaultTextNode_run t text new :
  new = textNode (nextId t (defaultTextType (schema (stage t))))
          (defaultTextType (schema (stage t))) text ->
  data (stage t) !! id new = None ->
  tx.createDefaultTextNode text t
  = (commit (OpCreate new) (set_uuids (S (uuids t)) t), Normal new).
Proof.
  intros Hnew Hfresh. unfold tx.createDefaultTextNode.
  erewrite bind_run by reflexivity.
  pose proof (create_run t (textNode "" (defaultTextType (schema (stage t))) text) eq_refl)
    as Hcr.
  change (type (textNode "" (defaultTextType (schema (stage t))) text))
    with (defaultTextType (schema (stage t))) in Hcr.
  rewrite Hnew in Hfresh. specialize (Hcr Hfresh).
  rewrite Hcr, Hnew. reflexivity.
Qed.

Lemma hideAtOf_container fuel c container pos :
  kind c = ContainerClass ->
  ContainerEditing'.hideAtOf (getEditing (S fuel) c) container pos
  = ContainerEditing.hideAt container pos.
Proof. intros H. now rewrite getEditing_container. Qed.

Lemma hideOf_container fuel c container x :
  kind c = ContainerClass ->
  ContainerEditing'.hideOf (getEditing (S fuel) c) container x
  = ContainerEditing.hide container x.
Proof. intros H. now rewrite getEditing_container. Qed.

Lemma showOf_container fuel c container node pos :
  kind c = ContainerClass ->
  ContainerEditing'.showOf (getEditing (S fuel) c) container node pos
  = ContainerEditing.show container node pos.
Proof. intros H. now rewrite getEditing_container. Qed.

(** The selected node is taken out and an empty text node put in its
    place. *)
Lemma replace_by_text_run t c pre x post xn new text :
  data (stage t) !! id c = Some c ->
  nodes c = pre ++ x :: post -> x ∉ pre ->
  data (stage t) !! x = Some xn -> id xn = x -> x <> id c ->
  new = textNode (nextId t (defaultTextType (schema (stage t))))
          (defaultTextType (schema (stage t))) text ->
  data (stage t) !! id new = None ->
  let t1 := commit (OpArrayDelete [id c; "nodes"] (Z.of_nat (length pre)) x) t in
  let t2 := commit (OpDelete xn) t1 in
  let t3 := commit (OpCreate new) (set_uuids (S (uuids t2)) t2) in
  let t4 := commit (OpArrayInsert [id c; "nodes"] (Z.of_nat (length pre)) (id new)) t3 in
  ContainerEditing.hideAt c (Z.of_nat (length pre)) t = (t1, Normal tt)
  /\ ContainerEditing.getNode x t1 = (t1, Normal xn)
  /\ documentHelpers.deleteNode xn t1 = (t2, Normal tt)
  /\ tx.createDefaultTextNode text t2 = (t3, Normal new)
  /\ ContainerEditing.show c (OneNode (id new)) (Some (Z.of_nat (length pre))) t3
     = (t4, Normal tt)
  /\ data (stage t4) !! id c = Some (set_nodes (pre ++ id new :: post) c)
  /\ data (stage t4) !! x = None
  /\ data (stage t4) !! id new = Some new
  /\ (forall j, j <> id c -> j <> x -> j <> id new ->
        data (stage t4) !! j = data (stage t) !! j)
  /\ _selection t4 = _selection t.
Proof.
  intros Hc Hn Hx Hxn Hid Hxc Hnew Hfresh t1 t2 t3 t4.
  assert (Hnx : id new <> x) by (intros E; rewrite E, Hxn in Hfresh; discriminate).
  assert (Hnc : id new <> id c) by (intros E; rewrite E, Hc in Hfresh; discriminate).
  assert (Hc1 : data (stage t1) !! id c = Some (set_nodes (pre ++ post) c)).
  { subst t1. rewrite data_commit_array_delete, lookup_alter_eq, Hc. simpl.
    now rewrite Hn, array_delete_middle. }
  assert (Hx1 : data (stage t1) !! x = Some xn).
  { subst t1. rewrite data_commit_array_delete, lookup_alter_ne by congruence. exact Hxn. }
  assert (Hc2 : data (stage t2) !! id c = Some (set_nodes (pre ++ post) c)).
  { subst t2. rewrite data_commit_delete, lookup_delete_ne by congruence. exact Hc1. }
  assert (Hf2 : data (stage t2) !! id new = None).
  { subst t2. rewrite data_commit_delete, lookup_delete_ne by congruence.
    subst t1. rewrite data_commit_array_delete, lookup_alter_ne by congruence. exact Hfresh. }
  assert (Hnew2 : new = textNode (nextId t2 (defaultTextType (schema (stage t2))))
                          (defaultTextType (schema (stage t2))) text).
  { subst t2 t1. rewrite !schema_commit. unfold nextId. rewrite !uuids_commit. exact Hnew. }
  assert (Hc3 : data (stage t3) !! id c = Some (set_nodes (pre ++ post) c)).
  { subst t3. rewrite data_commit_create, lookup_insert_ne by congruence. exact Hc2. }
  split.
  { apply (hideAt_run t c c _ x Hc); [lia|]. rewrite Nat2Z.id, Hn.
    now apply list_lookup_middle. }
  split; [now apply getNode_run|].
  split.
  { unfold documentHelpers.deleteNode. rewrite Hid. now apply delete_run. }
  split; [now apply createDefaultTextNode_run|].
  split.
  { apply (array_insert_run t3 c _ _ _ Hc3). simpl. rewrite length_app. lia. }
  split.
  { subst t4. rewrite data_commit_array_insert, lookup_alter_eq, Hc3. simpl.
    now rewrite array_insert_middle. }
  split.
  { subst t4. rewrite data_commit_array_insert, lookup_alter_ne by congruence.
    subst t3. rewrite data_commit_create, lookup_insert_ne by congruence.
    change (stage (set_uuids (S (uuids t2)) t2)) with (stage t2).
    subst t2. rewrite data_commit_delete, Hid. apply lookup_delete_eq. }
  split.
  { subst t4. rewrite data_commit_array_insert, lookup_alter_ne by congruence.
    subst t3. rewrite data_commit_create. apply lookup_insert_eq. }
  split; [|reflexivity].
  intros j Hjc Hjx Hjn.
  subst t4. rewrite data_commit_array_insert, lookup_alter_ne by congruence.
  subst t3. rewrite data_commit_create, lookup_insert_ne by congruence.
  change (stage (set_uuids (S (uuids t2)) t2)) with (stage t2).
  subst t2. rewrite data_commit_delete, Hid, lookup_delete_ne by congruence.
  subst t1. rewrite data_commit_array_delete. now rewrite lookup_alter_ne by congruence.
Qed.

(** X26: [delete] on a node selection that covers the node ('full'), or
    stands before it going right, or after it going left: the node is
    hidden and deleted, an empty node of the default text type is created
    and shown at its position, and the cursor is put into it. *)
Theorem delete_selected_node fuel direction t c pre x post xn mode new :
  _selection t = NodeSelection (id c) x mode ->
  mode = "full" \/ (mode = "before" /\ direction = "right")
  \/ (mode = "after" /\ direction = "left") ->
  data (stage t) !! id c = Some c -> kind c = ContainerClass ->
  nodes c = pre ++ x :: post -> x ∉ pre ->
  data (stage t) !! x = Some xn -> id xn = x -> x <> id c ->
  parents (stage t) !! x = None ->
  new = textNode (nextId t (defaultTextType (schema (stage t))))
          (defaultTextType (schema (stage t))) "" ->
  data (stage t) !! id new = None ->
  exists t',
    Editing'.delete (S (S fuel)) direction t = (t', Normal None)
    /\ _selection t' = PropertySelection [id new; "content"] 0 0 (Some (id c))
    /\ childrenOf (stage t') (id c) = Some (pre ++ id new :: post)
    /\ data (stage t') !! x = None
    /\ data (stage t') !! id new = Some new
    /\ (forall j, j <> id c -> j <> x -> j <> id new ->
          data (stage t') !! j = data (stage t) !! j).
Proof.
  intros Hsel Hmode Hc Hkc Hn Hx Hxn Hid Hxc Horph Hnew Hfresh.
  destruct (replace_by_text_run t c pre x post xn new "" Hc Hn Hx Hxn Hid Hxc Hnew Hfresh)
    as (E1 & E2 & E3 & E4 & E5 & Dc & Dx & Dn & Dother & _).
  assert (Hroot : getRoot (stage t) x = x) by now apply getRoot_orphan.
  assert (Hpos : indexOf (getRoot (stage t) x) (nodes c) = Z.of_nat (length pre)).
  { rewrite Hroot, Hn. now apply indexOf_middle. }
  cbn [Editing'.delete].
  erewrite bind_run by (unfold tx.getSelection; rewrite Hsel; reflexivity).
  erewrite bind_run by (unfold Editing'.getContainer, Editing'.containerId, tx.get;
                        rewrite Hc; reflexivity).
  cbv beta iota. unfold Editing'._deleteNodeSelection.
  erewrite bind_run.
  2:{ erewrite bind_run by reflexivity. cbv zeta.
      erewrite bind_run
        by (apply (getPosition_run t c c x true Hc); [eauto | rewrite Hpos; lia]).
      rewrite Hpos.
      assert (Hcond : (String.eqb mode "full"
                       || (String.eqb mode "before" && String.eqb direction "right")
                       || (String.eqb mode "after" && String.eqb direction "left")) = true).
      { destruct Hmode as [-> | [[-> ->] | [-> ->]]]; reflexivity. }
      rewrite Hcond. cbv iota.
      rewrite hideAtOf_container by exact Hkc.
      erewrite bind_run by exact E1.
      erewrite bind_run by exact E2.
      erewrite bind_run by exact E3.
      erewrite bind_run by exact E4.
      rewrite showOf_container by exact Hkc.
      erewrite bind_run by exact E5.
      reflexivity. }
  eexists. split; [reflexivity|]. split; [reflexivity|].
  unfold childrenOf. cbn [stage set_selection]. rewrite Dc. repeat split; assumption.
Qed.

Lemma delete_selected_node_witness :
  exists t',
    Editing'.delete 2 "left"
      (set_selection (NodeSelection "body" "img" "full") (open galleryDoc))
    = (t', Normal None)
    /\ _selection t' = PropertySelection ["paragraph-0"; "content"] 0 0 (Some "body")
    /\ childrenOf (stage t') "body" = Some ["paragraph-0"; "e"]
    /\ data (stage t') !! "img" = None.
Proof.
  destruct (delete_selected_node 0 "left"
              (set_selection (NodeSelection "body" "img" "full") (open galleryDoc))
              gallery [] "img" ["e"] figure "full" (textNode "paragraph-0" "paragraph" ""))
    as (t' & E & Hs & Hc & Hx & _); try reflexivity.
  - now left.
  - apply not_elem_of_nil.
  - discriminate.
  - exists t'. split; [exact E|]. split; [exact Hs|]. split; [exact Hc | exact Hx].
Defined.

(** A collapsed property selection without a container: [delete] asks the
    behaviour of the node, without a root. *)
Lemma delete_collapsed_alone_run fuel direction t i o n :
  _selection t = PropertySelection [i; "content"] o o None ->
  data (stage t) !! i = Some n -> kind n = TextClass ->
  Editing'.delete (S (S fuel)) direction t
  = (let* sel' := TextNodeEditing'.deleteCharacter n (mkCoor [i; "content"] o) direction
                    None in
     tx.setSelection (default (PropertySelection [i; "content"] o o None) sel') >>
     ret None) t.
Proof.
  intros Hsel Hn Hkn. cbn [Editing'.delete].
  erewrite bind_run by (unfold tx.getSelection; rewrite Hsel; reflexivity).
  erewrite bind_run by reflexivity.
  cbv beta iota. rewrite Z.eqb_refl. cbv iota.
  change (path0 (mkCoor [i; "content"] o)) with i.
  unfold bind at 1. unfold bind at 1. unfold tx.get at 1. rewrite Hn.
  unfold bind at 1. unfold Editing'.defined at 1. unfold ret at 1.
  rewrite (deleteCharacterOf_text _ n Hkn). reflexivity.
Qed.

(** The cursor is put into a text node and [delete] entered again. *)
Lemma reenter_run fuel direction t y yn o :
  let at' := if String.eqb direction "left" then (o - 1)%Z else o in
  wf_store (data (stage t)) ->
  data (stage t) !! y = Some yn -> kind yn = TextClass ->
  (0 <= at' < strlen (content yn))%Z ->
  exists t' containerId,
    (tx.setSelection (PropertySelection [y; "content"] o o None) >>
     Editing'.delete (S (S fuel)) direction >> ret tt) t = (t', Normal tt)
    /\ _selection t' = PropertySelection [y; "content"] at' at' containerId
    /\ data (stage t') !! y
       = Some (set_content (str_take at' (content yn) +:+ str_drop (at' + 1) (content yn)) yn)
    /\ (forall j a, j <> y -> data (stage t) !! j = Some a ->
          annotates [y; "content"] a = false -> data (stage t') !! j = Some a).
Proof.
  intros at' Hwf Hyn Hky Hat.
  pose proof (Hwf _ _ Hyn) as Hyid.
  assert (Hya : isAnnotation yn = false)
    by (apply text_not_annotation, bool_decide_eq_true; exact Hky).
  erewrite bind_run by reflexivity.
  set (t1 := set_selection _ t).
  assert (Hyn1 : data (stage t1) !! y = Some yn) by exact Hyn.
  assert (Hwf1 : wf_store (data (stage t1))) by exact Hwf.
  rewrite (bind_run _ _ t1
             (set_selection (PropertySelection [y; "content"] at' at' None)
                (fst (NodeEditing.deleteCharacter yn (mkCoor [y; "content"] o) direction t1)))
             None).
  2:{ rewrite (delete_collapsed_alone_run fuel direction t1 y o yn eq_refl Hyn1 Hky).
      destruct (deleteCharacter_run t1 yn (mkCoor [y; "content"] o) direction y yn Hwf1
                  eq_refl Hyn1 Hya Hat) as (t2 & E & _).
      erewrite bind_run.
      2:{ rewrite (text_deleteCharacter_inside t1 yn (mkCoor [y; "content"] o) direction None
                     y Hyn1 Hyid Hat).
          unfold NodeEditing'.deleteCharacter. erewrite bind_run by exact E. reflexivity. }
      rewrite E. reflexivity. }
  destruct (deleteCharacter_run t1 yn (mkCoor [y; "content"] o) direction y yn Hwf1
              eq_refl Hyn1 Hya Hat) as (t2 & E & Hi & Hj & _).
  rewrite E. eexists. exists None. split; [reflexivity|]. split; [reflexivity|].
  split; [exact Hi | exact Hj].
Qed.

(** X27: [delete] with a node selection before a node going left, or after
    it going right, when the neighbouring child on that side is a text
    node that is not empty: the cursor is put at the end (at the start)
    of the neighbour and [delete] is entered again, which takes out the
    last (the first) character of the neighbour; the selected node stays. *)
Theorem delete_beside_node fuel direction t c pre x y post mode yn xn :
  let at' := if String.eqb direction "left" then (strlen (content yn) - 1)%Z else 0%Z in
  wf_store (data (stage t)) ->
  _selection t = NodeSelection (id c) x mode ->
  data (stage t) !! id c = Some c -> kind c = ContainerClass ->
  (mode = "before" /\ direction = "left" /\ nodes c = pre ++ y :: x :: post)
  \/ (mode = "after" /\ direction = "right" /\ nodes c = pre ++ x :: y :: post) ->
  NoDup (nodes c) ->
  data (stage t) !! x = Some xn -> isAnnotation xn = false ->
  parents (stage t) !! x = None ->
  data (stage t) !! y = Some yn -> kind yn = TextClass ->
  (0 < strlen (content yn))%Z ->
  exists t' containerId,
    Editing'.delete (S (S (S fuel))) direction t = (t', Normal None)
    /\ _selection t' = PropertySelection [y; "content"] at' at' containerId
    /\ textOf (stage t') y
       = Some (str_take at' (content yn) +:+ str_drop (at' + 1) (content yn))
    /\ childrenOf (stage t') (id c) = Some (nodes c)
    /\ data (stage t') !! x = Some xn.
Proof.
  intros at' Hwf Hsel Hc Hkc Hcase Hnd Hxn Hxa Horph Hyn Hky Hlen.
  pose proof (Hwf _ _ Hyn) as Hyid.
  assert (Hroot : getRoot (stage t) x = x) by now apply getRoot_orphan.
  assert (Hcy : id c <> y) by (intros E; rewrite E, Hyn in Hc; congruence).
  assert (Hca : isAnnotation c = false) by (apply bool_decide_eq_false; congruence).
  assert (Hxy : x <> y).
  { intros ->. destruct Hcase as [(_ & _ & E) | (_ & _ & E)]; rewrite E in Hnd;
      apply NoDup_app in Hnd as (_ & _ & Hnd); apply NoDup_cons in Hnd as [Hnot _];
      apply Hnot; now left. }
  assert (Hrun : exists o,
    Editing'.delete (S (S (S fuel))) direction t
    = ((tx.setSelection (PropertySelection [y; "content"] o o None) >>
        Editing'.delete (S (S fuel)) direction >> ret tt) >> ret None) t
    /\ at' = if String.eqb direction "left" then (o - 1)%Z else o).
  { cbn [Editing'.delete].
    erewrite bind_run by (unfold tx.getSelection; rewrite Hsel; reflexivity).
    erewrite bind_run by (unfold Editing'.getContainer, Editing'.containerId, tx.get;
                          rewrite Hc; reflexivity).
    cbv beta iota. unfold Editing'._deleteNodeSelection.
    destruct Hcase as [(-> & -> & Hn) | (-> & -> & Hn)].
    - exists (strlen (content yn)). split; [|reflexivity].
      assert (Hpos : indexOf (getRoot (stage t) x) (nodes c) = Z.of_nat (S (length pre))).
      { rewrite Hroot, Hn. apply indexOf_second. now rewrite <- Hn. }
      unfold bind at 1. unfold bind at 1. unfold Editing'.defined, ret at 1. cbv zeta.
      unfold bind at 1.
      assert (Hpos0 : (0 <= indexOf (getRoot (stage t) x) (nodes c))%Z)
        by (rewrite Hpos; lia).
      rewrite (getPosition_run t c c x true Hc ltac:(eauto) Hpos0).
      rewrite Hpos.
      change ("before" =? "full") with false. change ("left" =? "right") with false.
      change ("before" =? "after") with false. cbv [orb andb]. cbv iota.
      change ("before" =? "before") with true. change ("left" =? "left") with true.
      cbv iota.
      replace (Z.of_nat (S (length pre)) >? 0)%Z with true by (symmetry; apply Z.gtb_lt; lia).
      cbv iota. unfold bind at 1.
      rewrite (getChild_run t c c (Z.of_nat (S (length pre)) - 1)%Z y yn Hc ltac:(lia));
        [| |exact Hyn].
      2:{ replace (Z.to_nat (Z.of_nat (S (length pre)) - 1)) with (length pre) by lia.
          rewrite Hn. now apply list_lookup_middle. }
      unfold isText, getLength, isText, getTextPath, getPath.
      rewrite !bool_decide_eq_true_2 by exact Hky. rewrite Hyid. reflexivity.
    - exists 0%Z. split; [|reflexivity].
      assert (Hpos : indexOf (getRoot (stage t) x) (nodes c) = Z.of_nat (length pre)).
      { rewrite Hroot, Hn. apply indexOf_first. now rewrite <- Hn. }
      unfold bind at 1. unfold bind at 1. unfold Editing'.defined, ret at 1. cbv zeta.
      unfold bind at 1.
      assert (Hpos0 : (0 <= indexOf (getRoot (stage t) x) (nodes c))%Z)
        by (rewrite Hpos; lia).
      rewrite (getPosition_run t c c x true Hc ltac:(eauto) Hpos0).
      rewrite Hpos.
      change ("after" =? "full") with false. change ("after" =? "before") with false.
      change ("right" =? "left") with false. cbv [orb andb]. cbv iota.
      change ("after" =? "after") with true. change ("right" =? "right") with true.
      cbv iota. unfold bind at 1.
      rewrite (getLength_run t c c Hc).
      replace (Z.of_nat (length pre) <? Z.of_nat (length (nodes c)) - 1)%Z with true.
      2:{ symmetry. apply Z.ltb_lt. rewrite Hn, length_app. simpl. lia. }
      cbv iota. unfold bind at 1.
      rewrite (getChild_run t c c (Z.of_nat (length pre) + 1)%Z y yn Hc ltac:(lia));
        [| |exact Hyn].
      2:{ replace (Z.to_nat (Z.of_nat (length pre) + 1)) with (S (length pre)) by lia.
          rewrite Hn. apply lookup_second. }
      unfold isText, getTextPath, getPath.
      rewrite !bool_decide_eq_true_2 by exact Hky. rewrite Hyid. reflexivity. }
  destruct Hrun as (o & E & Hat).
  destruct (reenter_run fuel direction t y yn o Hwf Hyn Hky) as (t' & cid & E' & Hs & Hy & Hj).
  { rewrite <- Hat. subst at'. destruct (String.eqb direction "left"); lia. }
  rewrite <- Hat in Hs, Hy.
  exists t', cid. split; [|split; [exact Hs|split; [|split]]].
  - rewrite E. unfold bind at 1. rewrite E'. reflexivity.
  - unfold textOf. now rewrite Hy.
  - unfold childrenOf. rewrite (Hj (id c) c Hcy Hc); [reflexivity|].
    unfold annotates. now rewrite Hca.
  - apply Hj; [exact Hxy | exact Hxn |]. unfold annotates. now rewrite Hxa.
Qed.

Lemma delete_beside_node_witness :
  exists t' containerId,
    Editing'.delete 3 "right"
      (set_selection (NodeSelection "body" "t" "after") (open fooBarDoc))
    = (t', Normal None)
    /\ _selection t' = PropertySelection ["s"; "content"] 0 0 containerId
    /\ textOf (stage t') "s" = Some "ar".
Proof.
  destruct (delete_beside_node 0 "right"
              (set_selection (NodeSelection "body" "t" "after") (open fooBarDoc))
              body [] "t" "s" [] "after" bar foo fooBarDoc_wf)
    as (t' & cid & E & Hs & Ht & _); try reflexivity.
  - right. repeat split.
  - apply (bool_decide_unpack _). vm_compute. exact I.
  - exists t', cid. split; [exact E|]. split; [exact Hs | exact Ht].
Defined.

(** ** Typing at the selection *)

(** X28: [insertText] on a property selection replaces the selected range
    of the text (nothing, when the selection is collapsed) by the text
    typed and puts the cursor behind it; the selection of the transaction
    is the one [insertText] or [replaceText] of the node returns. *)
Theorem insertText_at_selection fuel text t i s e cid n :
  wf_store (data (stage t)) ->
  _selection t = PropertySelection [i; "content"] s e cid ->
  data (stage t) !! i = Some n -> isAnnotation n = false ->
  (0 <= s <= e)%Z -> (e <= strlen (content n))%Z ->
  exists t' containerId,
    Editing'.insertText (S fuel) text t = (t', Normal tt)
    /\ _selection t'
       = PropertySelection [i; "content"] (s + strlen text) (s + strlen text) containerId
    /\ textOf (stage t') i
       = Some (str_take s (content n) +:+ text +:+ str_drop e (content n))
    /\ (forall j a, j <> i -> data (stage t) !! j = Some a ->
          annotates [i; "content"] a = false -> data (stage t') !! j = Some a)
    /\ (forall j, data (stage t) !! j = None -> data (stage t') !! j = None).
Proof.
  intros Hwf Hsel Hn Hna Hse He.
  destruct (replaceText_run t n (mkCoor [i; "content"] s) (mkCoor [i; "content"] e) text i n
              Hwf eq_refl Hn Hna Hse He) as (t' & E & Hi & Hj & Hnone & _).
  assert (E' : (if (s =? e)%Z
                then NodeEditing.insertText n (mkCoor [i; "content"] s) text
                else NodeEditing.replaceText n (mkCoor [i; "content"] s)
                       (mkCoor [i; "content"] e) text) t
               = (t', Normal (PropertySelection [i; "content"] (s + strlen text)
                                (s + strlen text) None))).
  { destruct (Z.eqb_spec s e) as [->|Hne]; [|exact E]. exact E. }
  cbn [Editing'.insertText].
  erewrite bind_run by (unfold tx.getSelection; rewrite Hsel; reflexivity).
  cbv beta iota. change (path0 (mkCoor [i; "content"] s)) with i.
  erewrite bind_run by (unfold tx.get; rewrite Hn; reflexivity).
  erewrite bind_run by reflexivity.
  erewrite bind_run by exact E'.
  eexists. exists None. split; [reflexivity|]. split; [reflexivity|]. split; [|split].
  - unfold textOf. cbn [stage set_selection]. now rewrite Hi.
  - intros j a Hne Ha Hno. cbn [stage set_selection]. rewrite (Hj j a Hne Ha). now rewrite Hno.
  - exact Hnone.
Qed.

Lemma insertText_at_selection_witness :
  exists t' containerId,
    Editing'.insertText 1 "HEY"
      (set_selection (PropertySelection ["p1"; "content"] 0 5 None) (open splitDoc))
    = (t', Normal tt)
    /\ _selection t' = PropertySelection ["p1"; "content"] 3 3 containerId
    /\ textOf (stage t') "p1" = Some "HEY world".
Proof.
  destruct (insertText_at_selection 0 "HEY"
              (set_selection (PropertySelection ["p1"; "content"] 0 5 None) (open splitDoc))
              "p1" 0 5 None hello splitDoc_wf eq_refl eq_refl eq_refl
              ltac:(lia) ltac:(vm_compute; discriminate))
    as (t' & cid & E & Hs & Ht & _).
  exists t', cid. split; [exact E|]. split; [exact Hs | exact Ht].
Defined.

(** X29: [insertText] on a node selection creates a node of the default
    text type holding the text typed.  Before the node it is shown at the
    node's position, after the node one position further; otherwise the
    selected node is hidden and deleted and the new node shown in its
    place.  The cursor is put at the end of the new text. *)
Theorem insertText_at_node fuel text t c pre x post xn mode new :
  _selection t = NodeSelection (id c) x mode ->
  data (stage t) !! id c = Some c -> kind c = ContainerClass ->
  nodes c = pre ++ x :: post -> x ∉ pre ->
  data (stage t) !! x = Some xn -> id xn = x -> x <> id c ->
  parents (stage t) !! x = None ->
  new = textNode (nextId t (defaultTextType (schema (stage t))))
          (defaultTextType (schema (stage t))) text ->
  data (stage t) !! id new = None ->
  exists t',
    Editing'.insertText (S (S fuel)) text t = (t', Normal tt)
    /\ _selection t'
       = PropertySelection [id new; "content"] (strlen text) (strlen text) (Some (id c))
    /\ data (stage t') !! id new = Some new
    /\ childrenOf (stage t') (id c)
       = Some (if String.eqb mode "before" then pre ++ id new :: x :: post
               else if String.eqb mode "after" then pre ++ x :: id new :: post
               else pre ++ id new :: post)
    /\ data (stage t') !! x
       = (if String.eqb mode "before" || String.eqb mode "after" then Some xn else None).
Proof.
  intros Hsel Hc Hkc Hn Hx Hxn Hid Hxc Horph Hnew Hfresh.
  assert (Hnx : id new <> x) by (intros E; rewrite E, Hxn in Hfresh; discriminate).
  assert (Hnc : id new <> id c) by (intros E; rewrite E, Hc in Hfresh; discriminate).
  assert (Hroot : getRoot (stage t) x = x) by now apply getRoot_orphan.
  assert (Hpos : indexOf (getRoot (stage t) x) (nodes c) = Z.of_nat (length pre)).
  { rewrite Hroot, Hn. now apply indexOf_middle. }
  cbn [Editing'.insertText].
  erewrite bind_run by (unfold tx.getSelection; rewrite Hsel; reflexivity).
  cbv beta iota.
  erewrite bind_run by (unfold tx.get; rewrite Hc; reflexivity).
  erewrite bind_run by reflexivity. cbv zeta.
  erewrite bind_run
    by (apply (getPosition_run t c c x true Hc); [eauto | rewrite Hpos; lia]).
  rewrite Hpos.
  erewrite bind_run by (apply (createDefaultTextNode_run t text new Hnew Hfresh)).
  set (t1 := commit (OpCreate new) _).
  assert (D1 : forall j, j <> id new -> data (stage t1) !! j = data (stage t) !! j).
  { intros j Hj. subst t1. rewrite data_commit_create. now rewrite lookup_insert_ne by congruence. }
  assert (Hn1 : data (stage t1) !! id new = Some new).
  { subst t1. rewrite data_commit_create. apply lookup_insert_eq. }
  assert (Hc1 : data (stage t1) !! id c = Some c) by (rewrite D1 by congruence; exact Hc).
  assert (Hx1 : data (stage t1) !! x = Some xn) by (rewrite D1 by congruence; exact Hxn).
  assert (Hroot1 : getRoot (stage t1) x = x).
  { apply getRoot_orphan. subst t1. rewrite parents_commit. exact Horph. }
  assert (Hkn : kind new = TextClass) by (rewrite Hnew; reflexivity).
  assert (Hcur : forall t2, data (stage t2) !! id new = Some new ->
            Editing'.setCursor new (Some (id c)) "after" t2
            = (set_selection (PropertySelection [id new; "content"] (strlen text)
                                (strlen text) (Some (id c))) t2, Normal tt)).
  { intros t2 H2. unfold Editing'.setCursor.
    erewrite bind_run by (apply (selectCursor_text_run t2 new _ "after" H2 Hkn)).
    change ("after" =? "after") with true. cbv iota.
    assert (Hct : content new = text) by (rewrite Hnew; reflexivity).
    now rewrite Hct. }
  rewrite !showOf_container, hideOf_container by exact Hkc.
  destruct (String.eqb mode "before") eqn:Eb; [|destruct (String.eqb mode "after") eqn:Ea].
  - (* before *)
    erewrite bind_run
      by (apply (array_insert_run t1 c c _ (id new) Hc1); rewrite Hn, length_app; simpl; lia).
    set (t2 := commit _ t1).
    assert (D2 : forall j, j <> id c -> data (stage t2) !! j = data (stage t1) !! j).
    { intros j Hj. subst t2. rewrite data_commit_array_insert.
      now rewrite lookup_alter_ne by congruence. }
    rewrite Hcur by (rewrite D2 by exact Hnc; exact Hn1).
    eexists. split; [reflexivity|]. split; [reflexivity|]. cbn [stage set_selection].
    split; [rewrite D2 by exact Hnc; exact Hn1|]. split.
    + unfold childrenOf. subst t2. rewrite data_commit_array_insert, lookup_alter_eq, Hc1.
      simpl. now rewrite Hn, array_insert_middle.
    + simpl. rewrite D2 by congruence. exact Hx1.
  - (* after *)
    erewrite bind_run
      by (apply (array_insert_run t1 c c _ (id new) Hc1); rewrite Hn, length_app; simpl; lia).
    set (t2 := commit _ t1).
    assert (D2 : forall j, j <> id c -> data (stage t2) !! j = data (stage t1) !! j).
    { intros j Hj. subst t2. rewrite data_commit_array_insert.
      now rewrite lookup_alter_ne by congruence. }
    rewrite Hcur by (rewrite D2 by exact Hnc; exact Hn1).
    eexists. split; [reflexivity|]. split; [reflexivity|]. cbn [stage set_selection].
    split; [rewrite D2 by exact Hnc; exact Hn1|]. split.
    + unfold childrenOf. subst t2. rewrite data_commit_array_insert, lookup_alter_eq, Hc1.
      simpl. rewrite Hn.
      replace (pre ++ x :: post) with ((pre ++ [x]) ++ post) by (now rewrite <- app_assoc).
      replace (Z.of_nat (length pre) + 1)%Z with (Z.of_nat (length (pre ++ [x])))
        by (rewrite length_app; simpl; lia).
      rewrite array_insert_middle. now rewrite <- app_assoc.
    + simpl. rewrite D2 by congruence. exact Hx1.
  - (* the node is replaced *)
    erewrite bind_run.
    2:{ erewrite bind_run
          by (apply (hide_run t1 c c x Hc1); [eauto | rewrite Hroot1, Hn, indexOf_middle; [lia | exact Hx]]).
        rewrite Hroot1, Hn, indexOf_middle by exact Hx.
        set (t2 := commit _ t1).
        assert (Hc2 : data (stage t2) !! id c = Some (set_nodes (pre ++ post) c)).
        { subst t2. rewrite data_commit_array_delete, lookup_alter_eq, Hc1. simpl.
          now rewrite Hn, array_delete_middle. }
        assert (Hx2 : data (stage t2) !! x = Some xn).
        { subst t2. rewrite data_commit_array_delete, lookup_alter_ne by congruence.
          exact Hx1. }
        erewrite bind_run by (apply (getNode_run t2 x xn Hx2)).
        unfold documentHelpers.deleteNode. rewrite Hid.
        erewrite bind_run by (apply (delete_run t2 x xn Hx2)).
        apply (array_insert_run _ c (set_nodes (pre ++ post) c)).
        - rewrite data_commit_delete, lookup_delete_ne by congruence. exact Hc2.
        - simpl. rewrite length_app. lia. }
    set (t4 := commit (OpArrayInsert _ _ _) _).
    assert (D4 : forall j, data (stage t4) !! j
                 = if decide (j = id c) then Some (set_nodes (pre ++ id new :: post) c)
                   else if decide (j = x) then None else data (stage t1) !! j).
    { intros j. subst t4. rewrite data_commit_array_insert.
      destruct (decide (j = id c)) as [->|Hjc].
      - rewrite lookup_alter_eq, data_commit_delete, lookup_delete_ne by congruence.
        rewrite data_commit_array_delete, lookup_alter_eq, Hc1. simpl.
        now rewrite Hn, array_delete_middle, array_insert_middle.
      - rewrite lookup_alter_ne by congruence. rewrite data_commit_delete, Hid.
        destruct (decide (j = x)) as [->|Hjx]; [apply lookup_delete_eq|].
        rewrite lookup_delete_ne by congruence.
        rewrite data_commit_array_delete. now rewrite lookup_alter_ne by congruence. }
    rewrite Hcur.
    2:{ rewrite D4. rewrite decide_False by exact Hnc. now rewrite decide_False by exact Hnx. }
    eexists. split; [reflexivity|]. split; [reflexivity|]. cbn [stage set_selection].
    split; [|split].
    + rewrite D4. rewrite decide_False by exact Hnc. now rewrite decide_False by exact Hnx.
    + unfold childrenOf. rewrite D4. now rewrite decide_True by reflexivity.
    + simpl. rewrite D4. rewrite decide_False by exact Hxc. now rewrite decide_True.
Qed.

Lemma insertText_at_node_witness :
  exists t',
    Editing'.insertText 2 "hi"
      (set_selection (NodeSelection "body" "img" "full") (open galleryDoc))
    = (t', Normal tt)
    /\ _selection t' = PropertySelection ["paragraph-0"; "content"] 2 2 (Some "body")
    /\ childrenOf (stage t') "body" = Some ["paragraph-0"; "e"]
    /\ data (stage t') !! "img" = None.
Proof.
  destruct (insertText_at_node 0 "hi"
              (set_selection (NodeSelection "body" "img" "full") (open galleryDoc))
              gallery [] "img" ["e"] figure "full" (textNode "paragraph-0" "paragraph" "hi"))
    as (t' & E & Hs & _ & Hc & Hx); try reflexivity.
  - apply not_elem_of_nil.
  - discriminate.
  - exists t'. split; [exact E|]. split; [exact Hs|]. split; [exact Hc | exact Hx].
Defined.

(** ** The merge types of a container *)

Lemma indexOfFrom_absent x l : forall k, x ∉ l -> indexOfFrom k x l = (-1)%Z.
Proof.
  induction l as [|y l IH]; intros k Hx; [reflexivity|]. simpl.
  apply not_elem_of_cons in Hx as [Hne Hx].
  destruct (String.eqb_spec x y); [contradiction|]. now apply IH.
Qed.

(** X30: [getMergeAsTypes] of a container asked about the container
    itself.  The test compares the id in the coordinate with
    [container.id[0]], the first character of the container's id: unless
    the id is one character long the test fails, the container is looked
    up among its own children, and [getPosition(..., 'strict')] throws;
    with an id of one character the answer is ['container']. *)
Theorem getMergeAsTypes_of_container_itself ed container c coor t :
  data (stage t) !! id container = Some c ->
  path0 coor = id container -> path coor <> [] ->
  getRoot (stage t) (id container) ∉ nodes c ->
  ContainerEditing.getMergeAsTypes ed container coor t
  = if (String.length (id container) =? 1)%nat
    then (t, Normal ["container"])
    else (t, Throw (Error "Node is not within this container")).
Proof.
  intros Hc Hp Hne Hout. unfold ContainerEditing.getMergeAsTypes.
  assert (Hhead : head (path coor) = Some (id container)).
  { unfold path0 in Hp. destruct (path coor) as [|x l]; [congruence|]. simpl in *.
    now rewrite Hp. }
  rewrite Hhead.
  assert (Hthrow : (let* nodePos := Container.getPosition container (path0 coor) true in
                    let* child := ContainerEditing.getChild container nodePos in
                    let* types := Behaviour.getMergeAsTypes (ed child) child coor in
                    ret (types ++ ["container"])) t
                   = (t, Throw (Error "Node is not within this container"))).
  { unfold bind at 1. rewrite Hp.
    unfold Container.getPosition, bind, Container.nodes, bind, tx.live, bind, tx.get.
    rewrite !Hc. simpl. unfold indexOf. rewrite indexOfFrom_absent by exact Hout.
    rewrite ?Hc. reflexivity. }
  destruct (id container) as [|a [|b s]] eqn:Eid.
  - (* the empty id: [container.id[0]] is undefined *)
    rewrite andb_false_r. exact Hthrow.
  - rewrite bool_decide_eq_true_2 by reflexivity. reflexivity.
  - rewrite bool_decide_eq_false_2 by (intros E; discriminate E). exact Hthrow.
Qed.

Lemma getMergeAsTypes_of_container_itself_witness :
  ContainerEditing.getMergeAsTypes (getEditing 1) body (mkCoor ["body"] 0) (open fooBarDoc)
  = (open fooBarDoc, Throw (Error "Node is not within this container")).
Proof.
  apply (getMergeAsTypes_of_container_itself (getEditing 1) body body (mkCoor ["body"] 0)
           (open fooBarDoc)); try reflexivity.
  - discriminate.
  - apply (bool_decide_unpack _). vm_compute. exact I.
Defined.
